(** * GS1 Application Identifier data: parsing, validation and extraction

    A shallow embedding of the AI/Digital Link core of the GS1 barcode
    engine (src/c-lib: the AI table, the linters, [lookupAIentry],
    [validate_ai_val], [gs1_parseAIdata], [gs1_parseDLuri],
    [gs1_processAIdata] and [gs1_validateParity]) together with the
    properties established about it.

    Conventions.
    - A C string is a [list ascii]; a [char *] into a string is the suffix
      it points at, or an offset into the buffer where the code keeps the
      offset (the [value] of an extracted AI).  The terminator is implicit:
      the end of the list is the NUL.  The public entry points first take
      the C view [c_str] of their argument, the bytes before the first NUL.
    - Lengths and offsets ([size_t]) are [nat]: every one of them is the
      length of a list or is bounded by one.  The one computation that can
      wrap, [inlen - 2] in [URIunescape], is written out over [Z].
    - [int] arithmetic of [gs1_validateParity] is over [Z] with the 32-bit
      wrap-around written out.
    - The encoder context carries the three fields the core touches:
      [errMsg], [errFlag] and the extracted-AI array, a list whose length
      is [numAIs]. *)

From Stdlib Require Import Ascii String.
From Stdlib Require Import List ZArith Lia Bool Arith Permutation.
Import ListNotations.
Local Open Scope list_scope.

(* ================================================================= *)
(** ** C strings and the library functions the code calls *)

Definition str (s : string) : list ascii := list_ascii_of_string s.

Definition NUL : ascii := Ascii.zero.

(** The bytes of a buffer that C sees as a string. *)
Fixpoint c_str (s : list ascii) : list ascii :=
  match s with
  | [] => []
  | c :: s' => if Ascii.eqb c NUL then [] else c :: c_str s'
  end.

(** [strchr s c != NULL], as the offset of the first [c]. *)
Fixpoint strchr (s : list ascii) (c : ascii) : option nat :=
  match s with
  | [] => None
  | a :: s' => if Ascii.eqb a c then Some 0 else option_map S (strchr s' c)
  end.

(** [(r = strchr(s, c)) == NULL ? s + strlen(s) : r], as an offset. *)
Definition strchr_end (s : list ascii) (c : ascii) : nat :=
  match strchr s c with
  | Some i => i
  | None => length s
  end.

(** [strrchr s c], as the offset of the last [c]. *)
Fixpoint strrchr (s : list ascii) (c : ascii) : option nat :=
  match s with
  | [] => None
  | a :: s' =>
      match strrchr s' c with
      | Some i => Some (S i)
      | None => if Ascii.eqb a c then Some 0 else None
      end
  end.

Definition mem_char (c : ascii) (set : list ascii) : bool :=
  existsb (Ascii.eqb c) set.

(** [strspn s accept]. *)
Fixpoint strspn (s accept : list ascii) : nat :=
  match s with
  | [] => 0
  | c :: s' => if mem_char c accept then S (strspn s' accept) else 0
  end.

(** [strncmp p q n == 0]. *)
Fixpoint strncmp0 (p q : list ascii) (n : nat) {struct n} : bool :=
  match n with
  | 0 => true
  | S n' =>
      match p, q with
      | [], [] => true
      | a :: p', b :: q' => Ascii.eqb a b && strncmp0 p' q' n'
      | _, _ => false
      end
  end.

(** [strcmp p q == 0]. *)
Definition strcmp0 (p q : list ascii) : bool :=
  strncmp0 p q (S (Nat.max (length p) (length q))).

(** [*p], the character a pointer [p] is at; NUL at the end. *)
Definition deref (p : list ascii) : ascii := hd NUL p.

Definition is_nul (c : ascii) : bool := Ascii.eqb c NUL.

(* ================================================================= *)
(** ** Data model *)

(** The declarations of [struct aiEntry], [struct aiComponent], [cset_t]
    and [linter_t] live in a private header that is not among the
    sources; the fields are those the [AI_VA] macro initialises.  A
    linter is a function pointer in C; here it is a tag, dispatched by
    [run_linter] below. *)

Inductive cset_t := cset_none | cset_N | cset_X | cset_C.

Inductive linter_t := lint_csum_fn.

Record aiComponent := {
  cset : cset_t;
  min : nat;
  max : nat;
  linters : list linter_t
}.

Record aiEntry := {
  ai : list ascii;
  fnc1 : bool;
  parts : list aiComponent;
  title : string
}.

Definition cset_eqb (a b : cset_t) : bool :=
  match a, b with
  | cset_none, cset_none | cset_N, cset_N
  | cset_X, cset_X | cset_C, cset_C => true
  | _, _ => false
  end.

(** AI prefixes that are defined as not requiring termination by an FNC1. *)
Definition fixedAIprefixes : list (list ascii) :=
  map str
    [ "00"; "01"; "02";
      "03"; "04";
      "11"; "12"; "13"; "14"; "15"; "16"; "17"; "18"; "19";
      "20";
      "31"; "32"; "33"; "34"; "35"; "36";
      "41" ]%string.

(** Characters that are permissible in URIs, including percent. *)
Definition uriCharacters : list ascii :=
  str "ABCDEFGHIJKLMNOPQRSTUVWXYZabcdefghijklmnopqrstuvwxyz0123456789-._~:/?#[]@!$&'()*+,;=%".

(** The 82 characters valid within type X AIs; the second one is the
    double quote (code 34). *)
Definition cset82 : list ascii :=
  "!"%char :: ascii_of_nat 34 :: str "%&'()*+,-./0123456789:;<=>?ABCDEFGHIJKLMNOPQRSTUVWXYZ_abcdefghijklmnopqrstuvwxyz".

(** *** The AI table *)

Definition FNC1 := true.
Definition NO_FNC1 := false.

Definition csum : list linter_t := [lint_csum_fn].
Definition _l : list linter_t := [].

Definition part (c : cset_t) (mn mx : nat) (l : list linter_t) : aiComponent :=
  {| cset := c; min := mn; max := mx; linters := l |}.

Definition __ : aiComponent := part cset_none 0 0 _l.

Definition AI (a : string) (f : bool) (c1 c2 c3 c4 c5 : aiComponent) (t : string)
  : aiEntry :=
  {| ai := str a; fnc1 := f; parts := [c1; c2; c3; c4; c5]; title := t |}.

Local Open Scope string_scope.

Definition ai_table : list aiEntry := [
  AI "00"   NO_FNC1 (part cset_N 18 18 csum) __ __ __ __ "SSCC";
  AI "01"   NO_FNC1 (part cset_N 14 14 csum) __ __ __ __ "GTIN";
  AI "02"   NO_FNC1 (part cset_N 14 14 csum) __ __ __ __ "CONTENT";
  AI "10"   FNC1    (part cset_X 1 20 _l) __ __ __ __ "BATCH/LOT";
  AI "11"   NO_FNC1 (part cset_N 6 6 _l) __ __ __ __ "PROD DATE";
  AI "12"   NO_FNC1 (part cset_N 6 6 _l) __ __ __ __ "DUE DATE";
  AI "13"   NO_FNC1 (part cset_N 6 6 _l) __ __ __ __ "PACK DATE";
  AI "15"   NO_FNC1 (part cset_N 6 6 _l) __ __ __ __ "BEST BEFORE or BEST BY";
  AI "16"   NO_FNC1 (part cset_N 6 6 _l) __ __ __ __ "SELL BY";
  AI "17"   NO_FNC1 (part cset_N 6 6 _l) __ __ __ __ "USE BY or EXPIRY";
  AI "20"   NO_FNC1 (part cset_N 2 2 _l) __ __ __ __ "VARIANT";
  AI "21"   FNC1    (part cset_X 1 20 _l) __ __ __ __ "SERIAL";
  AI "22"   FNC1    (part cset_X 1 20 _l) __ __ __ __ "CPV";
  AI "235"  FNC1    (part cset_X 1 28 _l) __ __ __ __ "TPX";
  AI "240"  FNC1    (part cset_X 1 30 _l) __ __ __ __ "ADDITIONAL ID";
  AI "241"  FNC1    (part cset_X 1 30 _l) __ __ __ __ "CUST. PART NO.";
  AI "242"  FNC1    (part cset_N 1 6 _l) __ __ __ __ "MTO VARIANT";
  AI "243"  FNC1    (part cset_X 1 20 _l) __ __ __ __ "PCN";
  AI "250"  FNC1    (part cset_X 1 30 _l) __ __ __ __ "SECONDARY SERIAL";
  AI "251"  FNC1    (part cset_X 1 30 _l) __ __ __ __ "REF. TO SOURCE";
  AI "253"  FNC1    (part cset_N 13 13 csum) (part cset_X 0 17 _l) __ __ __ "GDTI";
  AI "254"  FNC1    (part cset_X 1 20 _l) __ __ __ __ "GLN EXTENSION COMPONENT";
  AI "255"  FNC1    (part cset_N 13 13 csum) (part cset_N 0 12 _l) __ __ __ "GCN";
  AI "30"   FNC1    (part cset_N 1 8 _l) __ __ __ __ "VAR. COUNT";
  AI "3100" NO_FNC1 (part cset_N 6 6 _l) __ __ __ __ "NET WEIGHT (kg)";
  AI "3101" NO_FNC1 (part cset_N 6 6 _l) __ __ __ __ "NET WEIGHT (kg)";
  AI "3102" NO_FNC1 (part cset_N 6 6 _l) __ __ __ __ "NET WEIGHT (kg)";
  AI "3103" NO_FNC1 (part cset_N 6 6 _l) __ __ __ __ "NET WEIGHT (kg)";
  AI "3104" NO_FNC1 (part cset_N 6 6 _l) __ __ __ __ "NET WEIGHT (kg)";
  AI "3105" NO_FNC1 (part cset_N 6 6 _l) __ __ __ __ "NET WEIGHT (kg)";
  AI "3110" NO_FNC1 (part cset_N 6 6 _l) __ __ __ __ "LENGTH (m)";
  AI "3111" NO_FNC1 (part cset_N 6 6 _l) __ __ __ __ "LENGTH (m)";
  AI "3112" NO_FNC1 (part cset_N 6 6 _l) __ __ __ __ "LENGTH (m)";
  AI "3113" NO_FNC1 (part cset_N 6 6 _l) __ __ __ __ "LENGTH (m)";
  AI "3114" NO_FNC1 (part cset_N 6 6 _l) __ __ __ __ "LENGTH (m)";
  AI "3115" NO_FNC1 (part cset_N 6 6 _l) __ __ __ __ "LENGTH (m)";
  AI "3120" NO_FNC1 (part cset_N 6 6 _l) __ __ __ __ "WIDTH (m)";
  AI "3121" NO_FNC1 (part cset_N 6 6 _l) __ __ __ __ "WIDTH (m)";
  AI "3122" NO_FNC1 (part cset_N 6 6 _l) __ __ __ __ "WIDTH (m)";
  AI "3123" NO_FNC1 (part cset_N 6 6 _l) __ __ __ __ "WIDTH (m)";
  AI "3124" NO_FNC1 (part cset_N 6 6 _l) __ __ __ __ "WIDTH (m)";
  AI "3125" NO_FNC1 (part cset_N 6 6 _l) __ __ __ __ "WIDTH (m)";
  AI "3130" NO_FNC1 (part cset_N 6 6 _l) __ __ __ __ "HEIGHT (m)";
  AI "3131" NO_FNC1 (part cset_N 6 6 _l) __ __ __ __ "HEIGHT (m)";
  AI "3132" NO_FNC1 (part cset_N 6 6 _l) __ __ __ __ "HEIGHT (m)";
  AI "3133" NO_FNC1 (part cset_N 6 6 _l) __ __ __ __ "HEIGHT (m)";
  AI "3134" NO_FNC1 (part cset_N 6 6 _l) __ __ __ __ "HEIGHT (m)";
  AI "3135" NO_FNC1 (part cset_N 6 6 _l) __ __ __ __ "HEIGHT (m)";
  AI "3140" NO_FNC1 (part cset_N 6 6 _l) __ __ __ __ "AREA (m^2)";
  AI "3141" NO_FNC1 (part cset_N 6 6 _l) __ __ __ __ "AREA (m^2)";
  AI "3142" NO_FNC1 (part cset_N 6 6 _l) __ __ __ __ "AREA (m^2)";
  AI "3143" NO_FNC1 (part cset_N 6 6 _l) __ __ __ __ "AREA (m^2)";
  AI "3144" NO_FNC1 (part cset_N 6 6 _l) __ __ __ __ "AREA (m^2)";
  AI "3145" NO_FNC1 (part cset_N 6 6 _l) __ __ __ __ "AREA (m^2)";
  AI "3150" NO_FNC1 (part cset_N 6 6 _l) __ __ __ __ "NET VOLUME (l)";
  AI "3151" NO_FNC1 (part cset_N 6 6 _l) __ __ __ __ "NET VOLUME (l)";
  AI "3152" NO_FNC1 (part cset_N 6 6 _l) __ __ __ __ "NET VOLUME (l)";
  AI "3153" NO_FNC1 (part cset_N 6 6 _l) __ __ __ __ "NET VOLUME (l)";
  AI "3154" NO_FNC1 (part cset_N 6 6 _l) __ __ __ __ "NET VOLUME (l)";
  AI "3155" NO_FNC1 (part cset_N 6 6 _l) __ __ __ __ "NET VOLUME (l)";
  AI "3160" NO_FNC1 (part cset_N 6 6 _l) __ __ __ __ "NET VOLUME (m^3)";
  AI "3161" NO_FNC1 (part cset_N 6 6 _l) __ __ __ __ "NET VOLUME (m^3)";
  AI "3162" NO_FNC1 (part cset_N 6 6 _l) __ __ __ __ "NET VOLUME (m^3)";
  AI "3163" NO_FNC1 (part cset_N 6 6 _l) __ __ __ __ "NET VOLUME (m^3)";
  AI "3164" NO_FNC1 (part cset_N 6 6 _l) __ __ __ __ "NET VOLUME (m^3)";
  AI "3165" NO_FNC1 (part cset_N 6 6 _l) __ __ __ __ "NET VOLUME (m^3)";
  AI "3200" NO_FNC1 (part cset_N 6 6 _l) __ __ __ __ "NET WEIGHT (lb)";
  AI "3201" NO_FNC1 (part cset_N 6 6 _l) __ __ __ __ "NET WEIGHT (lb)";
  AI "3202" NO_FNC1 (part cset_N 6 6 _l) __ __ __ __ "NET WEIGHT (lb)";
  AI "3203" NO_FNC1 (part cset_N 6 6 _l) __ __ __ __ "NET WEIGHT (lb)";
  AI "3204" NO_FNC1 (part cset_N 6 6 _l) __ __ __ __ "NET WEIGHT (lb)";
  AI "3205" NO_FNC1 (part cset_N 6 6 _l) __ __ __ __ "NET WEIGHT (lb)";
  AI "3210" NO_FNC1 (part cset_N 6 6 _l) __ __ __ __ "LENGTH (i)";
  AI "3211" NO_FNC1 (part cset_N 6 6 _l) __ __ __ __ "LENGTH (i)";
  AI "3212" NO_FNC1 (part cset_N 6 6 _l) __ __ __ __ "LENGTH (i)";
  AI "3213" NO_FNC1 (part cset_N 6 6 _l) __ __ __ __ "LENGTH (i)";
  AI "3214" NO_FNC1 (part cset_N 6 6 _l) __ __ __ __ "LENGTH (i)";
  AI "3215" NO_FNC1 (part cset_N 6 6 _l) __ __ __ __ "LENGTH (i)";
  AI "3220" NO_FNC1 (part cset_N 6 6 _l) __ __ __ __ "LENGTH (f)";
  AI "3221" NO_FNC1 (part cset_N 6 6 _l) __ __ __ __ "LENGTH (f)";
  AI "3222" NO_FNC1 (part cset_N 6 6 _l) __ __ __ __ "LENGTH (f)";
  AI "3223" NO_FNC1 (part cset_N 6 6 _l) __ __ __ __ "LENGTH (f)";
  AI "3224" NO_FNC1 (part cset_N 6 6 _l) __ __ __ __ "LENGTH (f)";
  AI "3225" NO_FNC1 (part cset_N 6 6 _l) __ __ __ __ "LENGTH (f)";
  AI "3230" NO_FNC1 (part cset_N 6 6 _l) __ __ __ __ "LENGTH (y)";
  AI "3231" NO_FNC1 (part cset_N 6 6 _l) __ __ __ __ "LENGTH (y)";
  AI "3232" NO_FNC1 (part cset_N 6 6 _l) __ __ __ __ "LENGTH (y)";
  AI "3233" NO_FNC1 (part cset_N 6 6 _l) __ __ __ __ "LENGTH (y)";
  AI "3234" NO_FNC1 (part cset_N 6 6 _l) __ __ __ __ "LENGTH (y)";
  AI "3235" NO_FNC1 (part cset_N 6 6 _l) __ __ __ __ "LENGTH (y)";
  AI "3240" NO_FNC1 (part cset_N 6 6 _l) __ __ __ __ "WIDTH (i)";
  AI "3241" NO_FNC1 (part cset_N 6 6 _l) __ __ __ __ "WIDTH (i)";
  AI "3242" NO_FNC1 (part cset_N 6 6 _l) __ __ __ __ "WIDTH (i)";
  AI "3243" NO_FNC1 (part cset_N 6 6 _l) __ __ __ __ "WIDTH (i)";
  AI "3244" NO_FNC1 (part cset_N 6 6 _l) __ __ __ __ "WIDTH (i)";
  AI "3245" NO_FNC1 (part cset_N 6 6 _l) __ __ __ __ "WIDTH (i)";
  AI "3250" NO_FNC1 (part cset_N 6 6 _l) __ __ __ __ "WIDTH (f)";
  AI "3251" NO_FNC1 (part cset_N 6 6 _l) __ __ __ __ "WIDTH (f)";
  AI "3252" NO_FNC1 (part cset_N 6 6 _l) __ __ __ __ "WIDTH (f)";
  AI "3253" NO_FNC1 (part cset_N 6 6 _l) __ __ __ __ "WIDTH (f)";
  AI "3254" NO_FNC1 (part cset_N 6 6 _l) __ __ __ __ "WIDTH (f)";
  AI "3255" NO_FNC1 (part cset_N 6 6 _l) __ __ __ __ "WIDTH (f)";
  AI "3260" NO_FNC1 (part cset_N 6 6 _l) __ __ __ __ "WIDTH (y)";
  AI "3261" NO_FNC1 (part cset_N 6 6 _l) __ __ __ __ "WIDTH (y)";
  AI "3262" NO_FNC1 (part cset_N 6 6 _l) __ __ __ __ "WIDTH (y)";
  AI "3263" NO_FNC1 (part cset_N 6 6 _l) __ __ __ __ "WIDTH (y)";
  AI "3264" NO_FNC1 (part cset_N 6 6 _l) __ __ __ __ "WIDTH (y)";
  AI "3265" NO_FNC1 (part cset_N 6 6 _l) __ __ __ __ "WIDTH (y)";
  AI "3270" NO_FNC1 (part cset_N 6 6 _l) __ __ __ __ "HEIGHT (i)";
  AI "3271" NO_FNC1 (part cset_N 6 6 _l) __ __ __ __ "HEIGHT (i)";
  AI "3272" NO_FNC1 (part cset_N 6 6 _l) __ __ __ __ "HEIGHT (i)";
  AI "3273" NO_FNC1 (part cset_N 6 6 _l) __ __ __ __ "HEIGHT (i)";
  AI "3274" NO_FNC1 (part cset_N 6 6 _l) __ __ __ __ "HEIGHT (i)";
  AI "3275" NO_FNC1 (part cset_N 6 6 _l) __ __ __ __ "HEIGHT (i)";
  AI "3280" NO_FNC1 (part cset_N 6 6 _l) __ __ __ __ "HEIGHT (f)";
  AI "3281" NO_FNC1 (part cset_N 6 6 _l) __ __ __ __ "HEIGHT (f)";
  AI "3282" NO_FNC1 (part cset_N 6 6 _l) __ __ __ __ "HEIGHT (f)";
  AI "3283" NO_FNC1 (part cset_N 6 6 _l) __ __ __ __ "HEIGHT (f)";
  AI "3284" NO_FNC1 (part cset_N 6 6 _l) __ __ __ __ "HEIGHT (f)";
  AI "3285" NO_FNC1 (part cset_N 6 6 _l) __ __ __ __ "HEIGHT (f)";
  AI "3290" NO_FNC1 (part cset_N 6 6 _l) __ __ __ __ "HEIGHT (y)";
  AI "3291" NO_FNC1 (part cset_N 6 6 _l) __ __ __ __ "HEIGHT (y)";
  AI "3292" NO_FNC1 (part cset_N 6 6 _l) __ __ __ __ "HEIGHT (y)";
  AI "3293" NO_FNC1 (part cset_N 6 6 _l) __ __ __ __ "HEIGHT (y)";
  AI "3294" NO_FNC1 (part cset_N 6 6 _l) __ __ __ __ "HEIGHT (y)";
  AI "3295" NO_FNC1 (part cset_N 6 6 _l) __ __ __ __ "HEIGHT (y)";
  AI "3300" NO_FNC1 (part cset_N 6 6 _l) __ __ __ __ "GROSS WEIGHT (kg)";
  AI "3301" NO_FNC1 (part cset_N 6 6 _l) __ __ __ __ "GROSS WEIGHT (kg)";
  AI "3302" NO_FNC1 (part cset_N 6 6 _l) __ __ __ __ "GROSS WEIGHT (kg)";
  AI "3303" NO_FNC1 (part cset_N 6 6 _l) __ __ __ __ "GROSS WEIGHT (kg)";
  AI "3304" NO_FNC1 (part cset_N 6 6 _l) __ __ __ __ "GROSS WEIGHT (kg)";
  AI "3305" NO_FNC1 (part cset_N 6 6 _l) __ __ __ __ "GROSS WEIGHT (kg)";
  AI "3310" NO_FNC1 (part cset_N 6 6 _l) __ __ __ __ "LENGTH (m), log";
  AI "3311" NO_FNC1 (part cset_N 6 6 _l) __ __ __ __ "LENGTH (m), log";
  AI "3312" NO_FNC1 (part cset_N 6 6 _l) __ __ __ __ "LENGTH (m), log";
  AI "3313" NO_FNC1 (part cset_N 6 6 _l) __ __ __ __ "LENGTH (m), log";
  AI "3314" NO_FNC1 (part cset_N 6 6 _l) __ __ __ __ "LENGTH (m), log";
  AI "3315" NO_FNC1 (part cset_N 6 6 _l) __ __ __ __ "LENGTH (m), log";
  AI "3320" NO_FNC1 (part cset_N 6 6 _l) __ __ __ __ "WIDTH (m), log";
  AI "3321" NO_FNC1 (part cset_N 6 6 _l) __ __ __ __ "WIDTH (m), log";
  AI "3322" NO_FNC1 (part cset_N 6 6 _l) __ __ __ __ "WIDTH (m), log";
  AI "3323" NO_FNC1 (part cset_N 6 6 _l) __ __ __ __ "WIDTH (m), log";
  AI "3324" NO_FNC1 (part cset_N 6 6 _l) __ __ __ __ "WIDTH (m), log";
  AI "3325" NO_FNC1 (part cset_N 6 6 _l) __ __ __ __ "WIDTH (m), log";
  AI "3330" NO_FNC1 (part cset_N 6 6 _l) __ __ __ __ "HEIGHT (m), log";
  AI "3331" NO_FNC1 (part cset_N 6 6 _l) __ __ __ __ "HEIGHT (m), log";
  AI "3332" NO_FNC1 (part cset_N 6 6 _l) __ __ __ __ "HEIGHT (m), log";
  AI "3333" NO_FNC1 (part cset_N 6 6 _l) __ __ __ __ "HEIGHT (m), log";
  AI "3334" NO_FNC1 (part cset_N 6 6 _l) __ __ __ __ "HEIGHT (m), log";
  AI "3335" NO_FNC1 (part cset_N 6 6 _l) __ __ __ __ "HEIGHT (m), log";
  AI "3340" NO_FNC1 (part cset_N 6 6 _l) __ __ __ __ "AREA (m^2), log";
  AI "3341" NO_FNC1 (part cset_N 6 6 _l) __ __ __ __ "AREA (m^2), log";
  AI "3342" NO_FNC1 (part cset_N 6 6 _l) __ __ __ __ "AREA (m^2), log";
  AI "3343" NO_FNC1 (part cset_N 6 6 _l) __ __ __ __ "AREA (m^2), log";
  AI "3344" NO_FNC1 (part cset_N 6 6 _l) __ __ __ __ "AREA (m^2), log";
  AI "3345" NO_FNC1 (part cset_N 6 6 _l) __ __ __ __ "AREA (m^2), log";
  AI "3350" NO_FNC1 (part cset_N 6 6 _l) __ __ __ __ "VOLUME (l), log";
  AI "3351" NO_FNC1 (part cset_N 6 6 _l) __ __ __ __ "VOLUME (l), log";
  AI "3352" NO_FNC1 (part cset_N 6 6 _l) __ __ __ __ "VOLUME (l), log";
  AI "3353" NO_FNC1 (part cset_N 6 6 _l) __ __ __ __ "VOLUME (l), log";
  AI "3354" NO_FNC1 (part cset_N 6 6 _l) __ __ __ __ "VOLUME (l), log";
  AI "3355" NO_FNC1 (part cset_N 6 6 _l) __ __ __ __ "VOLUME (l), log";
  AI "3360" NO_FNC1 (part cset_N 6 6 _l) __ __ __ __ "VOLUME (m^3), log";
  AI "3361" NO_FNC1 (part cset_N 6 6 _l) __ __ __ __ "VOLUME (m^3), log";
  AI "3362" NO_FNC1 (part cset_N 6 6 _l) __ __ __ __ "VOLUME (m^3), log";
  AI "3363" NO_FNC1 (part cset_N 6 6 _l) __ __ __ __ "VOLUME (m^3), log";
  AI "3364" NO_FNC1 (part cset_N 6 6 _l) __ __ __ __ "VOLUME (m^3), log";
  AI "3365" NO_FNC1 (part cset_N 6 6 _l) __ __ __ __ "VOLUME (m^3), log";
  AI "3370" NO_FNC1 (part cset_N 6 6 _l) __ __ __ __ "KG PER m^2";
  AI "3371" NO_FNC1 (part cset_N 6 6 _l) __ __ __ __ "KG PER m^2";
  AI "3372" NO_FNC1 (part cset_N 6 6 _l) __ __ __ __ "KG PER m^2";
  AI "3373" NO_FNC1 (part cset_N 6 6 _l) __ __ __ __ "KG PER m^2";
  AI "3374" NO_FNC1 (part cset_N 6 6 _l) __ __ __ __ "KG PER m^2";
  AI "3375" NO_FNC1 (part cset_N 6 6 _l) __ __ __ __ "KG PER m^2";
  AI "3400" NO_FNC1 (part cset_N 6 6 _l) __ __ __ __ "GROSS WEIGHT (lb)";
  AI "3401" NO_FNC1 (part cset_N 6 6 _l) __ __ __ __ "GROSS WEIGHT (lb)";
  AI "3402" NO_FNC1 (part cset_N 6 6 _l) __ __ __ __ "GROSS WEIGHT (lb)";
  AI "3403" NO_FNC1 (part cset_N 6 6 _l) __ __ __ __ "GROSS WEIGHT (lb)";
  AI "3404" NO_FNC1 (part cset_N 6 6 _l) __ __ __ __ "GROSS WEIGHT (lb)";
  AI "3405" NO_FNC1 (part cset_N 6 6 _l) __ __ __ __ "GROSS WEIGHT (lb)";
  AI "3410" NO_FNC1 (part cset_N 6 6 _l) __ __ __ __ "LENGTH (i), log";
  AI "3411" NO_FNC1 (part cset_N 6 6 _l) __ __ __ __ "LENGTH (i), log";
  AI "3412" NO_FNC1 (part cset_N 6 6 _l) __ __ __ __ "LENGTH (i), log";
  AI "3413" NO_FNC1 (part cset_N 6 6 _l) __ __ __ __ "LENGTH (i), log";
  AI "3414" NO_FNC1 (part cset_N 6 6 _l) __ __ __ __ "LENGTH (i), log";
  AI "3415" NO_FNC1 (part cset_N 6 6 _l) __ __ __ __ "LENGTH (i), log";
  AI "3420" NO_FNC1 (part cset_N 6 6 _l) __ __ __ __ "LENGTH (f), log";
  AI "3421" NO_FNC1 (part cset_N 6 6 _l) __ __ __ __ "LENGTH (f), log";
  AI "3422" NO_FNC1 (part cset_N 6 6 _l) __ __ __ __ "LENGTH (f), log";
  AI "3423" NO_FNC1 (part cset_N 6 6 _l) __ __ __ __ "LENGTH (f), log";
  AI "3424" NO_FNC1 (part cset_N 6 6 _l) __ __ __ __ "LENGTH (f), log";
  AI "3425" NO_FNC1 (part cset_N 6 6 _l) __ __ __ __ "LENGTH (f), log";
  AI "3430" NO_FNC1 (part cset_N 6 6 _l) __ __ __ __ "LENGTH (y), log";
  AI "3431" NO_FNC1 (part cset_N 6 6 _l) __ __ __ __ "LENGTH (y), log";
  AI "3432" NO_FNC1 (part cset_N 6 6 _l) __ __ __ __ "LENGTH (y), log";
  AI "3433" NO_FNC1 (part cset_N 6 6 _l) __ __ __ __ "LENGTH (y), log";
  AI "3434" NO_FNC1 (part cset_N 6 6 _l) __ __ __ __ "LENGTH (y), log";
  AI "3435" NO_FNC1 (part cset_N 6 6 _l) __ __ __ __ "LENGTH (y), log";
  AI "3440" NO_FNC1 (part cset_N 6 6 _l) __ __ __ __ "WIDTH (i), log";
  AI "3441" NO_FNC1 (part cset_N 6 6 _l) __ __ __ __ "WIDTH (i), log";
  AI "3442" NO_FNC1 (part cset_N 6 6 _l) __ __ __ __ "WIDTH (i), log";
  AI "3443" NO_FNC1 (part cset_N 6 6 _l) __ __ __ __ "WIDTH (i), log";
  AI "3444" NO_FNC1 (part cset_N 6 6 _l) __ __ __ __ "WIDTH (i), log";
  AI "3445" NO_FNC1 (part cset_N 6 6 _l) __ __ __ __ "WIDTH (i), log";
  AI "3450" NO_FNC1 (part cset_N 6 6 _l) __ __ __ __ "WIDTH (f), log";
  AI "3451" NO_FNC1 (part cset_N 6 6 _l) __ __ __ __ "WIDTH (f), log";
  AI "3452" NO_FNC1 (part cset_N 6 6 _l) __ __ __ __ "WIDTH (f), log";
  AI "3453" NO_FNC1 (part cset_N 6 6 _l) __ __ __ __ "WIDTH (f), log";
  AI "3454" NO_FNC1 (part cset_N 6 6 _l) __ __ __ __ "WIDTH (f), log";
  AI "3455" NO_FNC1 (part cset_N 6 6 _l) __ __ __ __ "WIDTH (f), log";
  AI "3460" NO_FNC1 (part cset_N 6 6 _l) __ __ __ __ "WIDTH (y), log";
  AI "3461" NO_FNC1 (part cset_N 6 6 _l) __ __ __ __ "WIDTH (y), log";
  AI "3462" NO_FNC1 (part cset_N 6 6 _l) __ __ __ __ "WIDTH (y), log";
  AI "3463" NO_FNC1 (part cset_N 6 6 _l) __ __ __ __ "WIDTH (y), log";
  AI "3464" NO_FNC1 (part cset_N 6 6 _l) __ __ __ __ "WIDTH (y), log";
  AI "3465" NO_FNC1 (part cset_N 6 6 _l) __ __ __ __ "WIDTH (y), log";
  AI "3470" NO_FNC1 (part cset_N 6 6 _l) __ __ __ __ "HEIGHT (i), log";
  AI "3471" NO_FNC1 (part cset_N 6 6 _l) __ __ __ __ "HEIGHT (i), log";
  AI "3472" NO_FNC1 (part cset_N 6 6 _l) __ __ __ __ "HEIGHT (i), log";
  AI "3473" NO_FNC1 (part cset_N 6 6 _l) __ __ __ __ "HEIGHT (i), log";
  AI "3474" NO_FNC1 (part cset_N 6 6 _l) __ __ __ __ "HEIGHT (i), log";
  AI "3475" NO_FNC1 (part cset_N 6 6 _l) __ __ __ __ "HEIGHT (i), log";
  AI "3480" NO_FNC1 (part cset_N 6 6 _l) __ __ __ __ "HEIGHT (f), log";
  AI "3481" NO_FNC1 (part cset_N 6 6 _l) __ __ __ __ "HEIGHT (f), log";
  AI "3482" NO_FNC1 (part cset_N 6 6 _l) __ __ __ __ "HEIGHT (f), log";
  AI "3483" NO_FNC1 (part cset_N 6 6 _l) __ __ __ __ "HEIGHT (f), log";
  AI "3484" NO_FNC1 (part cset_N 6 6 _l) __ __ __ __ "HEIGHT (f), log";
  AI "3485" NO_FNC1 (part cset_N 6 6 _l) __ __ __ __ "HEIGHT (f), log";
  AI "3490" NO_FNC1 (part cset_N 6 6 _l) __ __ __ __ "HEIGHT (y), log";
  AI "3491" NO_FNC1 (part cset_N 6 6 _l) __ __ __ __ "HEIGHT (y), log";
  AI "3492" NO_FNC1 (part cset_N 6 6 _l) __ __ __ __ "HEIGHT (y), log";
  AI "3493" NO_FNC1 (part cset_N 6 6 _l) __ __ __ __ "HEIGHT (y), log";
  AI "3494" NO_FNC1 (part cset_N 6 6 _l) __ __ __ __ "HEIGHT (y), log";
  AI "3495" NO_FNC1 (part cset_N 6 6 _l) __ __ __ __ "HEIGHT (y), log";
  AI "3500" NO_FNC1 (part cset_N 6 6 _l) __ __ __ __ "AREA (i^2)";
  AI "3501" NO_FNC1 (part cset_N 6 6 _l) __ __ __ __ "AREA (i^2)";
  AI "3502" NO_FNC1 (part cset_N 6 6 _l) __ __ __ __ "AREA (i^2)";
  AI "3503" NO_FNC1 (part cset_N 6 6 _l) __ __ __ __ "AREA (i^2)";
  AI "3504" NO_FNC1 (part cset_N 6 6 _l) __ __ __ __ "AREA (i^2)";
  AI "3505" NO_FNC1 (part cset_N 6 6 _l) __ __ __ __ "AREA (i^2)";
  AI "3510" NO_FNC1 (part cset_N 6 6 _l) __ __ __ __ "AREA (f^2)";
  AI "3511" NO_FNC1 (part cset_N 6 6 _l) __ __ __ __ "AREA (f^2)";
  AI "3512" NO_FNC1 (part cset_N 6 6 _l) __ __ __ __ "AREA (f^2)";
  AI "3513" NO_FNC1 (part cset_N 6 6 _l) __ __ __ __ "AREA (f^2)";
  AI "3514" NO_FNC1 (part cset_N 6 6 _l) __ __ __ __ "AREA (f^2)";
  AI "3515" NO_FNC1 (part cset_N 6 6 _l) __ __ __ __ "AREA (f^2)";
  AI "3520" NO_FNC1 (part cset_N 6 6 _l) __ __ __ __ "AREA (y^2)";
  AI "3521" NO_FNC1 (part cset_N 6 6 _l) __ __ __ __ "AREA (y^2)";
  AI "3522" NO_FNC1 (part cset_N 6 6 _l) __ __ __ __ "AREA (y^2)";
  AI "3523" NO_FNC1 (part cset_N 6 6 _l) __ __ __ __ "AREA (y^2)";
  AI "3524" NO_FNC1 (part cset_N 6 6 _l) __ __ __ __ "AREA (y^2)";
  AI "3525" NO_FNC1 (part cset_N 6 6 _l) __ __ __ __ "AREA (y^2)";
  AI "3530" NO_FNC1 (part cset_N 6 6 _l) __ __ __ __ "AREA (i^2), log";
  AI "3531" NO_FNC1 (part cset_N 6 6 _l) __ __ __ __ "AREA (i^2), log";
  AI "3532" NO_FNC1 (part cset_N 6 6 _l) __ __ __ __ "AREA (i^2), log";
  AI "3533" NO_FNC1 (part cset_N 6 6 _l) __ __ __ __ "AREA (i^2), log";
  AI "3534" NO_FNC1 (part cset_N 6 6 _l) __ __ __ __ "AREA (i^2), log";
  AI "3535" NO_FNC1 (part cset_N 6 6 _l) __ __ __ __ "AREA (i^2), log";
  AI "3540" NO_FNC1 (part cset_N 6 6 _l) __ __ __ __ "AREA (f^2), log";
  AI "3541" NO_FNC1 (part cset_N 6 6 _l) __ __ __ __ "AREA (f^2), log";
  AI "3542" NO_FNC1 (part cset_N 6 6 _l) __ __ __ __ "AREA (f^2), log";
  AI "3543" NO_FNC1 (part cset_N 6 6 _l) __ __ __ __ "AREA (f^2), log";
  AI "3544" NO_FNC1 (part cset_N 6 6 _l) __ __ __ __ "AREA (f^2), log";
  AI "3545" NO_FNC1 (part cset_N 6 6 _l) __ __ __ __ "AREA (f^2), log";
  AI "3550" NO_FNC1 (part cset_N 6 6 _l) __ __ __ __ "AREA (y^2), log";
  AI "3551" NO_FNC1 (part cset_N 6 6 _l) __ __ __ __ "AREA (y^2), log";
  AI "3552" NO_FNC1 (part cset_N 6 6 _l) __ __ __ __ "AREA (y^2), log";
  AI "3553" NO_FNC1 (part cset_N 6 6 _l) __ __ __ __ "AREA (y^2), log";
  AI "3554" NO_FNC1 (part cset_N 6 6 _l) __ __ __ __ "AREA (y^2), log";
  AI "3555" NO_FNC1 (part cset_N 6 6 _l) __ __ __ __ "AREA (y^2), log";
  AI "3560" NO_FNC1 (part cset_N 6 6 _l) __ __ __ __ "NET WEIGHT (t)";
  AI "3561" NO_FNC1 (part cset_N 6 6 _l) __ __ __ __ "NET WEIGHT (t)";
  AI "3562" NO_FNC1 (part cset_N 6 6 _l) __ __ __ __ "NET WEIGHT (t)";
  AI "3563" NO_FNC1 (part cset_N 6 6 _l) __ __ __ __ "NET WEIGHT (t)";
  AI "3564" NO_FNC1 (part cset_N 6 6 _l) __ __ __ __ "NET WEIGHT (t)";
  AI "3565" NO_FNC1 (part cset_N 6 6 _l) __ __ __ __ "NET WEIGHT (t)";
  AI "3570" NO_FNC1 (part cset_N 6 6 _l) __ __ __ __ "NET VOLUME (oz)";
  AI "3571" NO_FNC1 (part cset_N 6 6 _l) __ __ __ __ "NET VOLUME (oz)";
  AI "3572" NO_FNC1 (part cset_N 6 6 _l) __ __ __ __ "NET VOLUME (oz)";
  AI "3573" NO_FNC1 (part cset_N 6 6 _l) __ __ __ __ "NET VOLUME (oz)";
  AI "3574" NO_FNC1 (part cset_N 6 6 _l) __ __ __ __ "NET VOLUME (oz)";
  AI "3575" NO_FNC1 (part cset_N 6 6 _l) __ __ __ __ "NET VOLUME (oz)";
  AI "3600" NO_FNC1 (part cset_N 6 6 _l) __ __ __ __ "NET VOLUME (q)";
  AI "3601" NO_FNC1 (part cset_N 6 6 _l) __ __ __ __ "NET VOLUME (q)";
  AI "3602" NO_FNC1 (part cset_N 6 6 _l) __ __ __ __ "NET VOLUME (q)";
  AI "3603" NO_FNC1 (part cset_N 6 6 _l) __ __ __ __ "NET VOLUME (q)";
  AI "3604" NO_FNC1 (part cset_N 6 6 _l) __ __ __ __ "NET VOLUME (q)";
  AI "3605" NO_FNC1 (part cset_N 6 6 _l) __ __ __ __ "NET VOLUME (q)";
  AI "3610" NO_FNC1 (part cset_N 6 6 _l) __ __ __ __ "NET VOLUME (g)";
  AI "3611" NO_FNC1 (part cset_N 6 6 _l) __ __ __ __ "NET VOLUME (g)";
  AI "3612" NO_FNC1 (part cset_N 6 6 _l) __ __ __ __ "NET VOLUME (g)";
  AI "3613" NO_FNC1 (part cset_N 6 6 _l) __ __ __ __ "NET VOLUME (g)";
  AI "3614" NO_FNC1 (part cset_N 6 6 _l) __ __ __ __ "NET VOLUME (g)";
  AI "3615" NO_FNC1 (part cset_N 6 6 _l) __ __ __ __ "NET VOLUME (g)";
  AI "3620" NO_FNC1 (part cset_N 6 6 _l) __ __ __ __ "VOLUME (q), log";
  AI "3621" NO_FNC1 (part cset_N 6 6 _l) __ __ __ __ "VOLUME (q), log";
  AI "3622" NO_FNC1 (part cset_N 6 6 _l) __ __ __ __ "VOLUME (q), log";
  AI "3623" NO_FNC1 (part cset_N 6 6 _l) __ __ __ __ "VOLUME (q), log";
  AI "3624" NO_FNC1 (part cset_N 6 6 _l) __ __ __ __ "VOLUME (q), log";
  AI "3625" NO_FNC1 (part cset_N 6 6 _l) __ __ __ __ "VOLUME (q), log";
  AI "3630" NO_FNC1 (part cset_N 6 6 _l) __ __ __ __ "VOLUME (g), log";
  AI "3631" NO_FNC1 (part cset_N 6 6 _l) __ __ __ __ "VOLUME (g), log";
  AI "3632" NO_FNC1 (part cset_N 6 6 _l) __ __ __ __ "VOLUME (g), log";
  AI "3633" NO_FNC1 (part cset_N 6 6 _l) __ __ __ __ "VOLUME (g), log";
  AI "3634" NO_FNC1 (part cset_N 6 6 _l) __ __ __ __ "VOLUME (g), log";
  AI "3635" NO_FNC1 (part cset_N 6 6 _l) __ __ __ __ "VOLUME (g), log";
  AI "3640" NO_FNC1 (part cset_N 6 6 _l) __ __ __ __ "VOLUME (i^3)";
  AI "3641" NO_FNC1 (part cset_N 6 6 _l) __ __ __ __ "VOLUME (i^3)";
  AI "3642" NO_FNC1 (part cset_N 6 6 _l) __ __ __ __ "VOLUME (i^3)";
  AI "3643" NO_FNC1 (part cset_N 6 6 _l) __ __ __ __ "VOLUME (i^3)";
  AI "3644" NO_FNC1 (part cset_N 6 6 _l) __ __ __ __ "VOLUME (i^3)";
  AI "3645" NO_FNC1 (part cset_N 6 6 _l) __ __ __ __ "VOLUME (i^3)";
  AI "3650" NO_FNC1 (part cset_N 6 6 _l) __ __ __ __ "VOLUME (f^3)";
  AI "3651" NO_FNC1 (part cset_N 6 6 _l) __ __ __ __ "VOLUME (f^3)";
  AI "3652" NO_FNC1 (part cset_N 6 6 _l) __ __ __ __ "VOLUME (f^3)";
  AI "3653" NO_FNC1 (part cset_N 6 6 _l) __ __ __ __ "VOLUME (f^3)";
  AI "3654" NO_FNC1 (part cset_N 6 6 _l) __ __ __ __ "VOLUME (f^3)";
  AI "3655" NO_FNC1 (part cset_N 6 6 _l) __ __ __ __ "VOLUME (f^3)";
  AI "3660" NO_FNC1 (part cset_N 6 6 _l) __ __ __ __ "VOLUME (y^3)";
  AI "3661" NO_FNC1 (part cset_N 6 6 _l) __ __ __ __ "VOLUME (y^3)";
  AI "3662" NO_FNC1 (part cset_N 6 6 _l) __ __ __ __ "VOLUME (y^3)";
  AI "3663" NO_FNC1 (part cset_N 6 6 _l) __ __ __ __ "VOLUME (y^3)";
  AI "3664" NO_FNC1 (part cset_N 6 6 _l) __ __ __ __ "VOLUME (y^3)";
  AI "3665" NO_FNC1 (part cset_N 6 6 _l) __ __ __ __ "VOLUME (y^3)";
  AI "3670" NO_FNC1 (part cset_N 6 6 _l) __ __ __ __ "VOLUME (i^3), log";
  AI "3671" NO_FNC1 (part cset_N 6 6 _l) __ __ __ __ "VOLUME (i^3), log";
  AI "3672" NO_FNC1 (part cset_N 6 6 _l) __ __ __ __ "VOLUME (i^3), log";
  AI "3673" NO_FNC1 (part cset_N 6 6 _l) __ __ __ __ "VOLUME (i^3), log";
  AI "3674" NO_FNC1 (part cset_N 6 6 _l) __ __ __ __ "VOLUME (i^3), log";
  AI "3675" NO_FNC1 (part cset_N 6 6 _l) __ __ __ __ "VOLUME (i^3), log";
  AI "3680" NO_FNC1 (part cset_N 6 6 _l) __ __ __ __ "VOLUME (f^3), log";
  AI "3681" NO_FNC1 (part cset_N 6 6 _l) __ __ __ __ "VOLUME (f^3), log";
  AI "3682" NO_FNC1 (part cset_N 6 6 _l) __ __ __ __ "VOLUME (f^3), log";
  AI "3683" NO_FNC1 (part cset_N 6 6 _l) __ __ __ __ "VOLUME (f^3), log";
  AI "3684" NO_FNC1 (part cset_N 6 6 _l) __ __ __ __ "VOLUME (f^3), log";
  AI "3685" NO_FNC1 (part cset_N 6 6 _l) __ __ __ __ "VOLUME (f^3), log";
  AI "3690" NO_FNC1 (part cset_N 6 6 _l) __ __ __ __ "VOLUME (y^3), log";
  AI "3691" NO_FNC1 (part cset_N 6 6 _l) __ __ __ __ "VOLUME (y^3), log";
  AI "3692" NO_FNC1 (part cset_N 6 6 _l) __ __ __ __ "VOLUME (y^3), log";
  AI "3693" NO_FNC1 (part cset_N 6 6 _l) __ __ __ __ "VOLUME (y^3), log";
  AI "3694" NO_FNC1 (part cset_N 6 6 _l) __ __ __ __ "VOLUME (y^3), log";
  AI "3695" NO_FNC1 (part cset_N 6 6 _l) __ __ __ __ "VOLUME (y^3), log";
  AI "37"   FNC1    (part cset_N 1 8 _l) __ __ __ __ "COUNT";
  AI "3900" FNC1    (part cset_N 1 15 _l) __ __ __ __ "AMOUNT";
  AI "3901" FNC1    (part cset_N 1 15 _l) __ __ __ __ "AMOUNT";
  AI "3902" FNC1    (part cset_N 1 15 _l) __ __ __ __ "AMOUNT";
  AI "3903" FNC1    (part cset_N 1 15 _l) __ __ __ __ "AMOUNT";
  AI "3904" FNC1    (part cset_N 1 15 _l) __ __ __ __ "AMOUNT";
  AI "3905" FNC1    (part cset_N 1 15 _l) __ __ __ __ "AMOUNT";
  AI "3906" FNC1    (part cset_N 1 15 _l) __ __ __ __ "AMOUNT";
  AI "3907" FNC1    (part cset_N 1 15 _l) __ __ __ __ "AMOUNT";
  AI "3908" FNC1    (part cset_N 1 15 _l) __ __ __ __ "AMOUNT";
  AI "3909" FNC1    (part cset_N 1 15 _l) __ __ __ __ "AMOUNT";
  AI "3910" FNC1    (part cset_N 3 3 _l) (part cset_N 1 15 _l) __ __ __ "AMOUNT";
  AI "3911" FNC1    (part cset_N 3 3 _l) (part cset_N 1 15 _l) __ __ __ "AMOUNT";
  AI "3912" FNC1    (part cset_N 3 3 _l) (part cset_N 1 15 _l) __ __ __ "AMOUNT";
  AI "3913" FNC1    (part cset_N 3 3 _l) (part cset_N 1 15 _l) __ __ __ "AMOUNT";
  AI "3914" FNC1    (part cset_N 3 3 _l) (part cset_N 1 15 _l) __ __ __ "AMOUNT";
  AI "3915" FNC1    (part cset_N 3 3 _l) (part cset_N 1 15 _l) __ __ __ "AMOUNT";
  AI "3916" FNC1    (part cset_N 3 3 _l) (part cset_N 1 15 _l) __ __ __ "AMOUNT";
  AI "3917" FNC1    (part cset_N 3 3 _l) (part cset_N 1 15 _l) __ __ __ "AMOUNT";
  AI "3918" FNC1    (part cset_N 3 3 _l) (part cset_N 1 15 _l) __ __ __ "AMOUNT";
  AI "3919" FNC1    (part cset_N 3 3 _l) (part cset_N 1 15 _l) __ __ __ "AMOUNT";
  AI "3920" FNC1    (part cset_N 1 15 _l) __ __ __ __ "PRICE";
  AI "3921" FNC1    (part cset_N 1 15 _l) __ __ __ __ "PRICE";
  AI "3922" FNC1    (part cset_N 1 15 _l) __ __ __ __ "PRICE";
  AI "3923" FNC1    (part cset_N 1 15 _l) __ __ __ __ "PRICE";
  AI "3924" FNC1    (part cset_N 1 15 _l) __ __ __ __ "PRICE";
  AI "3925" FNC1    (part cset_N 1 15 _l) __ __ __ __ "PRICE";
  AI "3926" FNC1    (part cset_N 1 15 _l) __ __ __ __ "PRICE";
  AI "3927" FNC1    (part cset_N 1 15 _l) __ __ __ __ "PRICE";
  AI "3928" FNC1    (part cset_N 1 15 _l) __ __ __ __ "PRICE";
  AI "3929" FNC1    (part cset_N 1 15 _l) __ __ __ __ "PRICE";
  AI "3930" FNC1    (part cset_N 3 3 _l) (part cset_N 1 15 _l) __ __ __ "PRICE";
  AI "3931" FNC1    (part cset_N 3 3 _l) (part cset_N 1 15 _l) __ __ __ "PRICE";
  AI "3932" FNC1    (part cset_N 3 3 _l) (part cset_N 1 15 _l) __ __ __ "PRICE";
  AI "3933" FNC1    (part cset_N 3 3 _l) (part cset_N 1 15 _l) __ __ __ "PRICE";
  AI "3934" FNC1    (part cset_N 3 3 _l) (part cset_N 1 15 _l) __ __ __ "PRICE";
  AI "3935" FNC1    (part cset_N 3 3 _l) (part cset_N 1 15 _l) __ __ __ "PRICE";
  AI "3936" FNC1    (part cset_N 3 3 _l) (part cset_N 1 15 _l) __ __ __ "PRICE";
  AI "3937" FNC1    (part cset_N 3 3 _l) (part cset_N 1 15 _l) __ __ __ "PRICE";
  AI "3938" FNC1    (part cset_N 3 3 _l) (part cset_N 1 15 _l) __ __ __ "PRICE";
  AI "3939" FNC1    (part cset_N 3 3 _l) (part cset_N 1 15 _l) __ __ __ "PRICE";
  AI "3940" FNC1    (part cset_N 4 4 _l) __ __ __ __ "PRCNT OFF";
  AI "3941" FNC1    (part cset_N 4 4 _l) __ __ __ __ "PRCNT OFF";
  AI "3942" FNC1    (part cset_N 4 4 _l) __ __ __ __ "PRCNT OFF";
  AI "3943" FNC1    (part cset_N 4 4 _l) __ __ __ __ "PRCNT OFF";
  AI "3950" FNC1    (part cset_N 6 6 _l) __ __ __ __ "PRICE/UoM";
  AI "3951" FNC1    (part cset_N 6 6 _l) __ __ __ __ "PRICE/UoM";
  AI "3952" FNC1    (part cset_N 6 6 _l) __ __ __ __ "PRICE/UoM";
  AI "3953" FNC1    (part cset_N 6 6 _l) __ __ __ __ "PRICE/UoM";
  AI "3954" FNC1    (part cset_N 6 6 _l) __ __ __ __ "PRICE/UoM";
  AI "3955" FNC1    (part cset_N 6 6 _l) __ __ __ __ "PRICE/UoM";
  AI "400"  FNC1    (part cset_X 1 30 _l) __ __ __ __ "ORDER NUMBER";
  AI "401"  FNC1    (part cset_X 1 30 _l) __ __ __ __ "GINC";
  AI "402"  FNC1    (part cset_N 17 17 csum) __ __ __ __ "GSIN";
  AI "403"  FNC1    (part cset_X 1 30 _l) __ __ __ __ "ROUTE";
  AI "410"  NO_FNC1 (part cset_N 13 13 csum) __ __ __ __ "SHIP TO LOC";
  AI "411"  NO_FNC1 (part cset_N 13 13 csum) __ __ __ __ "BILL TO";
  AI "412"  NO_FNC1 (part cset_N 13 13 csum) __ __ __ __ "PURCHASE FROM";
  AI "413"  NO_FNC1 (part cset_N 13 13 csum) __ __ __ __ "SHIP FOR LOC";
  AI "414"  NO_FNC1 (part cset_N 13 13 csum) __ __ __ __ "LOC NO.";
  AI "415"  NO_FNC1 (part cset_N 13 13 csum) __ __ __ __ "PAY TO";
  AI "416"  NO_FNC1 (part cset_N 13 13 csum) __ __ __ __ "PROD/SERV LOC";
  AI "417"  NO_FNC1 (part cset_N 13 13 csum) __ __ __ __ "PARTY";
  AI "420"  FNC1    (part cset_X 1 20 _l) __ __ __ __ "SHIP TO POST";
  AI "421"  FNC1    (part cset_N 3 3 _l) (part cset_X 1 9 _l) __ __ __ "SHIP TO POST";
  AI "422"  FNC1    (part cset_N 3 3 _l) __ __ __ __ "ORIGIN";
  AI "423"  FNC1    (part cset_N 3 15 _l) __ __ __ __ "COUNTRY - INITIAL PROCESS";
  AI "424"  FNC1    (part cset_N 3 3 _l) __ __ __ __ "COUNTRY - PROCESS";
  AI "425"  FNC1    (part cset_N 3 15 _l) __ __ __ __ "COUNTRY - DISASSEMBLY";
  AI "426"  FNC1    (part cset_N 3 3 _l) __ __ __ __ "COUNTRY - FULL PROCESS";
  AI "427"  FNC1    (part cset_X 1 3 _l) __ __ __ __ "ORIGIN SUBDIVISION";
  AI "4300" FNC1    (part cset_X 1 35 _l) __ __ __ __ "SHIP TO COMP";
  AI "4301" FNC1    (part cset_X 1 35 _l) __ __ __ __ "SHIP TO NAME";
  AI "4302" FNC1    (part cset_X 1 70 _l) __ __ __ __ "SHIP TO ADD1";
  AI "4303" FNC1    (part cset_X 1 70 _l) __ __ __ __ "SHIP TO ADD2";
  AI "4304" FNC1    (part cset_X 1 70 _l) __ __ __ __ "SHIP TO SUB";
  AI "4305" FNC1    (part cset_X 1 70 _l) __ __ __ __ "SHIP TO LOC";
  AI "4306" FNC1    (part cset_X 1 70 _l) __ __ __ __ "SHIP TO REG";
  AI "4307" FNC1    (part cset_X 2 2 _l) __ __ __ __ "SHIP TO COUNTRY";
  AI "4308" FNC1    (part cset_X 1 30 _l) __ __ __ __ "SHIP TO PHONE";
  AI "4310" FNC1    (part cset_X 1 35 _l) __ __ __ __ "RTN TO COMP";
  AI "4311" FNC1    (part cset_X 1 35 _l) __ __ __ __ "RTN TO NAME";
  AI "4312" FNC1    (part cset_X 1 70 _l) __ __ __ __ "RTN TO ADD1";
  AI "4313" FNC1    (part cset_X 1 70 _l) __ __ __ __ "RTN TO ADD2";
  AI "4314" FNC1    (part cset_X 1 70 _l) __ __ __ __ "RTN TO SUB";
  AI "4315" FNC1    (part cset_X 1 70 _l) __ __ __ __ "RTN TO LOC";
  AI "4316" FNC1    (part cset_X 1 70 _l) __ __ __ __ "RTN TO REG";
  AI "4317" FNC1    (part cset_X 2 2 _l) __ __ __ __ "RTN TO COUNTRY";
  AI "4318" FNC1    (part cset_X 1 20 _l) __ __ __ __ "RTN TO POST";
  AI "4319" FNC1    (part cset_X 1 30 _l) __ __ __ __ "RTN TO PHONE";
  AI "4320" FNC1    (part cset_X 1 35 _l) __ __ __ __ "SRV DESCRIPTION";
  AI "4321" FNC1    (part cset_N 1 1 _l) __ __ __ __ "DANGEROUS GOODS";
  AI "4322" FNC1    (part cset_N 1 1 _l) __ __ __ __ "AUTH LEAVE";
  AI "4323" FNC1    (part cset_N 1 1 _l) __ __ __ __ "SIG REQUIRED";
  AI "4324" FNC1    (part cset_N 6 6 _l) (part cset_N 4 4 _l) __ __ __ "NBEF DEL DT.";
  AI "4325" FNC1    (part cset_N 6 6 _l) (part cset_N 4 4 _l) __ __ __ "NAFT DEL DT.";
  AI "4326" FNC1    (part cset_N 6 6 _l) __ __ __ __ "REL DATE";
  AI "7001" FNC1    (part cset_N 13 13 _l) __ __ __ __ "NSN";
  AI "7002" FNC1    (part cset_X 1 30 _l) __ __ __ __ "MEAT CUT";
  AI "7003" FNC1    (part cset_N 6 6 _l) (part cset_N 4 4 _l) __ __ __ "EXPIRY TIME";
  AI "7004" FNC1    (part cset_N 1 4 _l) __ __ __ __ "ACTIVE POTENCY";
  AI "7005" FNC1    (part cset_X 1 12 _l) __ __ __ __ "CATCH AREA";
  AI "7006" FNC1    (part cset_N 6 6 _l) __ __ __ __ "FIRST FREEZE DATE";
  AI "7007" FNC1    (part cset_N 6 6 _l) (part cset_N 0 6 _l) __ __ __ "HARVEST DATE";
  AI "7008" FNC1    (part cset_X 1 3 _l) __ __ __ __ "AQUATIC SPECIES";
  AI "7009" FNC1    (part cset_X 1 10 _l) __ __ __ __ "FISHING GEAR TYPE";
  AI "7010" FNC1    (part cset_X 1 2 _l) __ __ __ __ "PROD METHOD";
  AI "7020" FNC1    (part cset_X 1 20 _l) __ __ __ __ "REFURB LOT";
  AI "7021" FNC1    (part cset_X 1 20 _l) __ __ __ __ "FUNC STAT";
  AI "7022" FNC1    (part cset_X 1 20 _l) __ __ __ __ "REV STAT";
  AI "7023" FNC1    (part cset_X 1 30 _l) __ __ __ __ "GIAI - ASSEMBLY";
  AI "7030" FNC1    (part cset_N 3 3 _l) (part cset_X 1 27 _l) __ __ __ "PROCESSOR # s";
  AI "7031" FNC1    (part cset_N 3 3 _l) (part cset_X 1 27 _l) __ __ __ "PROCESSOR # s";
  AI "7032" FNC1    (part cset_N 3 3 _l) (part cset_X 1 27 _l) __ __ __ "PROCESSOR # s";
  AI "7033" FNC1    (part cset_N 3 3 _l) (part cset_X 1 27 _l) __ __ __ "PROCESSOR # s";
  AI "7034" FNC1    (part cset_N 3 3 _l) (part cset_X 1 27 _l) __ __ __ "PROCESSOR # s";
  AI "7035" FNC1    (part cset_N 3 3 _l) (part cset_X 1 27 _l) __ __ __ "PROCESSOR # s";
  AI "7036" FNC1    (part cset_N 3 3 _l) (part cset_X 1 27 _l) __ __ __ "PROCESSOR # s";
  AI "7037" FNC1    (part cset_N 3 3 _l) (part cset_X 1 27 _l) __ __ __ "PROCESSOR # s";
  AI "7038" FNC1    (part cset_N 3 3 _l) (part cset_X 1 27 _l) __ __ __ "PROCESSOR # s";
  AI "7039" FNC1    (part cset_N 3 3 _l) (part cset_X 1 27 _l) __ __ __ "PROCESSOR # s";
  AI "7040" FNC1    (part cset_N 1 1 _l) (part cset_X 1 1 _l) (part cset_X 1 1 _l) (part cset_X 1 1 _l) __ "UIC+EXT";
  AI "710"  FNC1    (part cset_X 1 20 _l) __ __ __ __ "NHRN PZN";
  AI "711"  FNC1    (part cset_X 1 20 _l) __ __ __ __ "NHRN CIP";
  AI "712"  FNC1    (part cset_X 1 20 _l) __ __ __ __ "NHRN CN";
  AI "713"  FNC1    (part cset_X 1 20 _l) __ __ __ __ "NHRN DRN";
  AI "714"  FNC1    (part cset_X 1 20 _l) __ __ __ __ "NHRN AIM";
  AI "7230" FNC1    (part cset_X 2 2 _l) (part cset_X 1 28 _l) __ __ __ "CERT # s";
  AI "7231" FNC1    (part cset_X 2 2 _l) (part cset_X 1 28 _l) __ __ __ "CERT # s";
  AI "7232" FNC1    (part cset_X 2 2 _l) (part cset_X 1 28 _l) __ __ __ "CERT # s";
  AI "7233" FNC1    (part cset_X 2 2 _l) (part cset_X 1 28 _l) __ __ __ "CERT # s";
  AI "7234" FNC1    (part cset_X 2 2 _l) (part cset_X 1 28 _l) __ __ __ "CERT # s";
  AI "7235" FNC1    (part cset_X 2 2 _l) (part cset_X 1 28 _l) __ __ __ "CERT # s";
  AI "7236" FNC1    (part cset_X 2 2 _l) (part cset_X 1 28 _l) __ __ __ "CERT # s";
  AI "7237" FNC1    (part cset_X 2 2 _l) (part cset_X 1 28 _l) __ __ __ "CERT # s";
  AI "7238" FNC1    (part cset_X 2 2 _l) (part cset_X 1 28 _l) __ __ __ "CERT # s";
  AI "7239" FNC1    (part cset_X 2 2 _l) (part cset_X 1 28 _l) __ __ __ "CERT # s";
  AI "7240" FNC1    (part cset_X 1 20 _l) __ __ __ __ "PROTOCOL";
  AI "8001" FNC1    (part cset_N 4 4 _l) (part cset_N 5 5 _l) (part cset_N 3 3 _l) (part cset_N 1 1 _l) (part cset_N 1 1 _l) "DIMENSIONS";
  AI "8002" FNC1    (part cset_X 1 20 _l) __ __ __ __ "CMT NO.";
  AI "8003" FNC1    (part cset_N 1 1 _l) (part cset_N 13 13 csum) (part cset_X 0 16 _l) __ __ "GRAI";
  AI "8004" FNC1    (part cset_X 1 30 _l) __ __ __ __ "GIAI";
  AI "8005" FNC1    (part cset_N 6 6 _l) __ __ __ __ "PRICE PER UNIT";
  AI "8006" FNC1    (part cset_N 14 14 csum) (part cset_N 4 4 _l) __ __ __ "ITIP";
  AI "8007" FNC1    (part cset_X 1 34 _l) __ __ __ __ "IBAN";
  AI "8008" FNC1    (part cset_N 8 8 _l) (part cset_N 0 4 _l) __ __ __ "PROD TIME";
  AI "8009" FNC1    (part cset_X 1 50 _l) __ __ __ __ "OPTSEN";
  AI "8010" FNC1    (part cset_C 1 30 _l) __ __ __ __ "CPID";
  AI "8011" FNC1    (part cset_N 1 12 _l) __ __ __ __ "CPID SERIAL";
  AI "8012" FNC1    (part cset_X 1 20 _l) __ __ __ __ "VERSION";
  AI "8013" FNC1    (part cset_X 1 25 _l) __ __ __ __ "GMN";
  AI "8017" FNC1    (part cset_N 18 18 csum) __ __ __ __ "GSRN - PROVIDER";
  AI "8018" FNC1    (part cset_N 18 18 csum) __ __ __ __ "GSRN - RECIPIENT";
  AI "8019" FNC1    (part cset_N 1 10 _l) __ __ __ __ "SRIN";
  AI "8020" FNC1    (part cset_X 1 25 _l) __ __ __ __ "REF NO.";
  AI "8026" FNC1    (part cset_N 14 14 csum) (part cset_N 4 4 _l) __ __ __ "ITIP CONTENT";
  AI "8110" FNC1    (part cset_X 1 70 _l) __ __ __ __ "";
  AI "8111" FNC1    (part cset_N 4 4 _l) __ __ __ __ "POINTS";
  AI "8112" FNC1    (part cset_X 1 70 _l) __ __ __ __ "";
  AI "8200" FNC1    (part cset_X 1 70 _l) __ __ __ __ "PRODUCT URL";
  AI "90"   FNC1    (part cset_X 1 30 _l) __ __ __ __ "INTERNAL";
  AI "91"   FNC1    (part cset_X 1 90 _l) __ __ __ __ "INTERNAL";
  AI "92"   FNC1    (part cset_X 1 90 _l) __ __ __ __ "INTERNAL";
  AI "93"   FNC1    (part cset_X 1 90 _l) __ __ __ __ "INTERNAL";
  AI "94"   FNC1    (part cset_X 1 90 _l) __ __ __ __ "INTERNAL";
  AI "95"   FNC1    (part cset_X 1 90 _l) __ __ __ __ "INTERNAL";
  AI "96"   FNC1    (part cset_X 1 90 _l) __ __ __ __ "INTERNAL";
  AI "97"   FNC1    (part cset_X 1 90 _l) __ __ __ __ "INTERNAL";
  AI "98"   FNC1    (part cset_X 1 90 _l) __ __ __ __ "INTERNAL";
  AI "99"   FNC1    (part cset_X 1 90 _l) __ __ __ __ "INTERNAL"
].

Local Close Scope string_scope.

(** Lookup an AI table entry matching a given AI or matching prefix of
    given data.  For an exact AI lookup its length is given; otherwise 0
    length looks for an AI matching a prefix of the given data.  The walk
    is over a table [tbl]; the code walks [ai_table]. *)
Definition ai_matches (p : list ascii) (ailen : nat) (entry : aiEntry) : bool :=
  let entrylen := length (ai entry) in
  if negb (ailen =? 0) && negb (ailen =? entrylen) then false
  else strncmp0 p (ai entry) (if 0 <? ailen then ailen else entrylen).

Definition lookupAIentry_in (tbl : list aiEntry) (p : list ascii) (ailen : nat)
  : option aiEntry :=
  find (ai_matches p ailen) tbl.

Definition lookupAIentry (p : list ascii) (ailen : nat) : option aiEntry :=
  lookupAIentry_in ai_table p ailen.

(** List of DL pkeys: only used to find the beginning of the DL path info. *)
Definition dl_pkeys : list (list ascii) :=
  map str
    [ "00"; "01"; "253"; "255"; "401"; "402"; "414"; "417";
      "8003"; "8004"; "8006"; "8010"; "8013"; "8017"; "8018" ]%string.

Definition isDLpkey (p : list ascii) : bool :=
  existsb (fun k => strcmp0 p k) dl_pkeys.

(* ================================================================= *)
(** ** Encoder context and memory *)

(** An extracted AI: the table entry, the start of the value (an offset
    into the AI data string) and the length of the value. *)
Record aiValue := {
  aiEntry_ : aiEntry;
  value : nat;
  vallen : nat
}.

Record gs1_encoder := {
  errMsg : list ascii;
  errFlag : bool;
  aiData : list aiValue
}.

Definition numAIs (ctx : gs1_encoder) : nat := length (aiData ctx).

(** [sprintf(ctx->errMsg, ...); ctx->errFlag = true;] *)
Definition set_err (ctx : gs1_encoder) (msg : list ascii) : gs1_encoder :=
  {| errMsg := msg; errFlag := true; aiData := aiData ctx |}.

(** [sprintf(ctx->errMsg, ...)] alone. *)
Definition set_msg (ctx : gs1_encoder) (msg : list ascii) : gs1_encoder :=
  {| errMsg := msg; errFlag := errFlag ctx; aiData := aiData ctx |}.

(** Clearing [errMsg] and [errFlag] on entry. *)
Definition clear_err (ctx : gs1_encoder) : gs1_encoder :=
  {| errMsg := []; errFlag := false; aiData := aiData ctx |}.

Definition add_ai (ctx : gs1_encoder) (v : aiValue) : gs1_encoder :=
  {| errMsg := errMsg ctx; errFlag := errFlag ctx; aiData := aiData ctx ++ [v] |}.

(** The two buffers validation can reach: the AI data string being
    processed and the local [compval] of [validate_ai_val].  A linter
    receives a [char *val]; [ptr] says which buffer it points into. *)
Record memory := {
  dataBuf : list ascii;
  compval : list ascii
}.

Inductive ptr := ptrData (off : nat) | ptrCompval (off : nat).

(** The C string at a pointer. *)
Definition load (m : memory) (p : ptr) : list ascii :=
  match p with
  | ptrData o => c_str (skipn o (dataBuf m))
  | ptrCompval o => c_str (skipn o (compval m))
  end.

Definition splice (buf : list ascii) (o : nat) (s : list ascii) : list ascii :=
  firstn o buf ++ s ++ skipn (o + length s) buf.

(** Put back the (equally long) string a callee left at a pointer. *)
Definition store (m : memory) (p : ptr) (s : list ascii) : memory :=
  match p with
  | ptrData o => {| dataBuf := splice (dataBuf m) o s; compval := compval m |}
  | ptrCompval o => {| dataBuf := dataBuf m; compval := splice (compval m) o s |}
  end.

(* ================================================================= *)
(** ** Check digit *)

(** Two's complement wrap of an [int]. *)
Definition wrap_int (z : Z) : Z := ((z + 2 ^ 31) mod 2 ^ 32 - 2 ^ 31)%Z.

Definition code (c : ascii) : Z := Z.of_nat (nat_of_ascii c).

Definition chr (z : Z) : ascii := ascii_of_nat (Z.to_nat (z mod 256)).

(** The loop of [gs1_validateParity]: while a character follows the one
    [str] is at, add [weight] times the digit at [str] to [parity], step
    [str] and swap the weight between 3 and 1.  The result is the parity
    and the string [str] ends up at. *)
Fixpoint parity_loop (s : list ascii) (weight parity : Z) : Z * list ascii :=
  match s with
  | c :: ((_ :: _) as s') =>
      parity_loop s' (4 - weight)%Z
        (wrap_int (parity + wrap_int (weight * (code c - code "0"))))
  | _ => (parity, s)
  end.

(** Validate and set the parity digit.  The string is passed in and the
    string as the call leaves it is passed back with the result.  The
    code asserts that the string is not empty. *)
Definition gs1_validateParity (s : list ascii) : bool * list ascii :=
  let weight := if (length s mod 2 =? 0) then 3%Z else 1%Z in
  let '(parity, last) := parity_loop s weight 0%Z in
  let parity := Z.rem (10 - Z.rem parity 10) 10 in
  if (parity + code "0" =? code (deref last))%Z then (true, s)
  else (false, firstn (length s - length last) s ++ chr (parity + code "0") :: tl last).

Definition is_digit (c : ascii) : bool :=
  negb ((nat_of_ascii c <? nat_of_ascii "0") || (nat_of_ascii "9" <? nat_of_ascii c)).

(** The loop reads [str[0]] to [str[len - 1]] and stops at the first
    byte that is no digit: the terminating NUL when [len] reaches it. *)
Definition gs1_allDigits (s : list ascii) (len : nat) : bool :=
  let len := if len =? 0 then length (c_str s) else len in
  forallb is_digit (firstn len (s ++ [NUL])).

(* ================================================================= *)
(** ** Linters *)

Definition ai_msg (pre : string) (entry : aiEntry) (post : string) : list ascii :=
  str pre ++ ai entry ++ str post.

Definition lint_cset82 (ctx : gs1_encoder) (entry : aiEntry) (val : ptr) (m : memory)
  : bool * gs1_encoder * memory :=
  let v := load m val in
  if negb (strspn v cset82 =? length v) then
    (false, set_err ctx (ai_msg "AI (" entry "): Incorrect CSET 82 character"), m)
  else (true, ctx, m).

Definition lint_csetNumeric (ctx : gs1_encoder) (entry : aiEntry) (val : ptr) (m : memory)
  : bool * gs1_encoder * memory :=
  if negb (gs1_allDigits (load m val) 0) then
    (false, set_err ctx (ai_msg "AI (" entry "): Illegal non-digit character"), m)
  else (true, ctx, m).

Definition lint_csum (ctx : gs1_encoder) (entry : aiEntry) (val : ptr) (m : memory)
  : bool * gs1_encoder * memory :=
  let '(ok, s') := gs1_validateParity (load m val) in
  let m' := store m val s' in
  if negb ok then
    (false, set_err ctx (ai_msg "AI (" entry "): Incorrect check digit"), m')
  else (true, ctx, m').

Definition run_linter (l : linter_t)
  : gs1_encoder -> aiEntry -> ptr -> memory -> bool * gs1_encoder * memory :=
  match l with
  | lint_csum_fn => lint_csum
  end.

(** [for (j = 0; ...; j++) { if (!part->linters[j]) break;
      if (!part->linters[j](ctx, entry, compval)) return 0; }] *)
Fixpoint run_linters (ls : list linter_t) (ctx : gs1_encoder) (entry : aiEntry)
    (val : ptr) (m : memory) : bool * gs1_encoder * memory :=
  match ls with
  | [] => (true, ctx, m)
  | l :: ls' =>
      let '(ok, ctx', m') := run_linter l ctx entry val m in
      if ok then run_linters ls' ctx' entry val m' else (false, ctx', m')
  end.

(* ================================================================= *)
(** ** Component validation *)

(** The loop over [entry->parts] of [validate_ai_val]; [p] and [r] are
    offsets into the data string.  [None] is [return 0]; [Some p] is the
    [p] the loop ends with. *)
Fixpoint validate_parts (ps : list aiComponent) (ctx : gs1_encoder) (entry : aiEntry)
    (p r : nat) (m : memory) : option nat * gs1_encoder * memory :=
  match ps with
  | [] => (Some p, ctx, m)
  | part :: ps' =>
      if cset_eqb (cset part) cset_none then (Some p, ctx, m)
      else
        let complen := if max part <? r - p then max part else r - p in
        (* strncpy(compval, p, complen); compval[complen] = 0 *)
        let m := {| dataBuf := dataBuf m;
                    compval := firstn complen (skipn p (dataBuf m)) |} in
        let p := p + complen in
        if complen <? min part then
          (None, set_err ctx (ai_msg "AI (" entry ") data is too short"), m)
        else
          let linter := if cset_eqb (cset part) cset_N
                        then lint_csetNumeric else lint_cset82 in
          let '(ok, ctx, m) := linter ctx entry (ptrCompval 0) m in
          if negb ok then (None, ctx, m)
          else
            let '(ok, ctx, m) :=
              run_linters (linters part) ctx entry (ptrCompval 0) m in
            if negb ok then (None, ctx, m)
            else validate_parts ps' ctx entry p r m
  end.

(** Validate string between start and end pointers according to rules
    for an AI.  The data string is passed in as [d] and passed back as
    validation leaves it. *)
Definition validate_ai_val (ctx : gs1_encoder) (entry : aiEntry) (start end_ : nat)
    (d : list ascii) : nat * gs1_encoder * list ascii :=
  if start =? end_ then
    (0, set_err ctx (ai_msg "AI (" entry ") data is empty"), d)
  else
    let '(res, ctx, m) :=
      validate_parts (parts entry) ctx entry start end_
        {| dataBuf := d; compval := [] |} in
    match res with
    | None => (0, ctx, dataBuf m)
    | Some p => (p - start, ctx, dataBuf m)
    end.

(** AI length and content check (no "#") used by parsers prior to
    performing component-based validation. *)
Definition ai_minlen (entry : aiEntry) : nat :=
  fold_left (fun minlen part => minlen + min part) (parts entry) 0.

Definition ai_maxlen (entry : aiEntry) : nat :=
  fold_left (fun maxlen part => maxlen + max part) (parts entry) 0.

Definition aiValLengthContentCheck (ctx : gs1_encoder) (entry : aiEntry)
    (aiVal : list ascii) (vallen : nat) : bool * gs1_encoder :=
  let minlen := ai_minlen entry in
  let maxlen := ai_maxlen entry in
  if vallen <? minlen then
    (false, set_msg ctx (ai_msg "AI (" entry ") value is too short"))
  else if maxlen <? vallen then
    (false, set_msg ctx (ai_msg "AI (" entry ") value is too long"))
  else if existsb (Ascii.eqb "#") (firstn vallen aiVal) then
    (false, set_msg ctx (ai_msg "AI (" entry ") contains illegal # character"))
  else (true, ctx).

(** How a loop of a parser ends: it runs to its end, or it jumps to the
    [fail] label with the context as it is then. *)
Inductive step (A : Type) : Type :=
| Done (a : A)
| GotoFail (ctx : gs1_encoder).
Arguments Done {A} a.
Arguments GotoFail {A} ctx.

(* ================================================================= *)
(** ** The parsers *)

Section Parsers.

(** Buffer capacities.  The private header that defines them is not
    among the sources; they are parameters of the development. *)
Variable MAX_DATA : nat.
Variable MAX_AI_LEN : nat.
Variable MAX_AIS : nat.

(** Write to dataStr checking for overflow: [None] is [goto fail]. *)
Definition writeDataStr (dataStr v : list ascii) : option (list ascii) :=
  if MAX_DATA <? length dataStr + length v then None
  else Some (dataStr ++ v).

(** [strncat] stops at a NUL of [v]. *)
Definition nwriteDataStr (dataStr v : list ascii) (l : nat) : option (list ascii) :=
  if MAX_DATA <? length dataStr + l then None
  else Some (dataStr ++ firstn l (c_str v)).

(** Determine whether FNC1 is required before the next AI. *)
Definition fnc1req_after (entry : aiEntry) : bool :=
  fold_left
    (fun fnc1req prefix => if strncmp0 prefix (ai entry) 2 then false else fnc1req)
    fixedAIprefixes true.

(** *** Validate regular AI data ("#...") and extract AIs *)

Definition Result : Type := bool * gs1_encoder * list ascii.

(** The [while ( *p )] loop of [gs1_processAIdata].  [d] is the data
    string buffer, [p] the offset the loop is at.  Every iteration
    advances [p]; [fuel] bounds the iterations and [None] means it ran
    out. *)
Fixpoint processAIdata_loop (fuel : nat) (ctx : gs1_encoder) (d : list ascii) (p : nat)
  : option Result :=
  match fuel with
  | 0 => None
  | S fuel' =>
      if is_nul (deref (skipn p (c_str d))) then Some (true, ctx, d)
      else
        (* Find AI that matches a prefix of our data *)
        match lookupAIentry (skipn p (c_str d)) 0 with
        | None =>
            Some (false,
                  set_err ctx (str "Unrecognised AI: " ++ firstn 4 (skipn p (c_str d))),
                  d)
        | Some entry =>
            let p := p + length (ai entry) in
            (* r points to the next FNC1 or end of string... *)
            let r := p + strchr_end (skipn p (c_str d)) "#" in
            (* Validate and return how much was consumed *)
            let '(vallen, ctx, d) := validate_ai_val ctx entry p r d in
            if vallen =? 0 then Some (false, ctx, d)
            else if numAIs ctx <? MAX_AIS then
              (* Add to the aiData *)
              let ctx :=
                add_ai ctx {| aiEntry_ := entry; value := p; vallen := vallen mod 256 |} in
              (* After AIs requiring FNC1, we expect to find an FNC1 or be at the end *)
              let p := p + vallen in
              let c := deref (skipn p (c_str d)) in
              if fnc1 entry && negb (Ascii.eqb c "#") && negb (is_nul c) then
                Some (false, set_err ctx (ai_msg "AI (" entry ") data is too long"), d)
              else
                (* Skip FNC1, even at end of fixed-length AIs *)
                let p := if Ascii.eqb c "#" then p + 1 else p in
                processAIdata_loop fuel' ctx d p
            else Some (false, set_err ctx (str "Too many AIs"), d)
        end
  end.

Definition gs1_processAIdata_run (ctx : gs1_encoder) (dataStr : list ascii)
  : option Result :=
  let ctx := clear_err ctx in
  let p := c_str dataStr in
  (* Ensure FNC1 in first *)
  if is_nul (deref p) || negb (Ascii.eqb (deref p) "#") then
    Some (false, set_err ctx (str "Missing FNC1 in first position"), dataStr)
  (* Must have some AI data *)
  else if is_nul (deref (skipn 1 p)) then
    Some (false, set_err ctx (str "The AI data is empty"), dataStr)
  else processAIdata_loop (length p) ctx dataStr 1.

(** The result is the return value, the context and the data string
    buffer as the call leaves them.  The default is never taken
    (see [processAIdata_run_total]). *)
Definition gs1_processAIdata (ctx : gs1_encoder) (dataStr : list ascii) : Result :=
  match gs1_processAIdata_run ctx dataStr with
  | Some res => res
  | None => (false, ctx, dataStr)
  end.

(** *** Convert bracketed AI syntax data to regular AI data string *)

(** The [fail:] label of [gs1_parseAIdata]. *)
Definition parseAIdata_fail (ctx : gs1_encoder) : Result :=
  (false,
   set_err ctx (if is_nul (deref (errMsg ctx)) then str "Failed to parse AI data"
                else errMsg ctx),
   []).

(** The [again:] loop that writes one value.  [r] is where the value
    (or its remainder) starts and [prev] the character before [r]:
    the closing bracket of the AI at first, an escaped bracket
    afterwards.  [Some None] is [goto fail]; [Some (Some (p, dataStr))]
    leaves [p] at the next AI or at the end. *)
Fixpoint parseAIdata_value (fuel : nat) (prev : ascii) (r dataStr : list ascii)
  : option (option (list ascii * list ascii)) :=
  match fuel with
  | 0 => None
  | S fuel' =>
      (* Move the pointer to the end if no more AIs *)
      let n := strchr_end r "(" in
      let p := skipn n r in
      let before_p := match n with 0 => prev | S n' => nth n' r NUL end in
      if negb (is_nul (deref p)) && Ascii.eqb before_p "\" then
        (* This bracket is an escaped data character *)
        match nwriteDataStr dataStr r (n - 1) with   (* Write up to the escape character *)
        | None => Some None
        | Some dataStr =>
            match writeDataStr dataStr (str "(") with   (* Write the data bracket *)
            | None => Some None
            | Some dataStr => parseAIdata_value fuel' "(" (skipn 1 p) dataStr
            end
        end
      else
        match nwriteDataStr dataStr r n with   (* Write the remainder of the value *)
        | None => Some None
        | Some dataStr => Some (Some (p, dataStr))
        end
  end.

Fixpoint parseAIdata_loop (fuel : nat) (ctx : gs1_encoder) (p dataStr : list ascii)
    (fnc1req : bool) : option Result :=
  match fuel with
  | 0 => None
  | S fuel' =>
      if is_nul (deref p) then
        (* Now validate the data that we have written *)
        Some (gs1_processAIdata ctx dataStr)
      else if negb (Ascii.eqb (deref p) "(") then   (* Expect start of AI *)
        Some (parseAIdata_fail ctx)
      else
        let p := skipn 1 p in
        match strchr p ")" with   (* Find end of AI *)
        | None => Some (parseAIdata_fail ctx)
        | Some n =>
            let r := skipn (S n) p in   (* Advance to start of data after lookup *)
            match lookupAIentry p n with
            | None =>
                Some (parseAIdata_fail
                        (set_msg ctx (str "Unrecognised AI: " ++ firstn 4 p)))
            | Some entry =>
                match (if fnc1req then writeDataStr dataStr (str "#")
                       else Some dataStr) with   (* Write FNC1, if required *)
                | None => Some (parseAIdata_fail ctx)
                | Some dataStr =>
                    match writeDataStr dataStr (ai entry) with   (* Write AI *)
                    | None => Some (parseAIdata_fail ctx)
                    | Some dataStr =>
                        let fnc1req := fnc1req_after entry in
                        (* Fail if message ends after AI and no value *)
                        if is_nul (deref r) then Some (parseAIdata_fail ctx)
                        else
                          (* Record the current start of the output value *)
                          let outval := length dataStr in
                          match parseAIdata_value (S (length r)) ")" r dataStr with
                          | None => None
                          | Some None => Some (parseAIdata_fail ctx)
                          | Some (Some (p, dataStr)) =>
                              let '(ok, ctx) :=
                                aiValLengthContentCheck ctx entry
                                  (skipn outval dataStr)
                                  (length (skipn outval dataStr)) in
                              if ok then parseAIdata_loop fuel' ctx p dataStr fnc1req
                              else Some (parseAIdata_fail ctx)
                          end
                    end
                end
            end
        end
  end.

Definition gs1_parseAIdata_run (ctx : gs1_encoder) (aiData_in : list ascii)
  : option Result :=
  parseAIdata_loop (S (length (c_str aiData_in))) (clear_err ctx)
    (c_str aiData_in) [] true.

(** The result is the return value, the context and the output buffer
    [dataStr].  The default is never taken (see [parseAIdata_run_total]). *)
Definition gs1_parseAIdata (ctx : gs1_encoder) (aiData_in : list ascii) : Result :=
  match gs1_parseAIdata_run ctx aiData_in with
  | Some res => res
  | None => (false, ctx, [])
  end.

(** *** Convert DL data to regular AI data string *)

Definition isxdigit (c : ascii) : bool :=
  mem_char c (str "0123456789abcdefABCDEF").

(** [strtoul(hex, NULL, 16)] for one hex digit. *)
Definition hexval (c : ascii) : nat :=
  if is_digit c then nat_of_ascii c - nat_of_ascii "0"
  else if nat_of_ascii "a" <=? nat_of_ascii c then nat_of_ascii c - nat_of_ascii "a" + 10
  else nat_of_ascii c - nat_of_ascii "A" + 10.

(** [a - b] in [size_t], 64 bits wide. *)
Definition size_t_sub (a b : nat) : Z := ((Z.of_nat a - Z.of_nat b) mod 2 ^ 64)%Z.

(** The loop of [URIunescape]; [room] is [maxlen - j], the bytes [out]
    can still take, and the result is [out] from [j] on. *)
Fixpoint URIunescape_from (room : nat) (inp : list ascii) (inlen i : nat) : list ascii :=
  match room with
  | 0 => []
  | S room' =>
      if i <? inlen then
        if (Z.of_nat i <? size_t_sub inlen 2)%Z
           && Ascii.eqb (nth i inp NUL) "%"
           && isxdigit (nth (i + 1) inp NUL)
           && isxdigit (nth (i + 2) inp NUL)
        then
          ascii_of_nat (16 * hexval (nth (i + 1) inp NUL) + hexval (nth (i + 2) inp NUL))
            :: URIunescape_from room' inp inlen (i + 3)
        else nth i inp NUL :: URIunescape_from room' inp inlen (i + 1)
      else []
  end.

(** The bytes written to [out]; the return value [j] is their number. *)
Definition URIunescape (maxlen : nat) (inp : list ascii) (inlen : nat) : list ascii :=
  URIunescape_from maxlen inp inlen 0.

(** [l[i] = c] *)
Definition upd (l : list ascii) (i : nat) (c : ascii) : list ascii :=
  firstn i l ++ c :: skipn (S i) l.

(** [for (i = 0; i <= 13; i++)
      aival[13-i] = vallen >= i+1 ? aival[vallen-i-1] : '0';]
    with [k] iterations to go. *)
Fixpoint gtin_pad_loop (k i : nat) (aival : list ascii) (vallen : nat) : list ascii :=
  match k with
  | 0 => aival
  | S k' =>
      gtin_pad_loop k' (S i)
        (upd aival (13 - i)
           (if i + 1 <=? vallen then nth (vallen - i - 1) aival NUL else "0"%char))
        vallen
  end.

(** Special handling of AI (01) to pad up to a GTIN-14, in the buffer
    [aival], which is longer than the 14 bytes written. *)
Definition gtin_pad (aival : list ascii) (vallen : nat) : list ascii :=
  firstn 14 (gtin_pad_loop 14 0 (aival ++ repeat NUL (14 - length aival)) vallen).

(** What both loops of [gs1_parseDLuri] do with an AI and its
    percent-encoded value of [inlen] bytes at [inp]: the two copies in
    the code differ in the message [msg] alone. *)
Definition parseDLuri_ai (ctx : gs1_encoder) (entry : aiEntry) (msg : list ascii)
    (inp : list ascii) (inlen : nat) (dataStr : list ascii) (fnc1req : bool)
  : step (gs1_encoder * list ascii * bool) :=
  (* Reverse percent encoding *)
  let aival := URIunescape MAX_AI_LEN inp inlen in
  let vallen := length aival in
  if vallen =? 0 then GotoFail (set_msg ctx msg)
  else
    (* Special handling of AI (01) to pad up to a GTIN-14 *)
    let pad := strcmp0 (ai entry) (str "01")
               && ((vallen =? 13) || (vallen =? 12) || (vallen =? 8)) in
    let aival := if pad then gtin_pad aival vallen else aival in
    let vallen := if pad then 14 else vallen in
    match (if fnc1req then writeDataStr dataStr (str "#") else Some dataStr) with
    | None => GotoFail ctx
    | Some dataStr =>
        match writeDataStr dataStr (ai entry) with
        | None => GotoFail ctx
        | Some dataStr =>
            let fnc1req := fnc1req_after entry in
            match nwriteDataStr dataStr aival vallen with
            | None => GotoFail ctx
            | Some dataStr =>
                let '(ok, ctx) := aiValLengthContentCheck ctx entry aival vallen in
                if ok then Done (ctx, dataStr, fnc1req) else GotoFail ctx
            end
        end
    end.

(** Search backwards from the end of the path info looking for an
    "/AI/value" pair where AI is a DL primary key.  The code chops the
    path info by writing a NUL at the start of the pair it has just
    rejected and restores the separator on the next iteration; here the
    path info [pi] stays as it is and [n] is where it is chopped.
    [Some None] is [dp == NULL]; [None] is out of fuel. *)
Fixpoint parseDLuri_root (fuel : nat) (pi : list ascii) (n : nat) : option (option nat) :=
  match fuel with
  | 0 => None
  | S fuel' =>
      match strrchr (firstn n pi) "/" with
      | None => Some None
      | Some r =>
          (* Find start of AI *)
          match strrchr (firstn r pi) "/" with
          | None => Some None   (* At beginning of path *)
          | Some p =>
              match lookupAIentry (skipn (S p) pi) (r - p - 1) with
              | None => Some None
              | Some entry =>
                  if isDLpkey (ai entry) then Some (Some p)   (* Found root of DL path info *)
                  else parseDLuri_root fuel' pi p
              end
          end
      end
  end.

(** Process each AI value pair in the DL path info.  [None] is a failed
    assertion or out of fuel. *)
Fixpoint parseDLuri_path (fuel : nat) (ctx : gs1_encoder) (p dataStr : list ascii)
    (fnc1req : bool) : option (step (gs1_encoder * list ascii * bool)) :=
  match fuel with
  | 0 => None
  | S fuel' =>
      if is_nul (deref p) then Some (Done (ctx, dataStr, fnc1req))
      else if negb (Ascii.eqb (deref p) "/") then None
      else
        let p := skipn 1 p in
        match strchr p "/" with
        | None => None
        | Some n =>
            match lookupAIentry p n with   (* Known to exist *)
            | None => None
            | Some entry =>
                let r := skipn (S n) p in
                let k := strchr_end r "/" in
                match parseDLuri_ai ctx entry
                        (ai_msg "Decoded AI (" entry ") from DL path info too long")
                        r k dataStr fnc1req with
                | GotoFail ctx => Some (GotoFail ctx)
                | Done (ctx, dataStr, fnc1req) =>
                    parseDLuri_path fuel' ctx (skipn k r) dataStr fnc1req
                end
            end
        end
  end.

(** Jump any & separators. *)
Fixpoint skip_amps (p : list ascii) : list ascii :=
  match p with
  | c :: p' => if Ascii.eqb c "&" then skip_amps p' else p
  | [] => []
  end.

(** The loop over the query parameters. *)
Fixpoint parseDLuri_query (fuel : nat) (ctx : gs1_encoder) (p dataStr : list ascii)
    (fnc1req : bool) : option (step (gs1_encoder * list ascii * bool)) :=
  match fuel with
  | 0 => None
  | S fuel' =>
      if is_nul (deref p) then Some (Done (ctx, dataStr, fnc1req))
      else
        let p := skip_amps p in
        (* Value-pair finishes at end of data *)
        let n := strchr_end p "&" in
        let r := skipn n p in
        (* Discard parameters with no value and unknown AIs *)
        match strchr (firstn n p) "=" with
        | None => parseDLuri_query fuel' ctx r dataStr fnc1req
        | Some k =>
            (* Numeric-only query parameters not matching an AI are not allowed *)
            let entry := if gs1_allDigits p k then lookupAIentry p k else None in
            match entry with
            | None =>
                if gs1_allDigits p k then
                  Some (GotoFail
                          (set_msg ctx (str "Unknown AI (" ++ firstn k p
                                          ++ str ") in query parameters")))
                else
                  (* Skip non-numeric query parameters *)
                  parseDLuri_query fuel' ctx r dataStr fnc1req
            | Some entry =>
                match parseDLuri_ai ctx entry
                        (ai_msg "Decoded AI (" entry ") value from DL query params too long")
                        (skipn (S k) p) (n - S k) dataStr fnc1req with
                | GotoFail ctx => Some (GotoFail ctx)
                | Done (ctx, dataStr, fnc1req) =>
                    parseDLuri_query fuel' ctx r dataStr fnc1req
                end
            end
        end
  end.

(** The [fail:] label of [gs1_parseDLuri]. *)
Definition parseDLuri_fail (ctx : gs1_encoder) : Result :=
  (false,
   set_err ctx (if is_nul (deref (errMsg ctx)) then str "Failed to parse DL data"
                else errMsg ctx),
   []).

(** [gs1_parseDLuri] from the backward scan on: [pi] is the path info and
    [qp] what follows the query parameter marker, if there is one. *)
Definition parseDLuri_from_path (ctx : gs1_encoder) (pi : list ascii)
    (qp : option (list ascii)) : option Result :=
  match parseDLuri_root (S (length pi)) pi (length pi) with
  | None => None
  | Some None =>
      Some (parseDLuri_fail
              (set_msg ctx (str "No GS1 DL keys found in path info")))
  | Some (Some dp) =>
      match parseDLuri_path (S (length pi)) ctx (skipn dp pi) [] true with
      | None => None
      | Some (GotoFail ctx) => Some (parseDLuri_fail ctx)
      | Some (Done (ctx, dataStr, fnc1req)) =>
          (* Fragment character delimits end of the query parameters *)
          let qp := match qp with
                    | Some q => firstn (strchr_end q "#") q
                    | None => []
                    end in
          match parseDLuri_query (S (length qp)) ctx qp dataStr fnc1req with
          | None => None
          | Some (GotoFail ctx) => Some (parseDLuri_fail ctx)
          | Some (Done (ctx, dataStr, _)) =>
              (* Now validate the data that we have written *)
              Some (gs1_processAIdata ctx dataStr)
          end
      end
  end.

Definition gs1_parseDLuri_run (ctx : gs1_encoder) (dlData : list ascii) : option Result :=
  let ctx := clear_err ctx in
  let p := c_str dlData in
  if negb (strspn p uriCharacters =? length p) then
    Some (parseDLuri_fail (set_msg ctx (str "URI contains illegal characters")))
  else
    let scheme :=
      if (8 <=? length p) && strncmp0 p (str "https://") 8 then Some 8
      else if (7 <=? length p) && strncmp0 p (str "http://") 7 then Some 7
      else None in
    match scheme with
    | None =>
        Some (parseDLuri_fail (set_msg ctx (str "Scheme must be http:// or https://")))
    | Some k =>
        let p := skipn k p in
        match strchr p "/" with
        | None =>
            Some (parseDLuri_fail
                    (set_msg ctx (str "URI must contain a domain and path info")))
        | Some n =>
            if n <? 1 then
              Some (parseDLuri_fail
                      (set_msg ctx (str "URI must contain a domain and path info")))
            else
              let rest := skipn n p in   (* Skip the domain name *)
              (* Query parameter marker delimits end of path info *)
              match strchr rest "?" with
              | Some i => parseDLuri_from_path ctx (firstn i rest) (Some (skipn (S i) rest))
              | None => parseDLuri_from_path ctx rest None
              end
        end
    end.

(** The result is the return value, the context and the output buffer
    [dataStr].  The default is never taken (see [parseDLuri_run_total]). *)
Definition gs1_parseDLuri (ctx : gs1_encoder) (dlData : list ascii) : Result :=
  match gs1_parseDLuri_run ctx dlData with
  | Some res => res
  | None => (false, ctx, [])
  end.

End Parsers.

(* ================================================================= *)
(** ** Definitions used to state the properties *)

Fixpoint is_prefix (a b : list ascii) : bool :=
  match a, b with
  | [], _ => true
  | x :: a', y :: b' => Ascii.eqb x y && is_prefix a' b'
  | _ :: _, [] => false
  end.

Definition prefix_of (a b : list ascii) : Prop := exists c, b = a ++ c.

(** No key of [l] is a prefix of a key further on, nor the other way round. *)
Fixpoint pairwise_prefix_free (l : list (list ascii)) : bool :=
  match l with
  | [] => true
  | a :: l' =>
      forallb (fun b => negb (is_prefix a b) && negb (is_prefix b a)) l'
      && pairwise_prefix_free l'
  end.

(** The GS1 mod-10 check digit as the specification words it: the digits
    before the check digit are weighted 3 and 1 in turn, the leftmost one
    by 3 when the length of the whole string is even and by 1 when it is
    odd; the check digit is (10 - (sum mod 10)) mod 10. *)
Definition digit_of (c : ascii) : Z := (code c - code "0")%Z.

Fixpoint weighted_sum (ds : list ascii) (w : Z) : Z :=
  match ds with
  | [] => 0%Z
  | c :: ds' => (w * digit_of c + weighted_sum ds' (4 - w))%Z
  end.

Definition mod10_check_digit (s : list ascii) : Z :=
  let w := if Nat.even (length s) then 3%Z else 1%Z in
  ((10 - weighted_sum (removelast s) w mod 10) mod 10)%Z.


(** What the component loop of [validate_ai_val] consumes of [avail]
    bytes when no component fails. *)
Fixpoint parts_take (ps : list aiComponent) (avail : nat) : nat :=
  match ps with
  | [] => 0
  | part :: ps' =>
      if cset_eqb (cset part) cset_none then 0
      else
        let complen := if max part <? avail then max part else avail in
        complen + parts_take ps' (avail - complen)
  end.

(** The sum of the component maxima up to the end-of-components mark. *)
Fixpoint parts_max (ps : list aiComponent) : nat :=
  match ps with
  | [] => 0
  | part :: ps' =>
      if cset_eqb (cset part) cset_none then 0 else max part + parts_max ps'
  end.

(** Facts about a table entry that the proofs rely on; each holds of all
    512 entries (see [ai_table_ok]). *)
Definition entry_ok (e : aiEntry) : bool :=
  (parts_take (parts e) 1 =? 1)                      (* a first component of at least one byte *)
  && (parts_max (parts e) =? ai_maxlen e)            (* nothing after the end-of-components mark *)
  && (ai_maxlen e <=? 90)
  && (1 <=? ai_minlen e)
  && Bool.eqb (fnc1 e) (fnc1req_after e)             (* the FNC1 flag agrees with the fixed prefixes *)
  && (fnc1 e || (ai_minlen e =? ai_maxlen e))        (* no FNC1: a fixed length *)
  && forallb is_digit (ai e)
  && (2 <=? length (ai e)).

(** An error was reported in going from [ctx] to [ctx']. *)
Definition err_set (ctx ctx' : gs1_encoder) : Prop :=
  errFlag ctx' = true /\ errMsg ctx' <> [] /\ aiData ctx' = aiData ctx.

(** A context with no error and no extracted AIs. *)
Definition fresh_ctx : gs1_encoder :=
  {| errMsg := []; errFlag := false; aiData := [] |}.

(** Re-serialising a list of extracted AIs over the data string [d] their
    values point into: each entry's AI key followed by its value, with a
    "#" in front of an entry exactly when the entry before it requires
    FNC1 ([sep] says so for the head of the list), the whole prefixed by
    the initial "#". *)
Fixpoint reserialise_from (d : list ascii) (sep : bool) (l : list aiValue) : list ascii :=
  match l with
  | [] => []
  | x :: l' =>
      (if sep then ["#"%char] else [])
        ++ ai (aiEntry_ x)
        ++ firstn (vallen x) (skipn (value x) d)
        ++ reserialise_from d (fnc1 (aiEntry_ x)) l'
  end.

Definition reserialise (d : list ascii) (l : list aiValue) : list ascii :=
  "#"%char :: reserialise_from d false l.

(** What the ingesters write: for each AI in turn a "#" if one is due,
    the key and the value. *)
Fixpoint render (fnc1req : bool) (cs : list (aiEntry * list ascii)) : list ascii :=
  match cs with
  | [] => []
  | (e, v) :: cs' =>
      (if fnc1req then ["#"%char] else []) ++ ai e ++ v ++ render (fnc1req_after e) cs'
  end.

(** The extracted AIs that correspond to what [render] wrote at offset
    [off] of the data string. *)
Fixpoint chunk_entries (off : nat) (fnc1req : bool) (cs : list (aiEntry * list ascii))
  : list aiValue :=
  match cs with
  | [] => []
  | (e, v) :: cs' =>
      let off1 := off + (if fnc1req then 1 else 0) + length (ai e) in
      {| aiEntry_ := e; value := off1; vallen := length v |}
        :: chunk_entries (off1 + length v) (fnc1req_after e) cs'
  end.

(** A key and value that have passed [aiValLengthContentCheck]. *)
Definition chunk_ok (c : aiEntry * list ascii) : Prop :=
  In (fst c) ai_table
  /\ ai_minlen (fst c) <= length (snd c) <= ai_maxlen (fst c)
  /\ ~ In "#"%char (snd c)
  /\ Forall (fun x => x <> NUL) (snd c).

(** Path info as its segments: "/s1/s2/.../sk". *)
Fixpoint join_path (segs : list (list ascii)) : list ascii :=
  match segs with
  | [] => []
  | s :: segs' => "/"%char :: s ++ join_path segs'
  end.

Fixpoint split_on (c : ascii) (s : list ascii) : list (list ascii) :=
  match s with
  | [] => [[]]
  | a :: s' =>
      if Ascii.eqb a c then [] :: split_on c s'
      else match split_on c s' with
           | h :: t => (a :: h) :: t
           | [] => [[a]]
           end
  end.

(** The segments of a path info that starts with "/". *)
Definition path_segments (pi : list ascii) : list (list ascii) :=
  match pi with
  | [] => []
  | _ :: rest => split_on "/" rest
  end.

Definition no_slash (s : list ascii) : Prop := ~ In "/"%char s.

(** Exact-match resolution of a whole segment as an AI. *)
Definition resolve_ai (k : list ascii) : option aiEntry := lookupAIentry k (length k).

(** The root of the DL path info, found from the right.  [rsegs] are the
    segments still to look at, the last one first: the last one is a value
    and the one before it is resolved as an AI.  A DL primary key makes the
    pair the root; another known AI has the pair peeled off; a segment that
    is no AI, or no pair left to look at, ends the search without a root.
    The result is the number of segments in front of the root. *)
Fixpoint dl_root (rsegs : list (list ascii)) : option nat :=
  match rsegs with
  | _ :: k :: rest =>
      match resolve_ai k with
      | Some e => if isDLpkey (ai e) then Some (length rest) else dl_root rest
      | None => None
      end
  | _ => None
  end.

(** The search as the specification words it: a pair whose AI is not a DL
    primary key, resolved or not, is peeled off and the search goes on. *)
Fixpoint dl_root_keeps_peeling (rsegs : list (list ascii)) : option nat :=
  match rsegs with
  | _ :: k :: rest =>
      match resolve_ai k with
      | Some e =>
          if isDLpkey (ai e) then Some (length rest) else dl_root_keeps_peeling rest
      | None => dl_root_keeps_peeling rest
      end
  | _ => None
  end.

(** Some segment that has a value after it resolves to a DL primary key. *)
Fixpoint has_pkey_pair (segs : list (list ascii)) : bool :=
  match segs with
  | k :: ((_ :: _) as segs') =>
      match resolve_ai k with
      | Some e => isDLpkey (ai e) || has_pkey_pair segs'
      | None => has_pkey_pair segs'
      end
  | _ => false
  end.

(** Key and value segments in turn, every key a known AI. *)
Fixpoint pairs_known (segs : list (list ascii)) : Prop :=
  match segs with
  | [] => True
  | k :: v :: segs' => resolve_ai k <> None /\ pairs_known segs'
  | _ => False
  end.

(** The three core parse operations, by name. *)
Inductive parse_op := op_processAIdata | op_parseAIdata | op_parseDLuri.

Definition run_op (MAX_DATA MAX_AI_LEN MAX_AIS : nat) (op : parse_op)
    (ctx : gs1_encoder) (input : list ascii) : Result :=
  match op with
  | op_processAIdata => gs1_processAIdata MAX_AIS ctx input
  | op_parseAIdata => gs1_parseAIdata MAX_DATA MAX_AIS ctx input
  | op_parseDLuri => gs1_parseDLuri MAX_DATA MAX_AI_LEN MAX_AIS ctx input
  end.

(** The AIs extracted from a data string: what [gs1_processAIdata] leaves
    in a context that had none. *)
Definition extracted_AIs (MAX_AIS : nat) (d : list ascii) : list aiValue :=
  aiData (snd (fst (gs1_processAIdata MAX_AIS fresh_ctx d))).

(** Every character is one that is permissible in URIs. *)
Definition uri_chars_only (u : list ascii) : bool :=
  forallb (fun c => mem_char c uriCharacters) u.

(** A buffer without a NUL byte is the C string it holds. *)
Definition no_nul (s : list ascii) : Prop := Forall (fun c => c <> NUL) s.

(* ================================================================= *)
(** ** The values of AI (01) in a Digital Link URI *)

(** One AI of a DL URI as the loops of [gs1_parseDLuri] come to it: the
    table entry of the key and the percent-encoded value, [it_inlen]
    bytes at [it_inp]. *)
Record dl_item : Type := {
  it_entry : aiEntry;
  it_inp : list ascii;
  it_inlen : nat
}.

(** The percent-decoded value: [URIunescape] with room for all of it. *)
Definition dl_decoded (it : dl_item) : list ascii :=
  URIunescape (it_inlen it) (it_inp it) (it_inlen it).

(** The pairs that the loop over the DL path info visits from [p] on,
    when none of them makes it jump to [fail]. *)
Fixpoint parseDLuri_path_items (fuel : nat) (p : list ascii) : list dl_item :=
  match fuel with
  | 0 => []
  | S fuel' =>
      if is_nul (deref p) then []
      else if negb (Ascii.eqb (deref p) "/") then []
      else
        let p := skipn 1 p in
        match strchr p "/" with
        | None => []
        | Some n =>
            match lookupAIentry p n with
            | None => []
            | Some entry =>
                let r := skipn (S n) p in
                let k := strchr_end r "/" in
                {| it_entry := entry; it_inp := r; it_inlen := k |}
                  :: parseDLuri_path_items fuel' (skipn k r)
            end
        end
  end.

(** The parameters that the loop over the query parameters takes for AIs,
    up to a numeric key that is no AI. *)
Fixpoint parseDLuri_query_items (fuel : nat) (p : list ascii) : list dl_item :=
  match fuel with
  | 0 => []
  | S fuel' =>
      if is_nul (deref p) then []
      else
        let p := skip_amps p in
        let n := strchr_end p "&" in
        let r := skipn n p in
        match strchr (firstn n p) "=" with
        | None => parseDLuri_query_items fuel' r
        | Some k =>
            if gs1_allDigits p k then
              match lookupAIentry p k with
              | None => []
              | Some entry =>
                  {| it_entry := entry; it_inp := skipn (S k) p; it_inlen := n - S k |}
                    :: parseDLuri_query_items fuel' r
              end
            else parseDLuri_query_items fuel' r
        end
  end.

Definition parseDLuri_from_path_items (pi : list ascii) (qp : option (list ascii))
  : list dl_item :=
  match parseDLuri_root (S (length pi)) pi (length pi) with
  | Some (Some dp) =>
      let qp := match qp with
                | Some q => firstn (strchr_end q "#") q
                | None => []
                end in
      parseDLuri_path_items (S (length pi)) (skipn dp pi)
        ++ parseDLuri_query_items (S (length qp)) qp
  | _ => []
  end.

(** The AIs of a DL URI with their values, in the order in which
    [gs1_parseDLuri] writes them: the pairs of the path info from the DL
    root on, then the query parameters. *)
Definition parseDLuri_items (dlData : list ascii) : list dl_item :=
  let p := c_str dlData in
  if negb (strspn p uriCharacters =? length p) then []
  else
    let scheme :=
      if (8 <=? length p) && strncmp0 p (str "https://") 8 then Some 8
      else if (7 <=? length p) && strncmp0 p (str "http://") 7 then Some 7
      else None in
    match scheme with
    | None => []
    | Some k =>
        let p := skipn k p in
        match strchr p "/" with
        | None => []
        | Some n =>
            if n <? 1 then []
            else
              let rest := skipn n p in
              match strchr rest "?" with
              | Some i =>
                  parseDLuri_from_path_items (firstn i rest) (Some (skipn (S i) rest))
              | None => parseDLuri_from_path_items rest None
              end
        end
    end.

(** Lengths of a GTIN that is none of GTIN-8, GTIN-12, GTIN-13, GTIN-14. *)
Definition gtin_bad_length (n : nat) : Prop :=
  n = 9 \/ n = 10 \/ n = 11 \/ 15 <= n.

Definition gtin_bad (it : dl_item) : Prop :=
  ai (it_entry it) = str "01" /\ gtin_bad_length (length (dl_decoded it)).

(** What the element string holds for an item: a separator if one is
    due, the AI and a value; for AI (01) with a decoded value free of NUL
    the value is the decoded one behind the zeros that fill it to 14. *)
Definition dl_written (it : dl_item) (w : list ascii) : Prop :=
  exists sep val,
    (sep = [] \/ sep = str "#")
    /\ w = sep ++ ai (it_entry it) ++ val
    /\ (ai (it_entry it) = str "01" -> no_nul (dl_decoded it) ->
        let v := dl_decoded it in
        (length v = 8 \/ length v = 12 \/ length v = 13 \/ length v = 14)
        /\ val = repeat "0"%char (14 - length v) ++ v).

(** How a loop of [gs1_parseDLuri] that started with [ds] written ends,
    given the items it visits. *)
Definition dl_trace_ok (ds : list ascii) (items : list dl_item)
    (res : step (gs1_encoder * list ascii * bool)) : Prop :=
  (Exists gtin_bad items -> exists c, res = GotoFail c)
  /\ match res with
     | Done (_, ds', _) =>
         exists pieces, ds' = ds ++ concat pieces /\ Forall2 dl_written items pieces
     | GotoFail _ => True
     end.

(* ----------------------------------------------------------------- *)
(** *** Percent encoding, for the properties of [URIunescape] *)

(** The value of a hexadecimal digit, in either case. *)
Fixpoint index_of (c : ascii) (l : list ascii) : option nat :=
  match l with
  | [] => None
  | a :: l' => if Ascii.eqb a c then Some 0 else option_map S (index_of c l')
  end.

Definition hex_value (c : ascii) : option nat :=
  match index_of c (str "0123456789ABCDEF") with
  | Some n => Some n
  | None => index_of c (str "0123456789abcdef")
  end.

(** Percent decoding in the words of the specification: a "%" followed
    by two hex digits is decoded to the byte they denote; a "%" not
    followed by two hex digits is copied through with what follows it. *)
Fixpoint percent_decode (s : list ascii) : list ascii :=
  match s with
  | [] => []
  | c :: s' =>
      match s' with
      | h1 :: h2 :: t =>
          match (if Ascii.eqb c "%" then hex_value h1 else None), hex_value h2 with
          | Some a, Some b => ascii_of_nat (16 * a + b) :: percent_decode t
          | _, _ => c :: percent_decode s'
          end
      | _ => c :: percent_decode s'
      end
  end.

(** The escape of a byte, in upper case. *)
Definition percent_escape (c : ascii) : list ascii :=
  [ "%"%char;
    nth (nat_of_ascii c / 16) (str "0123456789ABCDEF") NUL;
    nth (nat_of_ascii c mod 16) (str "0123456789ABCDEF") NUL ].

Definition percent_encode (s : list ascii) : list ascii :=
  flat_map percent_escape s.


(* ----------------------------------------------------------------- *)
(** *** Extracted AIs over their data string *)

(** An extracted AI that is sound over the data string [d]: its entry is
    one of the table, the key stands in [d] right before the value, and
    the value lies within [d], is not empty, no longer than the AI allows
    and holds no "#". *)
Definition ai_value_ok (d : list ascii) (x : aiValue) : Prop :=
  let e := aiEntry_ x in
  In e ai_table
  /\ length (ai e) <= value x
  /\ firstn (length (ai e)) (skipn (value x - length (ai e)) (c_str d)) = ai e
  /\ 1 <= vallen x <= ai_maxlen e
  /\ value x + vallen x <= length (c_str d)
  /\ ~ In "#"%char (firstn (vallen x) (skipn (value x) (c_str d))).

(* ----------------------------------------------------------------- *)
(** *** Bracketed AI syntax *)

(** The bracketed form of a list of AIs with their values: for each one
    the key in brackets and the value after it. *)
Definition bracketed (cs : list (aiEntry * list ascii)) : list ascii :=
  flat_map (fun c => "("%char :: ai (fst c) ++ ")"%char :: snd c) cs.

(** A value that can stand in bracketed form as it is: one that would
    pass the length and content check, holds no opening bracket and does
    not end in a backslash. *)
Definition bracket_ok (c : aiEntry * list ascii) : Prop :=
  chunk_ok c /\ ~ In "("%char (snd c) /\ last (snd c) NUL <> "\"%char.

(* ================================================================= *)
(** ** Basic facts *)

Lemma ascii_eqb_true (a b : ascii) : Ascii.eqb a b = true <-> a = b.
Proof. apply Ascii.eqb_eq. Qed.

Lemma is_prefix_spec (a b : list ascii) : is_prefix a b = true <-> prefix_of a b.
Proof.
  revert b. induction a as [|x a IH]; intros b; simpl.
  - split; [intros _; exists b; reflexivity | reflexivity].
  - destruct b as [|y b].
    + split; [discriminate | intros [c Hc]; discriminate].
    + rewrite andb_true_iff, ascii_eqb_true, IH. split.
      * intros [-> [c ->]]. exists c. reflexivity.
      * intros [c Hc]. inversion Hc; subst. split; [reflexivity | exists c; reflexivity].
  Qed.

Lemma prefix_of_comparable (a b p : list ascii) :
  prefix_of a p -> prefix_of b p -> prefix_of a b \/ prefix_of b a.
Proof.
  revert b p. induction a as [|x a IH]; intros b p Ha Hb.
  - left. exists b. reflexivity.
  - destruct b as [|y b].
    + right. exists (x :: a). reflexivity.
    + destruct Ha as [c Hc], Hb as [c' Hc']. subst p. inversion Hc'; subst.
      destruct (IH b (a ++ c)) as [[e He] | [e He]].
      * exists c. reflexivity.
      * exists c'. congruence.
      * left. exists e. simpl. now rewrite He.
      * right. exists e. simpl. now rewrite He.
Qed.

Lemma strncmp0_prefix (q p : list ascii) :
  strncmp0 p q (length q) = true -> prefix_of q p.
Proof.
  revert p. induction q as [|b q IH]; intros p H.
  - exists p. reflexivity.
  - simpl in H. destruct p as [|a p]; [discriminate|].
    apply andb_true_iff in H. destruct H as [Hab H].
    apply ascii_eqb_true in Hab. subst b.
    destruct (IH _ H) as [c ->]. exists c. reflexivity.
Qed.

Lemma prefix_strncmp0 (q c : list ascii) : strncmp0 (q ++ c) q (length q) = true.
Proof.
  induction q as [|b q IH]; simpl; [reflexivity|].
  now rewrite Ascii.eqb_refl, IH.
Qed.

(** A matching entry has its key at the head of the data, in both modes. *)
Lemma ai_matches_prefix (p : list ascii) (ailen : nat) (e : aiEntry) :
  ai_matches p ailen e = true -> prefix_of (ai e) p.
Proof.
  unfold ai_matches. intros H.
  destruct (Nat.eqb_spec ailen 0) as [->|Hn]; simpl in H.
  - now apply strncmp0_prefix.
  - destruct (Nat.eqb_spec ailen (length (ai e))) as [Hl|Hl]; simpl in H; [|discriminate].
    destruct (Nat.ltb_spec 0 ailen); [|lia]. subst ailen. now apply strncmp0_prefix.
Qed.

Lemma ai_matches_length (p : list ascii) (ailen : nat) (e : aiEntry) :
  ai_matches p ailen e = true -> ailen <> 0 -> length (ai e) = ailen.
Proof.
  unfold ai_matches. intros H Hn.
  destruct (Nat.eqb_spec ailen 0); [contradiction|]. simpl in H.
  destruct (Nat.eqb_spec ailen (length (ai e))); [congruence | discriminate].
Qed.

Lemma pairwise_prefix_free_nth (l : list (list ascii)) :
  pairwise_prefix_free l = true ->
  forall i j a b, i <> j -> nth_error l i = Some a -> nth_error l j = Some b ->
    is_prefix a b = false.
Proof.
  induction l as [|x l IH]; intros H i j a b Hij Ha Hb.
  - destruct i; discriminate.
  - simpl in H. apply andb_true_iff in H. destruct H as [Hx Hl].
    rewrite forallb_forall in Hx.
    destruct i as [|i], j as [|j]; simpl in Ha, Hb.
    + contradiction.
    + inversion Ha; subst. apply nth_error_In in Hb. apply Hx in Hb.
      apply andb_true_iff in Hb. destruct Hb as [Hb _]. now apply negb_true_iff in Hb.
    + inversion Hb; subst. apply nth_error_In in Ha. apply Hx in Ha.
      apply andb_true_iff in Ha. destruct Ha as [_ Ha]. now apply negb_true_iff in Ha.
    + apply (IH Hl i j); auto.
Qed.

Lemma ai_table_pairwise_prefix_free : pairwise_prefix_free (map ai ai_table) = true.
Proof. vm_compute. reflexivity. Qed.

Lemma ai_table_no_prefix (i j : nat) (e1 e2 : aiEntry) :
  i <> j -> nth_error ai_table i = Some e1 -> nth_error ai_table j = Some e2 ->
  ~ prefix_of (ai e1) (ai e2).
Proof.
  intros Hij H1 H2 Hp. apply is_prefix_spec in Hp.
  rewrite (pairwise_prefix_free_nth _ ai_table_pairwise_prefix_free i j) in Hp;
    [discriminate | assumption | |]; rewrite nth_error_map.
  - now rewrite H1.
  - now rewrite H2.
Qed.

(** At most one entry of the table matches given data. *)
Lemma ai_matches_unique (p : list ascii) (ailen : nat) (e1 e2 : aiEntry) :
  In e1 ai_table -> In e2 ai_table ->
  ai_matches p ailen e1 = true -> ai_matches p ailen e2 = true -> e1 = e2.
Proof.
  intros I1 I2 M1 M2.
  apply In_nth_error in I1, I2. destruct I1 as [i Hi], I2 as [j Hj].
  destruct (Nat.eq_dec i j) as [->|Hij]; [congruence|]. exfalso.
  destruct (prefix_of_comparable _ _ _ (ai_matches_prefix _ _ _ M1) (ai_matches_prefix _ _ _ M2)).
  - now apply (ai_table_no_prefix i j e1 e2 Hij Hi Hj).
  - apply (ai_table_no_prefix j i e2 e1); auto.
Qed.

Lemma find_unique_perm (A : Type) (f : A -> bool) (l l' : list A) :
  (forall x y, In x l -> In y l -> f x = true -> f y = true -> x = y) ->
  Permutation l l' -> find f l' = find f l.
Proof.
  intros U P.
  destruct (find f l) as [x|] eqn:Fx, (find f l') as [y|] eqn:Fy; auto.
  - apply find_some in Fx, Fy. destruct Fx as [Ix Hx], Fy as [Iy Hy].
    f_equal. apply U; auto. eapply Permutation_in; [symmetry; eassumption | assumption].
  - apply find_some in Fx. destruct Fx as [Ix Hx].
    eapply find_none in Fy; [| eapply Permutation_in; eassumption]. congruence.
  - apply find_some in Fy. destruct Fy as [Iy Hy].
    eapply find_none in Fx; [| eapply Permutation_in; [symmetry|]; eassumption]. congruence.
Qed.

(** C8.  No AI key of the table is a prefix of the key of another entry
    (so keys of equal length are distinct and keys of different lengths do
    not overlap), and therefore [lookupAIentry], in exact-length mode and in
    prefix mode alike, returns the same entry whatever the order in which
    the table lists its entries. *)
Theorem ai_table_prefix_free_lookup_unique :
  (forall i j e1 e2,
      i <> j -> nth_error ai_table i = Some e1 -> nth_error ai_table j = Some e2 ->
      ~ prefix_of (ai e1) (ai e2))
  /\ (forall tbl p ailen,
         Permutation ai_table tbl ->
         lookupAIentry_in tbl p ailen = lookupAIentry p ailen).
Proof.
  split.
  - exact ai_table_no_prefix.
  - intros tbl p ailen P. unfold lookupAIentry, lookupAIentry_in.
    apply find_unique_perm; [|assumption].
    intros x y Ix Iy Hx Hy. eapply ai_matches_unique; eassumption.
Qed.

Lemma ai_table_prefix_free_lookup_unique_witness :
  ~ prefix_of (str "00") (str "01")
  /\ lookupAIentry_in (rev ai_table) (str "0112345678901231") 0
     = lookupAIentry (str "0112345678901231") 0.
Proof.
  split.
  - apply (proj1 ai_table_prefix_free_lookup_unique 0 1
             (AI "00" NO_FNC1 (part cset_N 18 18 csum) __ __ __ __ "SSCC")
             (AI "01" NO_FNC1 (part cset_N 14 14 csum) __ __ __ __ "GTIN"));
      [discriminate | reflexivity | reflexivity].
  - apply (proj2 ai_table_prefix_free_lookup_unique). apply Permutation_rev.
Defined.

(* ================================================================= *)
(** ** The check digit *)

Lemma wrap_int_small (z : Z) : (- 2 ^ 31 <= z < 2 ^ 31)%Z -> wrap_int z = z.
Proof. intros H. unfold wrap_int. rewrite Z.mod_small; lia. Qed.

Lemma is_digit_range (c : ascii) :
  is_digit c = true -> (0 <= digit_of c <= 9)%Z.
Proof.
  unfold is_digit, digit_of, code. intros H.
  apply negb_true_iff, orb_false_iff in H. destruct H as [H1 H2].
  apply Nat.ltb_ge in H1, H2.
  change (nat_of_ascii "0") with 48 in *. change (nat_of_ascii "9") with 57 in *. lia.
Qed.

Lemma chr_code (c : ascii) : chr (code c) = c.
Proof.
  unfold chr, code. pose proof (nat_ascii_bounded c).
  rewrite Z.mod_small by lia. rewrite Nat2Z.id. apply ascii_nat_embedding.
Qed.

Lemma code_chr (z : Z) : (0 <= z < 256)%Z -> code (chr z) = z.
Proof.
  intros H. unfold chr, code. rewrite Z.mod_small by lia.
  rewrite nat_ascii_embedding by lia. lia.
Qed.

Lemma mod2_even (n : nat) : (n mod 2 =? 0) = Nat.even n.
Proof.
  rewrite <- Nat.negb_odd. unfold Nat.odd.
  induction n as [n IH] using (well_founded_induction lt_wf).
  destruct n as [|[|n]]; try reflexivity.
  replace (S (S n)) with (n + 1 * 2) by lia.
  rewrite Nat.Div0.mod_add. rewrite IH by lia.
  replace (n + 1 * 2) with (S (S n)) by lia. reflexivity.
Qed.

(** The loop adds up the weighted digits before the last one and stops at
    the last character; within the stated bound no addition wraps. *)
Lemma parity_loop_sum (s : list ascii) :
  forall w par,
    s <> [] -> forallb is_digit s = true -> (w = 1 \/ w = 3)%Z ->
    (0 <= par)%Z -> (par + 27 * Z.of_nat (length s) < 2 ^ 31)%Z ->
    parity_loop s w par = ((par + weighted_sum (removelast s) w)%Z, [last s NUL]).
Proof.
  induction s as [|c s IH]; intros w par Hne Hd Hw Hp Hb; [contradiction|].
  destruct s as [|d t].
  - simpl. f_equal. lia.
  - change (parity_loop (c :: d :: t) w par)
      with (parity_loop (d :: t) (4 - w)%Z
              (wrap_int (par + wrap_int (w * (code c - code "0"))))).
    simpl in Hd. apply andb_true_iff in Hd. destruct Hd as [Hc Hd].
    pose proof (is_digit_range c Hc) as Rc. unfold digit_of in Rc.
    change (length (c :: d :: t)) with (S (length (d :: t))) in Hb.
    rewrite Nat2Z.inj_succ in Hb.
    assert (Hlen : (0 <= Z.of_nat (length (d :: t)))%Z) by lia.
    rewrite (wrap_int_small (w * (code c - code "0"))) by (destruct Hw; subst w; lia).
    rewrite wrap_int_small by (destruct Hw; subst w; lia).
    rewrite IH; try discriminate; try assumption; try (destruct Hw; subst w; lia).
    change (removelast (c :: d :: t)) with (c :: removelast (d :: t)).
    change (last (c :: d :: t) NUL) with (last (d :: t) NUL).
    cbn [weighted_sum]. unfold digit_of. f_equal. lia.
Qed.

Lemma weighted_sum_nonneg (ds : list ascii) :
  forall w, forallb is_digit ds = true -> (w = 1 \/ w = 3)%Z ->
            (0 <= weighted_sum ds w)%Z.
Proof.
  induction ds as [|c ds IH]; intros w Hd Hw; cbn [weighted_sum]; [lia|].
  simpl in Hd. apply andb_true_iff in Hd. destruct Hd as [Hc Hd].
  pose proof (is_digit_range c Hc).
  assert (0 <= weighted_sum ds (4 - w))%Z by (apply IH; [assumption | lia]).
  destruct Hw; subst w; lia.
Qed.

Lemma forallb_removelast (f : ascii -> bool) (l : list ascii) :
  forallb f l = true -> forallb f (removelast l) = true.
Proof.
  induction l as [|a l IH]; intros H; [reflexivity|].
  simpl in H. apply andb_true_iff in H. destruct H as [Ha H].
  destruct l as [|b l]; [reflexivity|].
  change (removelast (a :: b :: l)) with (a :: removelast (b :: l)).
  simpl. rewrite Ha. simpl. now apply IH.
Qed.

(** What [gs1_validateParity] computes on a string of digits. *)
Lemma gs1_validateParity_digits (s : list ascii) :
  s <> [] -> forallb is_digit s = true -> (27 * Z.of_nat (length s) < 2 ^ 31)%Z ->
  gs1_validateParity s =
    if (mod10_check_digit s + code "0" =? code (last s NUL))%Z then (true, s)
    else (false, removelast s ++ [chr (mod10_check_digit s + code "0")]).
Proof.
  intros Hne Hd Hb. unfold gs1_validateParity, mod10_check_digit.
  rewrite mod2_even.
  set (w := if Nat.even (length s) then 3%Z else 1%Z).
  assert (Hw : (w = 1 \/ w = 3)%Z) by (unfold w; destruct (Nat.even (length s)); auto).
  rewrite (parity_loop_sum s w 0 Hne Hd Hw) by lia.
  pose proof (weighted_sum_nonneg (removelast s) w (forallb_removelast _ _ Hd) Hw) as Hs.
  rewrite Z.add_0_l.
  assert (Hm : (0 <= weighted_sum (removelast s) w mod 10 < 10)%Z)
    by (apply Z.mod_pos_bound; lia).
  rewrite (Z.rem_mod_nonneg (weighted_sum (removelast s) w) 10) by lia.
  rewrite Z.rem_mod_nonneg by lia.
  unfold deref. simpl hd. simpl tl. simpl length.
  rewrite removelast_firstn_len.
  replace (Nat.pred (length s)) with (length s - 1) by lia. reflexivity.
Qed.

(** C3.  On a non-empty string of digits (short enough for the [int]
    parity not to overflow), [gs1_validateParity] returns true exactly
    when the last character is the GS1 mod-10 check digit of the digits
    before it, and when it returns false the string is left with its last
    byte replaced by that check digit. *)
Theorem gs1_validateParity_mod10 (s : list ascii) :
  s <> [] -> forallb is_digit s = true -> (27 * Z.of_nat (length s) < 2 ^ 31)%Z ->
  (fst (gs1_validateParity s) = true
     <-> last s NUL = chr (mod10_check_digit s + code "0"))
  /\ (fst (gs1_validateParity s) = false ->
      snd (gs1_validateParity s) = removelast s ++ [chr (mod10_check_digit s + code "0")]).
Proof.
  intros Hne Hd Hb. rewrite (gs1_validateParity_digits s Hne Hd Hb).
  assert (Hcd : (0 <= mod10_check_digit s < 10)%Z)
    by (unfold mod10_check_digit; apply Z.mod_pos_bound; lia).
  change (code "0") with 48%Z in *.
  destruct (Z.eqb_spec (mod10_check_digit s + 48) (code (last s NUL))) as [E|E]; simpl.
  - split; [|discriminate]. split; [intros _ | reflexivity].
    rewrite E. symmetry. apply chr_code.
  - split; [|reflexivity]. split; [discriminate|].
    intros L. exfalso. apply E. rewrite L. rewrite code_chr; lia.
Qed.

Lemma gs1_validateParity_mod10_witness :
  (fst (gs1_validateParity (str "24012345678909")) = true
     <-> last (str "24012345678909") NUL
         = chr (mod10_check_digit (str "24012345678909") + code "0"))
  /\ (fst (gs1_validateParity (str "24012345678909")) = false ->
      snd (gs1_validateParity (str "24012345678909"))
      = removelast (str "24012345678909")
          ++ [chr (mod10_check_digit (str "24012345678909") + code "0")]).
Proof.
  apply (gs1_validateParity_mod10 (str "24012345678909")).
  - discriminate.
  - reflexivity.
  - vm_compute. reflexivity.
Defined.

(* ================================================================= *)
(** ** Facts about the table entries *)

Lemma ai_table_ok : forallb entry_ok ai_table = true.
Proof. vm_compute. reflexivity. Qed.

Lemma entry_ok_in (e : aiEntry) : In e ai_table -> entry_ok e = true.
Proof. intros H. exact (proj1 (forallb_forall _ _) ai_table_ok e H). Qed.

Record entry_facts (e : aiEntry) : Prop := {
  ef_first : parts_take (parts e) 1 = 1;
  ef_max : parts_max (parts e) = ai_maxlen e;
  ef_max90 : ai_maxlen e <= 90;
  ef_min1 : 1 <= ai_minlen e;
  ef_fnc1 : fnc1 e = fnc1req_after e;
  ef_fixed : fnc1 e = false -> ai_minlen e = ai_maxlen e;
  ef_digits : forallb is_digit (ai e) = true;
  ef_len : 2 <= length (ai e)
}.

Lemma entry_facts_in (e : aiEntry) : In e ai_table -> entry_facts e.
Proof.
  intros H. apply entry_ok_in in H. unfold entry_ok in H.
  repeat (apply andb_true_iff in H; destruct H as [H ?]).
  constructor.
  - now apply Nat.eqb_eq.
  - now apply Nat.eqb_eq.
  - now apply Nat.leb_le.
  - now apply Nat.leb_le.
  - now apply Bool.eqb_prop.
  - intros F. rewrite F in *. simpl in *. now apply Nat.eqb_eq.
  - assumption.
  - now apply Nat.leb_le.
Qed.

Lemma lookupAIentry_in_table (p : list ascii) (n : nat) (e : aiEntry) :
  lookupAIentry p n = Some e -> In e ai_table /\ ai_matches p n e = true.
Proof. intros H. apply find_some in H. exact H. Qed.

(** Data that starts with the key of a table entry resolves to that entry
    in prefix mode. *)
Lemma lookupAIentry_prefix (e : aiEntry) (rest : list ascii) :
  In e ai_table -> lookupAIentry (ai e ++ rest) 0 = Some e.
Proof.
  intros I.
  assert (M : ai_matches (ai e ++ rest) 0 e = true)
    by (unfold ai_matches; simpl; apply prefix_strncmp0).
  destruct (lookupAIentry (ai e ++ rest) 0) as [e'|] eqn:L.
  - apply lookupAIentry_in_table in L. destruct L as [I' M'].
    f_equal. eapply ai_matches_unique; eassumption.
  - unfold lookupAIentry, lookupAIentry_in in L.
    eapply find_none in L; [|exact I]. congruence.
Qed.

(* ================================================================= *)
(** ** The C view of a buffer *)

Lemma c_str_no_nul (s : list ascii) : no_nul (c_str s).
Proof.
  induction s as [|c s IH]; simpl; [constructor|].
  destruct (Ascii.eqb_spec c NUL); constructor; assumption.
Qed.

Lemma c_str_id (s : list ascii) : no_nul s -> c_str s = s.
Proof.
  induction 1 as [|c s Hc _ IH]; simpl; [reflexivity|].
  destruct (Ascii.eqb_spec c NUL); [contradiction | now rewrite IH].
Qed.

Lemma c_str_idem (s : list ascii) : c_str (c_str s) = c_str s.
Proof. apply c_str_id, c_str_no_nul. Qed.

Lemma no_nul_app (a b : list ascii) : no_nul (a ++ b) <-> no_nul a /\ no_nul b.
Proof. apply Forall_app. Qed.

Lemma no_nul_skipn (n : nat) (s : list ascii) : no_nul s -> no_nul (skipn n s).
Proof.
  intros H. rewrite <- (firstn_skipn n s) in H. now apply no_nul_app in H.
Qed.

Lemma no_nul_firstn (n : nat) (s : list ascii) : no_nul s -> no_nul (firstn n s).
Proof.
  intros H. rewrite <- (firstn_skipn n s) in H. now apply no_nul_app in H.
Qed.

Lemma is_digit_not_nul (c : ascii) : is_digit c = true -> c <> NUL.
Proof. intros H E. subst c. discriminate. Qed.

Lemma is_digit_not_hash (c : ascii) : is_digit c = true -> c <> "#"%char.
Proof. intros H E. subst c. discriminate. Qed.

Lemma digits_no_nul (s : list ascii) : forallb is_digit s = true -> no_nul s.
Proof.
  intros H. rewrite forallb_forall in H. apply Forall_forall.
  intros c Hc. apply is_digit_not_nul. auto.
Qed.

(** The end of a string is where [deref] reads a NUL. *)
Lemma deref_nul_no_nul (s : list ascii) :
  no_nul s -> (is_nul (deref s) = true <-> s = []).
Proof.
  intros H. destruct s as [|c s]; simpl.
  - split; reflexivity.
  - inversion H; subst. unfold is_nul. split; [|discriminate].
    intros E. apply ascii_eqb_true in E. contradiction.
Qed.

(* ================================================================= *)
(** ** Linters and component validation *)

Lemma ai_msg_not_empty (pre : string) (e : aiEntry) (post : string) :
  pre <> EmptyString -> ai_msg pre e post <> [].
Proof.
  intros H. unfold ai_msg, str. destruct pre; [contradiction | discriminate].
Qed.

Lemma set_err_err_set (ctx : gs1_encoder) (msg : list ascii) :
  msg <> [] -> err_set ctx (set_err ctx msg).
Proof. intros H. repeat split; assumption. Qed.

(** A linter run on the local copy leaves the data string alone, leaves
    the context alone when it passes and reports an error when it fails;
    its verdict and what it does to memory do not depend on the context. *)
Definition linter_sound
    (f : gs1_encoder -> aiEntry -> ptr -> memory -> bool * gs1_encoder * memory) : Prop :=
  forall ctx e o m ok ctx' m',
    f ctx e (ptrCompval o) m = (ok, ctx', m') ->
    dataBuf m' = dataBuf m
    /\ (ok = true -> ctx' = ctx)
    /\ (ok = false -> err_set ctx ctx')
    /\ (forall ctx2, exists ctx2', f ctx2 e (ptrCompval o) m = (ok, ctx2', m')).

Lemma lint_cset82_sound : linter_sound lint_cset82.
Proof.
  intros ctx e o m ok ctx' m' H. unfold lint_cset82 in *.
  destruct (negb _); inversion H; subst; clear H; repeat split;
    try discriminate; try (intros; eexists; reflexivity).
Qed.

Lemma lint_csetNumeric_sound : linter_sound lint_csetNumeric.
Proof.
  intros ctx e o m ok ctx' m' H. unfold lint_csetNumeric in *.
  destruct (negb _); inversion H; subst; clear H; repeat split;
    try discriminate; try (intros; eexists; reflexivity).
Qed.

Lemma lint_csum_sound : linter_sound lint_csum.
Proof.
  intros ctx e o m ok ctx' m' H. unfold lint_csum in *.
  destruct (gs1_validateParity _) as [b s'].
  destruct b; simpl in H; inversion H; subst; clear H; repeat split;
    try discriminate; try (intros; eexists; reflexivity).
Qed.

Lemma run_linter_sound (l : linter_t) : linter_sound (run_linter l).
Proof. destruct l. exact lint_csum_sound. Qed.

Lemma run_linters_sound (ls : list linter_t) : linter_sound (run_linters ls).
Proof.
  induction ls as [|l ls IH]; intros ctx e o m ok ctx' m' H; simpl in H.
  - inversion H; subst. split; [reflexivity|]. split; [reflexivity|].
    split; [discriminate|]. intros; eexists; reflexivity.
  - destruct (run_linter l ctx e (ptrCompval o) m) as [[ok1 ctx1] m1] eqn:R.
    destruct (run_linter_sound l _ _ _ _ _ _ _ R) as (F1 & T1 & E1 & I1).
    destruct ok1.
    + rewrite (T1 eq_refl) in *.
      destruct (IH _ _ _ _ _ _ _ H) as (F2 & T2 & E2 & I2).
      split; [congruence|]. split; [assumption|]. split; [assumption|].
      intros ctx2. destruct (I1 ctx2) as [c1 R1].
      destruct (run_linter_sound l _ _ _ _ _ _ _ R1) as (_ & T1' & _).
      rewrite (T1' eq_refl) in R1.
      destruct (I2 ctx2) as [c2 R2]. exists c2. simpl. now rewrite R1.
    + inversion H; subst. split; [assumption|]. split; [discriminate|].
      split; [auto|].
      intros ctx2. destruct (I1 ctx2) as [c1 R1]. exists c1. simpl. now rewrite R1.
Qed.

(** The component loop: the data string is untouched; a pass ends
    [parts_take] bytes on with the context as it was; a failure reports an
    error; the outcome does not depend on the context. *)
Lemma validate_parts_spec (ps : list aiComponent) :
  forall ctx e p r m res ctx' m',
    validate_parts ps ctx e p r m = (res, ctx', m') ->
    dataBuf m' = dataBuf m
    /\ match res with
       | Some p' => ctx' = ctx /\ p' = p + parts_take ps (r - p)
       | None => err_set ctx ctx'
       end
    /\ (forall ctx2, exists ctx2', validate_parts ps ctx2 e p r m = (res, ctx2', m')).
Proof.
  induction ps as [|part ps IH]; intros ctx e p r m res ctx' m' H; simpl in H.
  - inversion H; subst. split; [reflexivity|]. split; [split; [reflexivity | simpl; lia]|].
    intros; eexists; reflexivity.
  - simpl parts_take. simpl validate_parts.
    destruct (cset_eqb (cset part) cset_none).
    + inversion H; subst. split; [reflexivity|]. split; [split; [reflexivity | simpl; lia]|].
      intros; eexists; reflexivity.
    + set (complen := if max part <? r - p then max part else r - p) in *.
      set (m0 := {| dataBuf := dataBuf m;
                    compval := firstn complen (skipn p (dataBuf m)) |}) in *.
      destruct (complen <? min part).
      { inversion H; subst. split; [reflexivity|]. split.
        - apply set_err_err_set. apply ai_msg_not_empty. discriminate.
        - intros; eexists; reflexivity. }
      set (linter := if cset_eqb (cset part) cset_N
                     then lint_csetNumeric else lint_cset82) in *.
      assert (LS : linter_sound linter)
        by (unfold linter; destruct (cset_eqb (cset part) cset_N);
            [exact lint_csetNumeric_sound | exact lint_cset82_sound]).
      destruct (linter ctx e (ptrCompval 0) m0) as [[ok1 ctx1] m1] eqn:R1.
      destruct (LS _ _ _ _ _ _ _ R1) as (F1 & T1 & E1 & I1).
      destruct ok1; simpl in H.
      2:{ inversion H; subst. split; [assumption|]. split; [auto|].
          intros ctx2. destruct (I1 ctx2) as [c1 R]. exists c1. now rewrite R. }
      rewrite (T1 eq_refl) in *.
      destruct (run_linters (linters part) ctx e (ptrCompval 0) m1)
        as [[ok2 ctx2] m2] eqn:R2.
      destruct (run_linters_sound _ _ _ _ _ _ _ _ R2) as (F2 & T2 & E2 & I2).
      destruct ok2; simpl in H.
      2:{ inversion H; subst. split; [rewrite F2, F1; reflexivity|]. split; [auto|].
          intros ctx3. destruct (I1 ctx3) as [c1 R].
          destruct (LS _ _ _ _ _ _ _ R) as (_ & T & _). rewrite (T eq_refl) in R.
          destruct (I2 ctx3) as [c2 R']. exists c2. rewrite R. simpl. now rewrite R'. }
      rewrite (T2 eq_refl) in *.
      destruct (IH _ _ _ _ _ _ _ _ H) as (F3 & S3 & I3).
      split; [|split].
      * rewrite F3, F2, F1. reflexivity.
      * destruct res as [p'|]; [|assumption]. destruct S3 as [-> ->].
        split; [reflexivity|]. replace (r - (p + complen)) with (r - p - complen) by lia. lia.
      * intros ctx3. destruct (I1 ctx3) as [c1 R].
        destruct (LS _ _ _ _ _ _ _ R) as (_ & T & _). rewrite (T eq_refl) in R.
        destruct (I2 ctx3) as [c2 R'].
        destruct (run_linters_sound _ _ _ _ _ _ _ _ R') as (_ & T' & _).
        rewrite (T' eq_refl) in R'.
        destruct (I3 ctx3) as [c3 R'']. exists c3. rewrite R. simpl. rewrite R'. simpl.
        exact R''.
Qed.

Lemma parts_take_le (ps : list aiComponent) :
  forall avail, parts_take ps avail <= avail.
Proof.
  induction ps as [|part ps IH]; intros avail; simpl; [lia|].
  destruct (cset_eqb _ _); [lia|].
  destruct (Nat.ltb_spec (max part) avail).
  - specialize (IH (avail - max part)). lia.
  - specialize (IH (avail - avail)). lia.
Qed.

Lemma parts_take_min (ps : list aiComponent) :
  forall avail, parts_take ps avail = Nat.min avail (parts_max ps).
Proof.
  induction ps as [|part ps IH]; intros avail; simpl; [lia|].
  destruct (cset_eqb _ _); [lia|].
  destruct (Nat.ltb_spec (max part) avail); rewrite IH; lia.
Qed.

Lemma parts_take_mono (ps : list aiComponent) (a b : nat) :
  a <= b -> parts_take ps a <= parts_take ps b.
Proof. intros H. rewrite !parts_take_min. lia. Qed.

Lemma validate_ai_val_spec (ctx : gs1_encoder) (e : aiEntry) (s r : nat) (d : list ascii)
    (n : nat) (ctx' : gs1_encoder) (d' : list ascii) :
  validate_ai_val ctx e s r d = (n, ctx', d') ->
  d' = d
  /\ (n <> 0 -> ctx' = ctx /\ n = parts_take (parts e) (r - s))
  /\ (n = 0 -> In e ai_table -> s <= r -> err_set ctx ctx')
  /\ (forall ctx2, exists ctx2', validate_ai_val ctx2 e s r d = (n, ctx2', d')).
Proof.
  unfold validate_ai_val. intros H.
  destruct (Nat.eqb_spec s r) as [->|Hsr].
  { inversion H; subst. split; [reflexivity|]. split; [congruence|]. split.
    - intros _ _ _. apply set_err_err_set. apply ai_msg_not_empty. discriminate.
    - intros; eexists; reflexivity. }
  destruct (validate_parts (parts e) ctx e s r {| dataBuf := d; compval := [] |})
    as [[res ctx1] m1] eqn:V.
  destruct (validate_parts_spec _ _ _ _ _ _ _ _ _ V) as (F & Sp & I). simpl in F.
  destruct res as [p'|].
  - destruct Sp as [-> ->]. inversion H; subst. clear H.
    replace (s + parts_take (parts e) (r - s) - s) with (parts_take (parts e) (r - s)) by lia.
    split; [reflexivity|]. split; [auto|]. split.
    + intros Z T L. exfalso.
      pose proof (ef_first e (entry_facts_in e T)) as F1.
      pose proof (parts_take_mono (parts e) 1 (r - s)). lia.
    + intros ctx2. destruct (I ctx2) as [c2 V2].
      destruct (validate_parts_spec _ _ _ _ _ _ _ _ _ V2) as (_ & [-> _] & _).
      exists ctx2. rewrite V2. f_equal. f_equal. lia.
  - inversion H; subst. clear H. split; [reflexivity|]. split; [congruence|]. split.
    + intros _ _ _. exact Sp.
    + intros ctx2. destruct (I ctx2) as [c2 V2]. exists c2. now rewrite V2.
Qed.

Section ProcessProperties.

Variable MAX_AIS : nat.


Lemma strchr_le (s : list ascii) (c : ascii) (i : nat) :
  strchr s c = Some i -> i < length s.
Proof.
  revert i. induction s as [|a s IH]; intros i H; simpl in H; [discriminate|].
  destruct (Ascii.eqb a c).
  - inversion H. simpl. lia.
  - destruct (strchr s c) as [j|]; [|discriminate]. inversion H.
    specialize (IH j eq_refl). simpl. lia.
Qed.

Lemma strchr_end_le (s : list ascii) (c : ascii) : strchr_end s c <= length s.
Proof.
  unfold strchr_end. destruct (strchr s c) as [i|] eqn:E; [|lia].
  apply strchr_le in E. lia.
Qed.

Lemma add_ai_aiData (ctx : gs1_encoder) (v : aiValue) :
  aiData (add_ai ctx v) = aiData ctx ++ [v].
Proof. reflexivity. Qed.

(** The loop of [gs1_processAIdata]: it hands the data string back as it
    got it, it only ever appends to the extracted AIs, and when it
    returns false the error flag is set and there is a message. *)
Lemma processAIdata_loop_spec (fuel : nat) :
  forall ctx d p ret ctx' d',
    processAIdata_loop MAX_AIS fuel ctx d p = Some (ret, ctx', d') ->
    d' = d
    /\ (exists new, aiData ctx' = aiData ctx ++ new)
    /\ (ret = false -> errFlag ctx' = true /\ errMsg ctx' <> []).
Proof.
  induction fuel as [|fuel IH]; intros ctx d p ret ctx' d' H; simpl in H; [discriminate|].
  destruct (is_nul (deref (skipn p (c_str d)))).
  { inversion H; subst. split; [reflexivity|]. split; [|discriminate].
    exists []. now rewrite app_nil_r. }
  destruct (lookupAIentry (skipn p (c_str d)) 0) as [e|] eqn:L.
  2:{ inversion H; subst. split; [reflexivity|]. split.
      - exists []. simpl. now rewrite app_nil_r.
      - intros _. split; [reflexivity | discriminate]. }
  apply lookupAIentry_in_table in L. destruct L as [T M].
  set (p1 := p + length (ai e)) in *.
  set (r := p1 + strchr_end (skipn p1 (c_str d)) "#") in *.
  assert (Hr : p1 <= r) by (unfold r; lia).
  destruct (validate_ai_val ctx e p1 r d) as [[n ctx1] d1] eqn:V.
  destruct (validate_ai_val_spec _ _ _ _ _ _ _ _ V) as (-> & Sn & Z & _).
  destruct (Nat.eqb_spec n 0) as [->|Hn].
  { inversion H; subst. destruct (Z eq_refl T Hr) as (E1 & E2 & E3).
    split; [reflexivity|]. split; [|auto].
    exists []. rewrite app_nil_r. assumption. }
  destruct (Sn Hn) as [-> _].
  destruct (numAIs ctx <? MAX_AIS).
  2:{ inversion H; subst. split; [reflexivity|]. split.
      - exists []. simpl. now rewrite app_nil_r.
      - intros _. split; [reflexivity | discriminate]. }
  match type of H with
  | (if ?c then _ else _) = _ => destruct c
  end.
  { inversion H; subst. split; [reflexivity|]. split.
    - eexists. simpl. reflexivity.
    - intros _. split; [reflexivity|]. apply ai_msg_not_empty. discriminate. }
  apply IH in H. destruct H as (-> & [new N] & E).
  split; [reflexivity|]. split; [|assumption].
  exists ({| aiEntry_ := e; value := p1; vallen := n mod 256 |} :: new).
  rewrite N, add_ai_aiData, <- app_assoc. reflexivity.
Qed.

(** The loop ends before its fuel does. *)
Lemma processAIdata_loop_total (fuel : nat) :
  forall ctx d p,
    0 < fuel -> length (c_str d) < p + fuel -> processAIdata_loop MAX_AIS fuel ctx d p <> None.
Proof.
  induction fuel as [|fuel IH]; intros ctx d p H0 Hf; simpl; [lia|].
  destruct (is_nul (deref (skipn p (c_str d)))) eqn:Hn; [discriminate|].
  assert (Hp : p < length (c_str d)).
  { destruct (Nat.lt_ge_cases p (length (c_str d))) as [|G]; [assumption|].
    rewrite skipn_all2 in Hn by assumption. discriminate. }
  destruct (lookupAIentry (skipn p (c_str d)) 0) as [e|] eqn:L; [|discriminate].
  set (p1 := p + length (ai e)).
  set (r := p1 + strchr_end (skipn p1 (c_str d)) "#").
  destruct (validate_ai_val ctx e p1 r d) as [[n ctx1] d1] eqn:V.
  destruct (validate_ai_val_spec _ _ _ _ _ _ _ _ V) as (-> & Sn & Z & _).
  destruct (Nat.eqb_spec n 0) as [->|Hn0]; [discriminate|].
  destruct (numAIs ctx1 <? MAX_AIS); [|discriminate].
  match goal with
  | |- (if ?c then _ else _) <> _ => destruct c; [discriminate|]
  end.
  apply IH; [lia|].
  match goal with
  | |- context [if ?c then _ else _] => destruct c
  end; lia.
Qed.

(** One iteration of the loop on an AI whose value validates. *)
Lemma processAIdata_loop_step (fuel : nat) (ctx : gs1_encoder) (d : list ascii) (p : nat)
    (e : aiEntry) (n : nat) (ctx1 : gs1_encoder) (d1 : list ascii) :
  is_nul (deref (skipn p (c_str d))) = false ->
  lookupAIentry (skipn p (c_str d)) 0 = Some e ->
  validate_ai_val ctx e (p + length (ai e))
    (p + length (ai e) + strchr_end (skipn (p + length (ai e)) (c_str d)) "#") d
    = (n, ctx1, d1) ->
  n <> 0 ->
  ctx1 = ctx /\ d1 = d /\
  processAIdata_loop MAX_AIS (S fuel) ctx d p =
    if numAIs ctx <? MAX_AIS then
      let ctx2 := add_ai ctx {| aiEntry_ := e; value := p + length (ai e);
                                vallen := n mod 256 |} in
      let c := deref (skipn (p + length (ai e) + n) (c_str d)) in
      if fnc1 e && negb (Ascii.eqb c "#") && negb (is_nul c) then
        Some (false, set_err ctx2 (ai_msg "AI (" e ") data is too long"), d)
      else
        processAIdata_loop MAX_AIS fuel ctx2 d
          (if Ascii.eqb c "#" then p + length (ai e) + n + 1 else p + length (ai e) + n)
    else Some (false, set_err ctx (str "Too many AIs"), d).
Proof.
  intros Hn L V Hn0.
  destruct (validate_ai_val_spec _ _ _ _ _ _ _ _ V) as (-> & Sn & _ & _).
  destruct (Sn Hn0) as [-> _]. split; [reflexivity|]. split; [reflexivity|].
  simpl. rewrite Hn, L, V.
  destruct (Nat.eqb_spec n 0); [contradiction|]. reflexivity.
Qed.

Lemma processAIdata_run_total (ctx : gs1_encoder) (dataStr : list ascii) :
  gs1_processAIdata_run MAX_AIS ctx dataStr <> None.
Proof.
  unfold gs1_processAIdata_run.
  destruct (c_str dataStr) as [|c s] eqn:E; simpl; [discriminate|].
  destruct (is_nul c || negb (Ascii.eqb c "#")); [discriminate|].
  destruct (is_nul (deref s)); [discriminate|].
  pose proof (processAIdata_loop_total (S (length s)) (clear_err ctx) dataStr 1) as T.
  rewrite E in T. simpl in T. apply T; lia.
Qed.

Lemma gs1_processAIdata_spec (ctx : gs1_encoder) (d : list ascii)
    (ret : bool) (ctx' : gs1_encoder) (d' : list ascii) :
  gs1_processAIdata MAX_AIS ctx d = (ret, ctx', d') ->
  d' = d
  /\ (exists new, aiData ctx' = aiData ctx ++ new)
  /\ (ret = false -> errFlag ctx' = true /\ errMsg ctx' <> []).
Proof.
  unfold gs1_processAIdata.
  pose proof (processAIdata_run_total ctx d) as T.
  destruct (gs1_processAIdata_run MAX_AIS ctx d) as [res|] eqn:R; [|contradiction].
  intros ->. unfold gs1_processAIdata_run in R.
  assert (Nil : forall c : gs1_encoder, exists new, aiData c = aiData c ++ new)
    by (intros c; exists []; now rewrite app_nil_r).
  destruct (is_nul (deref (c_str d)) || negb (Ascii.eqb (deref (c_str d)) "#")).
  { inversion R; subst. split; [reflexivity|]. split; [apply (Nil ctx)|].
    intros _. split; [reflexivity | discriminate]. }
  destruct (is_nul (deref (skipn 1 (c_str d)))).
  { inversion R; subst. split; [reflexivity|]. split; [apply (Nil ctx)|].
    intros _. split; [reflexivity | discriminate]. }
  apply processAIdata_loop_spec in R. exact R.
Qed.

(** What a successful run of the loop appends does not depend on the
    context it starts from, as long as there is room. *)
Lemma processAIdata_loop_indep (fuel : nat) :
  forall ctxA ctxB d p ctxA' d',
    numAIs ctxB <= numAIs ctxA ->
    processAIdata_loop MAX_AIS fuel ctxA d p = Some (true, ctxA', d') ->
    exists new ctxB',
      aiData ctxA' = aiData ctxA ++ new
      /\ processAIdata_loop MAX_AIS fuel ctxB d p = Some (true, ctxB', d')
      /\ aiData ctxB' = aiData ctxB ++ new
      /\ errMsg ctxB' = errMsg ctxB /\ errFlag ctxB' = errFlag ctxB.
Proof.
  induction fuel as [|fuel IH]; intros ctxA ctxB d p ctxA' d' Hle H; [discriminate|].
  destruct (is_nul (deref (skipn p (c_str d)))) eqn:Hn.
  { simpl in H |- *. rewrite Hn in H |- *. inversion H; subst.
    exists [], ctxB. rewrite !app_nil_r. auto. }
  destruct (lookupAIentry (skipn p (c_str d)) 0) as [e|] eqn:L.
  2:{ simpl in H. rewrite Hn, L in H. discriminate. }
  destruct (validate_ai_val ctxA e (p + length (ai e))
              (p + length (ai e) + strchr_end (skipn (p + length (ai e)) (c_str d)) "#") d)
    as [[n ctx1] d1] eqn:V.
  destruct (Nat.eq_dec n 0) as [->|Hn0].
  { simpl in H. rewrite Hn, L, V in H. discriminate. }
  destruct (validate_ai_val_spec _ _ _ _ _ _ _ _ V) as (_ & _ & _ & I).
  destruct (I ctxB) as [ctxB1 VB].
  destruct (processAIdata_loop_step fuel ctxA d p e n ctx1 d1 Hn L V Hn0) as (_ & _ & SA).
  destruct (processAIdata_loop_step fuel ctxB d p e n ctxB1 d1 Hn L VB Hn0) as (_ & _ & SB).
  rewrite SA in H. rewrite SB. clear SA SB.
  destruct (Nat.ltb_spec (numAIs ctxA) MAX_AIS) as [HA|HA]; [|discriminate].
  destruct (Nat.ltb_spec (numAIs ctxB) MAX_AIS) as [HB|HB]; [|lia].
  cbv zeta in H |- *.
  match type of H with
  | (if ?c then _ else _) = _ => destruct c; [discriminate|]
  end.
  eapply IH in H.
  - destruct H as (new & ctxB' & NA & RB & NB & MB & FB).
    exists ({| aiEntry_ := e; value := p + length (ai e); vallen := n mod 256 |} :: new), ctxB'.
    rewrite NA, NB, RB, MB, FB, !add_ai_aiData, <- !app_assoc. auto.
  - unfold numAIs in *. rewrite !add_ai_aiData, !length_app. simpl. lia.
Qed.

(** C10.  Validation never modifies the data string: [validate_ai_val]
    and [gs1_processAIdata] hand it back byte for byte, for every input.
    When the check digit linter fails, as on the GTIN 12345678901234, it
    is the local copy [compval] whose last byte [gs1_validateParity] has
    overwritten with the computed digit. *)
Theorem validation_leaves_dataStr_unchanged :
  (forall ctx e start end_ d, snd (validate_ai_val ctx e start end_ d) = d)
  /\ (forall ctx d, snd (gs1_processAIdata MAX_AIS ctx d) = d)
  /\ (exists e m',
         lookupAIentry (str "01") 2 = Some e
         /\ validate_parts (parts e) fresh_ctx e 3 17
              {| dataBuf := str "#0112345678901234"; compval := [] |}
            = (None, set_err fresh_ctx (str "AI (01): Incorrect check digit"), m')
         /\ compval m' = str "12345678901231"
         /\ dataBuf m' = str "#0112345678901234").
Proof.
  split; [|split].
  - intros ctx e s r d.
    destruct (validate_ai_val ctx e s r d) as [[n ctx'] d'] eqn:V.
    apply validate_ai_val_spec in V. simpl. tauto.
  - intros ctx d.
    destruct (gs1_processAIdata MAX_AIS ctx d) as [[ret ctx'] d'] eqn:R.
    apply gs1_processAIdata_spec in R. simpl. tauto.
  - eexists. eexists. split; [vm_compute; reflexivity|].
    split; [vm_compute; reflexivity|]. split; reflexivity.
Qed.

(** C7.  In an iteration of [gs1_processAIdata] whose AI value has
    validated and has been recorded: when the AI requires FNC1 and the
    character after the value is neither "#" nor the end of the string the
    call returns false with "AI (..) data is too long"; when that
    character is "#" it is skipped and the loop goes on after it, whether
    the AI requires FNC1 or not.  So "#0112345678901231#" is accepted. *)
Theorem processAIdata_after_value :
  (forall fuel ctx d p e n ctx1 d1,
      is_nul (deref (skipn p (c_str d))) = false ->
      lookupAIentry (skipn p (c_str d)) 0 = Some e ->
      validate_ai_val ctx e (p + length (ai e))
        (p + length (ai e) + strchr_end (skipn (p + length (ai e)) (c_str d)) "#") d
        = (n, ctx1, d1) ->
      n <> 0 ->
      numAIs ctx < MAX_AIS ->
      let ctx2 := add_ai ctx {| aiEntry_ := e; value := p + length (ai e);
                                vallen := n mod 256 |} in
      let c := deref (skipn (p + length (ai e) + n) (c_str d)) in
      (fnc1 e = true -> c <> "#"%char -> c <> NUL ->
       processAIdata_loop MAX_AIS (S fuel) ctx d p
       = Some (false, set_err ctx2 (ai_msg "AI (" e ") data is too long"), d))
      /\ (c = "#"%char ->
          processAIdata_loop MAX_AIS (S fuel) ctx d p
          = processAIdata_loop MAX_AIS fuel ctx2 d (p + length (ai e) + n + 1)))
  /\ (forall ctx, numAIs ctx < MAX_AIS ->
        exists ctx',
          gs1_processAIdata MAX_AIS ctx (str "#0112345678901231#")
          = (true, ctx', str "#0112345678901231#")).
Proof.
  split.
  - intros fuel ctx d p e n ctx1 d1 Hn L V Hn0 Hroom ctx2 c.
    destruct (processAIdata_loop_step fuel ctx d p e n ctx1 d1 Hn L V Hn0) as (_ & _ & St).
    rewrite St. clear St.
    destruct (Nat.ltb_spec (numAIs ctx) MAX_AIS) as [_|]; [|lia].
    cbv zeta. fold ctx2. fold c. split.
    + intros F H1 H2. rewrite F.
      destruct (Ascii.eqb_spec c "#"); [contradiction|].
      unfold is_nul. destruct (Ascii.eqb_spec c NUL); [contradiction|]. reflexivity.
    + intros ->. simpl. rewrite andb_false_r. reflexivity.
  - intros ctx Hroom.
    set (d := str "#0112345678901231#").
    destruct (lookupAIentry (str "01") 2) as [e|] eqn:L; [|vm_compute in L; discriminate].
    assert (V0 : validate_ai_val fresh_ctx e 3 17 d = (14, fresh_ctx, d))
      by (vm_compute in L; inversion L; subst e; vm_compute; reflexivity).
    destruct (validate_ai_val_spec _ _ _ _ _ _ _ _ V0) as (_ & _ & _ & I).
    destruct (I (clear_err ctx)) as [c1 V].
    assert (Hai : ai e = str "01") by (vm_compute in L; inversion L; reflexivity).
    assert (Hf : fnc1 e = false) by (vm_compute in L; inversion L; reflexivity).
    assert (L1 : lookupAIentry (skipn 1 (c_str d)) 0 = Some e)
      by (rewrite <- L; vm_compute; reflexivity).
    assert (Hn : is_nul (deref (skipn 1 (c_str d))) = false) by reflexivity.
    assert (V1 : validate_ai_val (clear_err ctx) e (1 + length (ai e))
                   (1 + length (ai e)
                    + strchr_end (skipn (1 + length (ai e)) (c_str d)) "#") d
                 = (14, c1, d))
      by (rewrite Hai; exact V).
    destruct (processAIdata_loop_step 17 (clear_err ctx) d 1 e 14 c1 d Hn L1 V1)
      as (_ & _ & St); [discriminate|].
    eexists. unfold gs1_processAIdata, gs1_processAIdata_run.
    change (c_str d) with d at 1 2 3.
    change (is_nul (deref d) || negb (Ascii.eqb (deref d) "#")) with false.
    change (is_nul (deref (skipn 1 d))) with false.
    change (length (c_str d)) with 18. cbv iota.
    rewrite St. clear St.
    change (numAIs (clear_err ctx)) with (numAIs ctx).
    destruct (Nat.ltb_spec (numAIs ctx) MAX_AIS) as [_|]; [|lia].
    rewrite Hai, Hf. reflexivity.
Qed.

End ProcessProperties.

Lemma processAIdata_after_value_witness :
  processAIdata_loop 64 1 fresh_ctx (str "#2421234567") 1
  = Some (false,
          set_err (add_ai fresh_ctx
                     {| aiEntry_ := AI "242" FNC1 (part cset_N 1 6 _l) __ __ __ __
                                       "MTO VARIANT";
                        value := 4; vallen := 6 |})
            (str "AI (242) data is too long"),
          str "#2421234567")
  /\ exists ctx',
       gs1_processAIdata 64 fresh_ctx (str "#0112345678901231#")
       = (true, ctx', str "#0112345678901231#").
Proof.
  split.
  - assert (H1 : is_nul (deref (skipn 1 (c_str (str "#2421234567")))) = false)
      by reflexivity.
    assert (H2 : lookupAIentry (skipn 1 (c_str (str "#2421234567"))) 0
                 = Some (AI "242" FNC1 (part cset_N 1 6 _l) __ __ __ __ "MTO VARIANT"))
      by (vm_compute; reflexivity).
    pose proof (proj1 (processAIdata_after_value 64) 0 fresh_ctx (str "#2421234567") 1
                  (AI "242" FNC1 (part cset_N 1 6 _l) __ __ __ __ "MTO VARIANT")
                  6 fresh_ctx (str "#2421234567") H1 H2) as W.
    cbv zeta in W. apply W.
    + vm_compute. reflexivity.
    + discriminate.
    + unfold numAIs, fresh_ctx. simpl. lia.
    + reflexivity.
    + vm_compute. discriminate.
    + vm_compute. discriminate.
  - apply (proj2 (processAIdata_after_value 64) fresh_ctx).
    unfold numAIs, fresh_ctx. simpl. lia.
Defined.

(* ================================================================= *)
(** ** Data strings as the ingesters write them *)

Lemma key_no_nul (e : aiEntry) : In e ai_table -> no_nul (ai e).
Proof. intros T. apply digits_no_nul, (ef_digits e (entry_facts_in e T)). Qed.

Lemma key_head (e : aiEntry) :
  In e ai_table -> exists c k, ai e = c :: k /\ is_digit c = true.
Proof.
  intros T. pose proof (ef_digits e (entry_facts_in e T)) as D.
  pose proof (ef_len e (entry_facts_in e T)) as L.
  destruct (ai e) as [|c k]; simpl in L; [lia|].
  exists c, k. simpl in D. apply andb_true_iff in D. tauto.
Qed.

Lemma render_no_nul (cs : list (aiEntry * list ascii)) :
  forall b, Forall chunk_ok cs -> no_nul (render b cs).
Proof.
  induction cs as [|[e v] cs IH]; intros b F; simpl; [constructor|].
  inversion F as [|? ? (T & _ & _ & N) F']; subst. cbn [fst snd] in *.
  apply no_nul_app; split; [destruct b; repeat constructor; discriminate|].
  apply no_nul_app; split; [now apply key_no_nul|].
  apply no_nul_app; split; [assumption | now apply IH].
Qed.

(** The first "#" of the value-and-rest is at or after the end of the value;
    it is at the end of the value when a "#" or nothing follows. *)
Lemma strchr_end_app_notin (v t : list ascii) (c : ascii) :
  ~ In c v -> strchr_end (v ++ t) c = length v + strchr_end t c.
Proof.
  unfold strchr_end. induction v as [|a v IH]; intros N; simpl; [reflexivity|].
  destruct (Ascii.eqb_spec a c) as [->|_]; [exfalso; apply N; now left|].
  assert (N' : ~ In c v) by (intros I; apply N; now right).
  specialize (IH N').
  destruct (strchr (v ++ t) c), (strchr t c); simpl in *; lia.
Qed.

Lemma strchr_end_head (t : list ascii) (c : ascii) : strchr_end (c :: t) c = 0.
Proof. unfold strchr_end. simpl. now rewrite Ascii.eqb_refl. Qed.

Lemma skipn_app_length (A : Type) (a b : list A) : skipn (length a) (a ++ b) = b.
Proof. rewrite skipn_app, skipn_all, Nat.sub_diag. reflexivity. Qed.

Lemma skipn_app_plus (A : Type) (a b : list A) (n : nat) :
  skipn (length a + n) (a ++ b) = skipn n b.
Proof.
  rewrite skipn_app. rewrite skipn_all2 by lia.
  replace (length a + n - length a) with n by lia. reflexivity.
Qed.

Lemma firstn_app_length (A : Type) (a b : list A) : firstn (length a) (a ++ b) = a.
Proof. rewrite firstn_app, firstn_all, Nat.sub_diag. simpl. apply app_nil_r. Qed.

Lemma render_head (b : bool) (cs : list (aiEntry * list ascii)) :
  Forall chunk_ok cs ->
  cs = [] /\ render b cs = []
  \/ (exists t, b = true /\ render b cs = "#"%char :: t)
  \/ (exists c t, b = false /\ render b cs = c :: t /\ is_digit c = true).
Proof.
  intros F. destruct cs as [|[e v] cs]; [left; auto|]. right.
  inversion F as [|? ? (T & _) _]; subst. cbn [fst snd] in T.
  destruct (key_head e T) as (c & k & K & D).
  destruct b; simpl.
  - left. eexists. split; reflexivity.
  - right. exists c. rewrite K. simpl. eexists. auto.
Qed.

(** Validation of a value the ingesters wrote consumes exactly the value:
    the value of an AI that requires FNC1 ends at the "#" or the end of the
    string; the value of a fixed-length AI fills its components. *)
Lemma parts_take_value (e : aiEntry) (v rest : list ascii) :
  chunk_ok (e, v) ->
  rest = []
  \/ (exists t, fnc1req_after e = true /\ rest = "#"%char :: t)
  \/ (exists c t, fnc1req_after e = false /\ rest = c :: t) ->
  parts_take (parts e) (strchr_end (v ++ rest) "#") = length v.
Proof.
  intros (T & [Lo Hi] & NH & _) R. cbn [fst snd] in *.
  pose proof (entry_facts_in e T) as EF.
  rewrite strchr_end_app_notin by assumption.
  rewrite parts_take_min, (ef_max e EF).
  destruct R as [-> | [(t & _ & ->) | (c & t & B & ->)]].
  - unfold strchr_end. simpl. lia.
  - rewrite strchr_end_head. lia.
  - rewrite <- (ef_fnc1 e EF) in B. pose proof (ef_fixed e EF B). lia.
Qed.

Lemma chunk_string_no_nul (pre : list ascii) (e : aiEntry) (v : list ascii) (b : bool)
    (cs : list (aiEntry * list ascii)) :
  no_nul pre -> chunk_ok (e, v) -> Forall chunk_ok cs ->
  no_nul (pre ++ ai e ++ v ++ render b cs).
Proof.
  intros Hp (T & _ & _ & NN) Hcs. cbn [fst snd] in *.
  apply no_nul_app; split; [assumption|].
  apply no_nul_app; split; [now apply key_no_nul|].
  apply no_nul_app; split; [assumption | now apply render_no_nul].
Qed.

Section ProcessChunks.

Variable MAX_AIS : nat.

(** Run on a data string the ingesters wrote, from the key of one of its
    AIs on, a successful [gs1_processAIdata] loop extracts exactly the AIs
    that were written. *)
Lemma processAIdata_loop_chunks (cs : list (aiEntry * list ascii)) :
  forall e v pre fuel ctx ctx' d',
    chunk_ok (e, v) -> Forall chunk_ok cs -> no_nul pre ->
    processAIdata_loop MAX_AIS fuel ctx
      (pre ++ ai e ++ v ++ render (fnc1req_after e) cs) (length pre)
    = Some (true, ctx', d') ->
    aiData ctx' =
      aiData ctx
        ++ {| aiEntry_ := e; value := length pre + length (ai e); vallen := length v |}
        :: chunk_entries (length pre + length (ai e) + length v) (fnc1req_after e) cs.
Proof.
  induction cs as [|[e' v'] cs IH]; intros e v pre fuel ctx ctx' d' Hc Hcs Hpre H.
  all: destruct fuel as [|fuel]; [discriminate|].
  all: pose proof Hc as (T & [Lo Hi] & NH & NN); cbn [fst snd] in T, Lo, Hi, NH, NN.
  all: pose proof (entry_facts_in e T) as EF.
  all: pose proof (ef_max90 e EF) as M90.
  all: destruct (key_head e T) as (k0 & k & K & D0).
  all: set (rest := render (fnc1req_after e) _) in *.
  all: set (d := pre ++ ai e ++ v ++ rest) in *.
  all: assert (Nd : no_nul d) by (unfold d, rest; now apply chunk_string_no_nul).
  all: assert (Cd : c_str d = d) by now apply c_str_id.
  all: assert (Sk : skipn (length pre) (c_str d) = ai e ++ v ++ rest)
    by (rewrite Cd; unfold d; apply skipn_app_length).
  all: assert (Sk1 : skipn (length pre + length (ai e)) (c_str d) = v ++ rest)
    by (rewrite Cd; unfold d; rewrite skipn_app_plus; apply skipn_app_length).
  all: assert (Hn : is_nul (deref (skipn (length pre) (c_str d))) = false)
    by (rewrite Sk, K; simpl; unfold is_nul;
        destruct (Ascii.eqb_spec k0 NUL) as [->|]; [discriminate | reflexivity]).
  all: assert (L : lookupAIentry (skipn (length pre) (c_str d)) 0 = Some e)
    by (rewrite Sk; now apply lookupAIentry_prefix).
  all: destruct (validate_ai_val ctx e (length pre + length (ai e))
              (length pre + length (ai e)
               + strchr_end (skipn (length pre + length (ai e)) (c_str d)) "#") d)
    as [[n ctx1] d1] eqn:V.
  all: destruct (Nat.eq_dec n 0) as [->|Hn0];
    [simpl in H; rewrite Hn, L, V in H; discriminate|].
  all: destruct (validate_ai_val_spec _ _ _ _ _ _ _ _ V) as (_ & Sn & _ & _).
  all: destruct (Sn Hn0) as [_ En]; clear Sn.
  all: rewrite Sk1 in En.
  all: replace (length pre + length (ai e) + strchr_end (v ++ rest) "#"
                - (length pre + length (ai e)))
    with (strchr_end (v ++ rest) "#") in En by lia.
  all: destruct (processAIdata_loop_step MAX_AIS fuel ctx d (length pre) e n ctx1 d1
                   Hn L V Hn0) as (_ & _ & St).
  all: rewrite St in H; clear St.
  all: destruct (numAIs ctx <? MAX_AIS); [|discriminate].
  all: cbv zeta in H.
  all: assert (Sk2 : skipn (length pre + length (ai e) + length v) (c_str d) = rest)
    by (rewrite Cd; unfold d;
        replace (pre ++ ai e ++ v ++ rest) with ((pre ++ ai e ++ v) ++ rest)
          by (rewrite <- !app_assoc; reflexivity);
        replace (length pre + length (ai e) + length v)
          with (length (pre ++ ai e ++ v)) by (rewrite !length_app; lia);
        apply skipn_app_length).
  - (* the last AI *)
    rewrite (parts_take_value e v rest Hc) in En by (left; reflexivity). subst n.
    rewrite Nat.mod_small in H by lia. rewrite Sk2 in H.
    change (deref rest) with NUL in H. change (is_nul NUL) with true in H.
    change (Ascii.eqb NUL "#") with false in H.
    rewrite andb_false_r in H.
    destruct fuel as [|fuel]; [discriminate|].
    cbn [processAIdata_loop] in H. rewrite Sk2 in H.
    change (is_nul (deref rest)) with true in H. cbv iota in H.
    inversion H; subst. reflexivity.
  - (* another AI follows *)
    pose proof (proj1 (Forall_cons_iff _ _ _) Hcs) as [Hc' Hcs'].
    pose proof Hc' as (T' & _). cbn [fst snd] in T'.
    destruct (key_head e' T') as (k0' & k' & K' & D0').
    destruct (fnc1req_after e) eqn:B.
    + assert (R : rest = "#"%char :: ai e' ++ v' ++ render (fnc1req_after e') cs)
        by reflexivity.
      rewrite (parts_take_value e v rest Hc) in En
        by (right; left; eexists; split; [exact B | exact R]).
      subst n. rewrite Nat.mod_small in H by lia. rewrite Sk2 in H.
      assert (Hd : deref rest = "#"%char) by (rewrite R; reflexivity).
      rewrite Hd in H. change (Ascii.eqb "#" "#") with true in H.
      cbn [negb andb] in H. rewrite andb_false_r in H. cbv iota in H.
      replace d with ((pre ++ ai e ++ v ++ ["#"%char]) ++ ai e' ++ v'
                        ++ render (fnc1req_after e') cs) in H
        by (unfold d; rewrite R; rewrite <- !app_assoc; reflexivity).
      replace (length pre + length (ai e) + length v + 1)
        with (length (pre ++ ai e ++ v ++ ["#"%char])) in H
        by (rewrite !length_app; simpl; lia).
      apply IH in H; auto.
      * rewrite H. rewrite add_ai_aiData, <- app_assoc.
        cbn [chunk_entries app]. rewrite !length_app. cbn [length].
        rewrite !Nat.add_assoc. reflexivity.
      * apply no_nul_app; split; [assumption|].
        apply no_nul_app; split; [now apply key_no_nul|].
        apply no_nul_app; split; [assumption|]. repeat constructor. discriminate.
    + assert (R : rest = ai e' ++ v' ++ render (fnc1req_after e') cs) by reflexivity.
      rewrite (parts_take_value e v rest Hc) in En
        by (right; right; exists k0', (k' ++ v' ++ render (fnc1req_after e') cs);
            split; [exact B | rewrite R, K'; reflexivity]).
      subst n. rewrite Nat.mod_small in H by lia. rewrite Sk2 in H.
      assert (Hd : deref rest = k0') by (rewrite R, K'; reflexivity).
      rewrite Hd in H. rewrite (ef_fnc1 e EF), B in H. cbn [andb] in H.
      destruct (Ascii.eqb_spec k0' "#") as [E|_]; [rewrite E in D0'; discriminate|].
      replace d with ((pre ++ ai e ++ v) ++ ai e' ++ v'
                        ++ render (fnc1req_after e') cs) in H
        by (unfold d; rewrite R; rewrite <- !app_assoc; reflexivity).
      replace (length pre + length (ai e) + length v)
        with (length (pre ++ ai e ++ v)) in H
        by (rewrite !length_app; lia).
      apply IH in H; auto.
      * rewrite H. rewrite add_ai_aiData, <- app_assoc.
        cbn [chunk_entries app]. rewrite !length_app.
        rewrite !Nat.add_assoc, !Nat.add_0_r. reflexivity.
      * apply no_nul_app; split; [assumption|].
        apply no_nul_app; split; [now apply key_no_nul | assumption].
Qed.

End ProcessChunks.

(** Re-serialising the extracted AIs of a data string the ingesters wrote
    gives back what was written. *)
Lemma reserialise_from_chunks (cs : list (aiEntry * list ascii)) :
  forall b b' pre,
    Forall chunk_ok cs ->
    reserialise_from (pre ++ render b cs) b' (chunk_entries (length pre) b cs)
    = render b' cs.
Proof.
  induction cs as [|[e v] cs IH]; intros b b' pre F; [reflexivity|].
  pose proof (proj1 (Forall_cons_iff _ _ _) F) as [(T & _) F'].
  cbn [fst snd] in T. pose proof (entry_facts_in e T) as EF.
  cbn [chunk_entries reserialise_from render aiEntry_ value vallen].
  set (sepb := if b then ["#"%char] else []).
  assert (Ls : length sepb = if b then 1 else 0) by (unfold sepb; destruct b; reflexivity).
  rewrite <- Ls.
  f_equal. f_equal.
  replace (pre ++ sepb ++ ai e ++ v ++ render (fnc1req_after e) cs)
    with ((pre ++ sepb ++ ai e) ++ v ++ render (fnc1req_after e) cs)
    by (rewrite <- !app_assoc; reflexivity).
  replace (length pre + length sepb + length (ai e))
    with (length (pre ++ sepb ++ ai e)) by (rewrite !length_app; lia).
  rewrite skipn_app_length, firstn_app_length. f_equal.
  replace ((pre ++ sepb ++ ai e) ++ v ++ render (fnc1req_after e) cs)
    with (((pre ++ sepb ++ ai e) ++ v) ++ render (fnc1req_after e) cs)
    by (rewrite <- !app_assoc; reflexivity).
  replace (length (pre ++ sepb ++ ai e) + length v)
    with (length ((pre ++ sepb ++ ai e) ++ v)) by (rewrite !length_app; lia).
  rewrite (ef_fnc1 e EF). apply IH. assumption.
Qed.

Lemma aiValLengthContentCheck_spec (ctx : gs1_encoder) (e : aiEntry)
    (aiVal : list ascii) (n : nat) (ok : bool) (ctx' : gs1_encoder) :
  aiValLengthContentCheck ctx e aiVal n = (ok, ctx') ->
  aiData ctx' = aiData ctx
  /\ (ok = true ->
      ctx' = ctx /\ ai_minlen e <= n <= ai_maxlen e
      /\ existsb (Ascii.eqb "#") (firstn n aiVal) = false)
  /\ (ok = false -> errMsg ctx' <> []).
Proof.
  unfold aiValLengthContentCheck. intros H.
  destruct (Nat.ltb_spec n (ai_minlen e)).
  { inversion H; subst. split; [reflexivity|]. split; [discriminate|].
    intros _. apply ai_msg_not_empty. discriminate. }
  destruct (Nat.ltb_spec (ai_maxlen e) n).
  { inversion H; subst. split; [reflexivity|]. split; [discriminate|].
    intros _. apply ai_msg_not_empty. discriminate. }
  destruct (existsb (Ascii.eqb "#") (firstn n aiVal)) eqn:E.
  { inversion H; subst. split; [reflexivity|]. split; [discriminate|].
    intros _. apply ai_msg_not_empty. discriminate. }
  inversion H; subst. split; [reflexivity|]. split; [|discriminate].
  intros _. split; [reflexivity|]. split; [lia | reflexivity].
Qed.

Lemma existsb_eqb_false (c : ascii) (v : list ascii) :
  existsb (Ascii.eqb c) v = false -> ~ In c v.
Proof.
  intros E I. assert (existsb (Ascii.eqb c) v = true); [|congruence].
  apply existsb_exists. exists c. split; [assumption | apply Ascii.eqb_refl].
Qed.

Lemma existsb_hash_false (v : list ascii) :
  existsb (Ascii.eqb "#") v = false -> ~ In "#"%char v.
Proof. apply existsb_eqb_false. Qed.

Section ParseAIdata.

Variable MAX_DATA : nat.
Variable MAX_AIS : nat.

Lemma writeDataStr_some (ds v ds' : list ascii) :
  writeDataStr MAX_DATA ds v = Some ds' -> ds' = ds ++ v.
Proof. unfold writeDataStr. destruct (_ <? _); congruence. Qed.

Lemma nwriteDataStr_some (ds v : list ascii) (l : nat) (ds' : list ascii) :
  nwriteDataStr MAX_DATA ds v l = Some ds' -> ds' = ds ++ firstn l (c_str v).
Proof. unfold nwriteDataStr. destruct (_ <? _); congruence. Qed.

(** The value loop appends the (unescaped) value and stops at the next AI
    or at the end. *)
Lemma parseAIdata_value_spec (fuel : nat) :
  forall prev r ds p ds',
    parseAIdata_value MAX_DATA fuel prev r ds = Some (Some (p, ds')) ->
    no_nul r ->
    exists v, ds' = ds ++ v /\ no_nul v /\ no_nul p /\ length p <= length r.
Proof.
  induction fuel as [|fuel IH]; intros prev r ds p ds' H Nr; [discriminate|].
  cbn [parseAIdata_value] in H.
  set (n := strchr_end r "(") in *.
  match type of H with
  | (if ?c then _ else _) = _ => destruct c
  end.
  - destruct (nwriteDataStr MAX_DATA ds r (n - 1)) as [ds1|] eqn:W1; [|discriminate].
    destruct (writeDataStr MAX_DATA ds1 (str "(")) as [ds2|] eqn:W2; [|discriminate].
    apply nwriteDataStr_some in W1. apply writeDataStr_some in W2. subst ds1 ds2.
    apply IH in H.
    + destruct H as (v & -> & Nv & Np & Lp).
      exists (firstn (n - 1) (c_str r) ++ str "(" ++ v).
      split; [rewrite <- !app_assoc; reflexivity|]. split; [|split; [assumption|]].
      * apply no_nul_app; split; [apply no_nul_firstn, c_str_no_nul|].
        apply no_nul_app; split; [repeat constructor; discriminate | assumption].
      * rewrite !length_skipn in Lp. lia.
    + now apply no_nul_skipn, no_nul_skipn.
  - destruct (nwriteDataStr MAX_DATA ds r n) as [ds1|] eqn:W1; [|discriminate].
    apply nwriteDataStr_some in W1. inversion H; subst.
    exists (firstn n (c_str r)). split; [reflexivity|].
    split; [apply no_nul_firstn, c_str_no_nul|].
    split; [now apply no_nul_skipn | rewrite length_skipn; lia].
Qed.

Lemma parseAIdata_value_total (fuel : nat) :
  forall prev r ds,
    length r < fuel -> parseAIdata_value MAX_DATA fuel prev r ds <> None.
Proof.
  induction fuel as [|fuel IH]; intros prev r ds Hf; [lia|].
  cbn [parseAIdata_value].
  set (n := strchr_end r "(").
  destruct (is_nul (deref (skipn n r))) eqn:Nn; cbn [negb andb].
  - destruct (nwriteDataStr _ _ _ _); discriminate.
  - match goal with
    | |- (if ?c then _ else _) <> _ => destruct c
    end.
    + destruct (nwriteDataStr _ _ _ _); [|discriminate].
      destruct (writeDataStr _ _ _); [|discriminate].
      apply IH. rewrite !length_skipn.
      assert (skipn n r <> []) by (intros E; rewrite E in Nn; discriminate).
      assert (length (skipn n r) <> 0) by (now destruct (skipn n r)).
      rewrite length_skipn in *. lia.
    + destruct (nwriteDataStr _ _ _ _); discriminate.
Qed.

(** The two ways [gs1_parseAIdata] ends: through its [fail] label, with
    the extracted AIs as they were, or by handing to [gs1_processAIdata]
    a data string made of keys and values that passed the length and
    content check. *)
Lemma parseAIdata_loop_shape (fuel : nat) :
  forall ctx p ds b res,
    parseAIdata_loop MAX_DATA MAX_AIS fuel ctx p ds b = Some res ->
    no_nul p ->
    (exists c1, aiData c1 = aiData ctx /\ res = parseAIdata_fail c1)
    \/ (exists cs, Forall chunk_ok cs
                   /\ res = gs1_processAIdata MAX_AIS ctx (ds ++ render b cs)).
Proof.
  induction fuel as [|fuel IH]; intros ctx p ds b res H Np; [discriminate|].
  cbn [parseAIdata_loop] in H.
  assert (Fail : forall c, aiData c = aiData ctx ->
                 Some (parseAIdata_fail c) = Some res ->
                 (exists c1, aiData c1 = aiData ctx /\ res = parseAIdata_fail c1)
                 \/ (exists cs, Forall chunk_ok cs
                       /\ res = gs1_processAIdata MAX_AIS ctx (ds ++ render b cs)))
    by (intros c Hc E; left; exists c; split; [assumption | congruence]).
  destruct (is_nul (deref p)).
  { right. exists []. split; [constructor|]. simpl. rewrite app_nil_r. congruence. }
  destruct (negb (Ascii.eqb (deref p) "(")); [eapply Fail; [|exact H]; reflexivity|].
  destruct (strchr (skipn 1 p) ")") as [n|]; [|eapply Fail; [|exact H]; reflexivity].
  destruct (lookupAIentry (skipn 1 p) n) as [e|] eqn:L; [|eapply Fail; [|exact H]; reflexivity].
  apply lookupAIentry_in_table in L. destruct L as [T _].
  destruct (if b then writeDataStr MAX_DATA ds (str "#") else Some ds) as [ds1|] eqn:W1;
    [|eapply Fail; [|exact H]; reflexivity].
  destruct (writeDataStr MAX_DATA ds1 (ai e)) as [ds2|] eqn:W2; [|eapply Fail; [|exact H]; reflexivity].
  destruct (is_nul (deref (skipn (S n) (skipn 1 p)))); [eapply Fail; [|exact H]; reflexivity|].
  destruct (parseAIdata_value MAX_DATA (S (length (skipn (S n) (skipn 1 p)))) ")"
              (skipn (S n) (skipn 1 p)) ds2) as [[[p' ds3]|]|] eqn:PV;
    [| eapply Fail; [|exact H]; reflexivity | discriminate].
  apply parseAIdata_value_spec in PV; [|now apply no_nul_skipn, no_nul_skipn].
  destruct PV as (v & -> & Nv & Np' & _).
  rewrite skipn_app_length in H.
  destruct (aiValLengthContentCheck ctx e v (length v)) as [ok ctx1] eqn:C.
  apply aiValLengthContentCheck_spec in C. destruct C as (A1 & Ok & _).
  destruct ok; [|eapply Fail; [|exact H]; assumption].
  destruct (Ok eq_refl) as (-> & B & NH). rewrite firstn_all in NH.
  apply IH in H; [|assumption].
  destruct H as [Hf | (cs & Fcs & ->)]; [left; exact Hf|].
  right. exists ((e, v) :: cs). split.
  - constructor; [|assumption].
    repeat split; cbn [fst snd]; try assumption; try lia.
    now apply existsb_hash_false.
  - f_equal. apply writeDataStr_some in W2. subst ds2.
    assert (ds1 = ds ++ (if b then ["#"%char] else [])).
    { destruct b.
      - apply writeDataStr_some in W1. exact W1.
      - inversion W1. now rewrite app_nil_r. }
    subst ds1. cbn [render]. rewrite <- !app_assoc. reflexivity.
Qed.

Lemma parseAIdata_loop_total (fuel : nat) :
  forall ctx p ds b,
    no_nul p -> length p < fuel ->
    parseAIdata_loop MAX_DATA MAX_AIS fuel ctx p ds b <> None.
Proof.
  induction fuel as [|fuel IH]; intros ctx p ds b Np Hf; [lia|].
  cbn [parseAIdata_loop].
  destruct (is_nul (deref p)) eqn:Hp; [discriminate|].
  assert (Lp0 : 0 < length p) by (destruct p; [discriminate | simpl; lia]).
  destruct (negb (Ascii.eqb (deref p) "(")); [discriminate|].
  destruct (strchr (skipn 1 p) ")") as [n|]; [|discriminate].
  destruct (lookupAIentry (skipn 1 p) n) as [e|]; [|discriminate].
  destruct (if b then writeDataStr MAX_DATA ds (str "#") else Some ds) as [ds1|];
    [|discriminate].
  destruct (writeDataStr MAX_DATA ds1 (ai e)) as [ds2|]; [|discriminate].
  destruct (is_nul (deref (skipn (S n) (skipn 1 p)))); [discriminate|].
  pose proof (parseAIdata_value_total
                (S (length (skipn (S n) (skipn 1 p)))) ")"%char
                (skipn (S n) (skipn 1 p)) ds2) as VT.
  destruct (parseAIdata_value MAX_DATA (S (length (skipn (S n) (skipn 1 p)))) ")"
              (skipn (S n) (skipn 1 p)) ds2) as [[[p' ds3]|]|] eqn:PV;
    [| discriminate | exfalso; apply VT; [lia | reflexivity]].
  apply parseAIdata_value_spec in PV; [|now apply no_nul_skipn, no_nul_skipn].
  destruct PV as (v & -> & Nv & Np' & Lp).
  destruct (aiValLengthContentCheck ctx e _ _) as [ok ctx1].
  destruct ok; [|discriminate].
  apply IH; [assumption|]. rewrite !length_skipn in Lp. lia.
Qed.

Lemma parseAIdata_run_total (ctx : gs1_encoder) (aiData_in : list ascii) :
  gs1_parseAIdata_run MAX_DATA MAX_AIS ctx aiData_in <> None.
Proof.
  unfold gs1_parseAIdata_run. apply parseAIdata_loop_total; [apply c_str_no_nul | lia].
Qed.

Lemma processAIdata_clear_err (ctx : gs1_encoder) (d : list ascii) :
  gs1_processAIdata MAX_AIS (clear_err ctx) d = gs1_processAIdata MAX_AIS ctx d.
Proof.
  unfold gs1_processAIdata.
  pose proof (processAIdata_run_total MAX_AIS ctx d) as T.
  assert (E : gs1_processAIdata_run MAX_AIS (clear_err ctx) d
              = gs1_processAIdata_run MAX_AIS ctx d) by reflexivity.
  rewrite E. destruct (gs1_processAIdata_run MAX_AIS ctx d); [reflexivity | contradiction].
Qed.

(** The shape of every result of [gs1_parseAIdata]. *)
Lemma gs1_parseAIdata_shape (ctx : gs1_encoder) (s : list ascii) :
  (exists c1, aiData c1 = aiData ctx
              /\ gs1_parseAIdata MAX_DATA MAX_AIS ctx s = parseAIdata_fail c1)
  \/ (exists cs, Forall chunk_ok cs
                 /\ gs1_parseAIdata MAX_DATA MAX_AIS ctx s
                    = gs1_processAIdata MAX_AIS ctx (render true cs)).
Proof.
  unfold gs1_parseAIdata.
  pose proof (parseAIdata_run_total ctx s) as T.
  destruct (gs1_parseAIdata_run MAX_DATA MAX_AIS ctx s) as [res|] eqn:R; [|contradiction].
  unfold gs1_parseAIdata_run in R.
  apply parseAIdata_loop_shape in R; [|apply c_str_no_nul].
  destruct R as [(c1 & A & ->) | (cs & F & ->)].
  - left. exists c1. split; [exact A | reflexivity].
  - right. exists cs. split; [assumption|]. simpl. apply processAIdata_clear_err.
Qed.

(** What a successful [gs1_processAIdata] extracts from a data string the
    ingesters wrote. *)
Lemma processAIdata_render (ctx : gs1_encoder) (cs : list (aiEntry * list ascii))
    (ctx' : gs1_encoder) (d' : list ascii) :
  Forall chunk_ok cs ->
  gs1_processAIdata MAX_AIS ctx (render true cs) = (true, ctx', d') ->
  d' = render true cs
  /\ aiData ctx' = aiData ctx ++ chunk_entries 0 true cs
  /\ reserialise (render true cs) (chunk_entries 0 true cs) = render true cs.
Proof.
  intros F H. pose proof (gs1_processAIdata_spec MAX_AIS _ _ _ _ _ H) as (-> & _ & _).
  split; [reflexivity|].
  destruct cs as [|[e v] cs].
  { unfold gs1_processAIdata, gs1_processAIdata_run in H. simpl in H. discriminate. }
  pose proof (proj1 (Forall_cons_iff _ _ _) F) as [Hc F'].
  pose proof Hc as (T & _). cbn [fst snd] in T.
  destruct (key_head e T) as (k0 & k & K & D0).
  split.
  - unfold gs1_processAIdata in H.
    pose proof (processAIdata_run_total MAX_AIS ctx (render true ((e, v) :: cs))) as Tt.
    destruct (gs1_processAIdata_run MAX_AIS ctx (render true ((e, v) :: cs)))
      as [res|] eqn:R; [|contradiction].
    subst res. unfold gs1_processAIdata_run in R.
    rewrite (c_str_id (render true ((e, v) :: cs))) in R by now apply render_no_nul.
    cbn [render app deref hd] in R.
    change (is_nul "#" || negb (Ascii.eqb "#" "#")) with false in R. cbv iota in R.
    cbn [skipn] in R. rewrite K in R. cbn [app deref hd] in R.
    assert (Nk : is_nul k0 = false)
      by (unfold is_nul; destruct (Ascii.eqb_spec k0 NUL) as [E|]; [|reflexivity];
          rewrite E in D0; discriminate).
    rewrite Nk in R.
    replace ("#"%char :: k0 :: k ++ v ++ render (fnc1req_after e) cs)
      with (["#"%char] ++ ai e ++ v ++ render (fnc1req_after e) cs) in R
      by (rewrite K; reflexivity).
    change 1 with (length ["#"%char]) in R.
    apply processAIdata_loop_chunks in R;
      [| assumption | assumption | repeat constructor; discriminate].
    rewrite R. reflexivity.
  - unfold reserialise.
    change (render true ((e, v) :: cs)) with ([] ++ render true ((e, v) :: cs)) at 1.
    change 0 with (length (@nil ascii)).
    rewrite reserialise_from_chunks by assumption. reflexivity.
Qed.

(** C1.  When [gs1_parseAIdata] succeeds on a bracketed input, producing
    the data string [e], then [gs1_processAIdata] run on [e] from the same
    context succeeds with the same outcome; the AIs it has appended to the
    context, re-serialised in order (key, value, a "#" in front of an entry
    exactly when the entry before it requires FNC1, the initial "#" in
    front of it all), give back [e]. *)
Theorem parseAIdata_then_processAIdata_roundtrip
    (ctx : gs1_encoder) (s : list ascii) (ctx' : gs1_encoder) (e : list ascii) :
  gs1_parseAIdata MAX_DATA MAX_AIS ctx s = (true, ctx', e) ->
  gs1_processAIdata MAX_AIS ctx e = (true, ctx', e)
  /\ exists new, aiData ctx' = aiData ctx ++ new /\ reserialise e new = e.
Proof.
  intros H.
  destruct (gs1_parseAIdata_shape ctx s) as [(c1 & _ & E) | (cs & F & E)];
    rewrite E in H; [discriminate|].
  destruct (processAIdata_render ctx cs ctx' e F H) as (-> & A & R).
  split; [exact H|]. exists (chunk_entries 0 true cs). split; assumption.
Qed.

End ParseAIdata.

Lemma parseAIdata_then_processAIdata_roundtrip_witness :
  exists ctx' e,
    gs1_parseAIdata 100 64 fresh_ctx (str "(01)12345678901231(10)12345") = (true, ctx', e)
    /\ e = str "#01123456789012311012345"
    /\ gs1_processAIdata 64 fresh_ctx e = (true, ctx', e)
    /\ exists new, aiData ctx' = aiData fresh_ctx ++ new /\ reserialise e new = e.
Proof.
  eexists. eexists.
  assert (H : gs1_parseAIdata 100 64 fresh_ctx (str "(01)12345678901231(10)12345")
              = (true, _, _)) by (vm_compute; reflexivity).
  split; [exact H|]. split; [reflexivity|].
  exact (parseAIdata_then_processAIdata_roundtrip 100 64 _ _ _ _ H).
Defined.

(* ================================================================= *)
(** ** Digital Link URIs *)

Lemma URIunescape_from_length (room : nat) :
  forall inp inlen i, length (URIunescape_from room inp inlen i) <= room.
Proof.
  induction room as [|room IH]; intros inp inlen i; simpl; [lia|].
  destruct (i <? inlen); [|simpl; lia].
  match goal with
  | |- context [if ?c then _ else _] => destruct c
  end; simpl; specialize (IH inp inlen); [specialize (IH (i + 3)) | specialize (IH (i + 1))]; lia.
Qed.

(** The decoder never writes more than [maxlen] bytes, and it writes
    nothing only when there is nothing to decode or no room at all. *)
Lemma URIunescape_length (maxlen : nat) (inp : list ascii) (inlen : nat) :
  length (URIunescape maxlen inp inlen) <= maxlen.
Proof. apply URIunescape_from_length. Qed.

Lemma URIunescape_empty (maxlen : nat) (inp : list ascii) (inlen : nat) :
  URIunescape maxlen inp inlen = [] <-> maxlen = 0 \/ inlen = 0.
Proof.
  unfold URIunescape. destruct maxlen as [|room]; simpl.
  - split; auto.
  - destruct inlen as [|inlen]; simpl.
    + split; auto.
    + match goal with
      | |- context [if ?c then _ else _] => destruct c
      end; split; try discriminate; intros [H|H]; discriminate.
Qed.

(** Decoding with less room gives a prefix of decoding with more. *)
Lemma URIunescape_from_firstn (room : nat) :
  forall room' inp inlen i,
    room <= room' ->
    URIunescape_from room inp inlen i = firstn room (URIunescape_from room' inp inlen i).
Proof.
  induction room as [|room IH]; intros room' inp inlen i Hr; [reflexivity|].
  destruct room' as [|room']; [lia|]. simpl.
  destruct (i <? inlen); [|reflexivity].
  match goal with
  | |- context [if ?c then _ else _] => destruct c
  end; simpl; f_equal; apply IH; lia.
Qed.

Lemma URIunescape_firstn (maxlen : nat) (inp : list ascii) (inlen : nat) :
  URIunescape maxlen inp inlen
  = firstn maxlen (URIunescape (Nat.max maxlen inlen) inp inlen).
Proof. apply URIunescape_from_firstn. lia. Qed.

(** *** Path info and its segments *)

Lemma split_on_nonempty (c : ascii) (s : list ascii) : split_on c s <> [].
Proof.
  destruct s as [|a s]; simpl; [discriminate|].
  destruct (Ascii.eqb a c); [discriminate|].
  destruct (split_on c s); discriminate.
Qed.

Lemma split_on_no_sep (c : ascii) (s : list ascii) :
  Forall (fun seg => ~ In c seg) (split_on c s).
Proof.
  induction s as [|a s IH]; simpl.
  - constructor; [intros []|constructor].
  - destruct (Ascii.eqb_spec a c) as [->|Hac].
    + constructor; [intros []|assumption].
    + destruct (split_on c s) as [|h t]; [repeat constructor; intros [E|[]]; contradiction|].
      inversion IH as [|? ? Hh Ht]; subst. constructor; [|assumption].
      intros [E|I]; [contradiction | now apply Hh].
Qed.

Lemma join_path_split_on (s : list ascii) : join_path (split_on "/" s) = "/"%char :: s.
Proof.
  induction s as [|a s IH]; simpl; [reflexivity|].
  destruct (Ascii.eqb_spec a "/") as [->|Hac].
  - simpl. now rewrite IH.
  - destruct (split_on "/" s) as [|h t] eqn:E.
    + exfalso. eapply split_on_nonempty; eassumption.
    + simpl in *. inversion IH. reflexivity.
Qed.

(** A path info that starts with "/" is its segments joined. *)
Lemma path_segments_join (pi : list ascii) :
  deref pi = "/"%char ->
  join_path (path_segments pi) = pi /\ Forall no_slash (path_segments pi).
Proof.
  destruct pi as [|c rest]; simpl; [discriminate|]. intros ->.
  split; [apply join_path_split_on | apply split_on_no_sep].
Qed.

Lemma join_path_app (a b : list (list ascii)) :
  join_path (a ++ b) = join_path a ++ join_path b.
Proof.
  induction a as [|s a IH]; simpl; [reflexivity|].
  now rewrite IH, <- app_assoc.
Qed.

Lemma strrchr_app_notin (a s : list ascii) (c : ascii) :
  ~ In c s -> strrchr (a ++ c :: s) c = Some (length a).
Proof.
  intros N. induction a as [|x a IH]; simpl.
  - assert (E : strrchr s c = None).
    { clear -N. induction s as [|y s IH]; [reflexivity|]. simpl.
      rewrite IH by (intros I; apply N; now right).
      destruct (Ascii.eqb_spec y c) as [->|]; [exfalso; apply N; now left | reflexivity]. }
    rewrite E, Ascii.eqb_refl. reflexivity.
  - now rewrite IH.
Qed.

Lemma strchr_app_notin (s t : list ascii) (c : ascii) :
  ~ In c s -> strchr (s ++ c :: t) c = Some (length s).
Proof.
  induction s as [|a s IH]; intros N; simpl.
  - now rewrite Ascii.eqb_refl.
  - destruct (Ascii.eqb_spec a c) as [->|_]; [exfalso; apply N; now left|].
    rewrite IH by (intros I; apply N; now right). reflexivity.
Qed.

Lemma strchr_notin (s : list ascii) (c : ascii) : ~ In c s -> strchr s c = None.
Proof.
  induction s as [|a s IH]; intros N; simpl; [reflexivity|].
  destruct (Ascii.eqb_spec a c) as [->|_]; [exfalso; apply N; now left|].
  rewrite IH by (intros I; apply N; now right). reflexivity.
Qed.

(** The last "/" of a path info is where its last segment starts. *)
Lemma strrchr_join_path (segs : list (list ascii)) (s : list ascii) :
  no_slash s ->
  strrchr (join_path (segs ++ [s])) "/" = Some (length (join_path segs)).
Proof.
  intros N. rewrite join_path_app. simpl. rewrite app_nil_r.
  now apply strrchr_app_notin.
Qed.

Lemma strncmp0_app (k t q : list ascii) (n : nat) :
  n <= length k -> strncmp0 (k ++ t) q n = strncmp0 k q n.
Proof.
  revert k q. induction n as [|n IH]; intros k q Hn; [reflexivity|].
  destruct k as [|a k]; simpl in Hn; [lia|]. simpl.
  destruct q as [|b q]; [reflexivity|]. rewrite IH by lia. reflexivity.
Qed.

Lemma find_ext_in (A : Type) (f g : A -> bool) (l : list A) :
  (forall x, In x l -> f x = g x) -> find f l = find g l.
Proof.
  induction l as [|a l IH]; intros H; simpl; [reflexivity|].
  rewrite <- (H a) by now left. destruct (f a); [reflexivity|].
  apply IH. intros x I. apply H. now right.
Qed.

(** Resolving the segment in front of a "/" by its length is resolving
    the segment. *)
Lemma lookupAIentry_segment (k t : list ascii) :
  lookupAIentry (k ++ "/"%char :: t) (length k) = resolve_ai k.
Proof.
  unfold resolve_ai, lookupAIentry, lookupAIentry_in. apply find_ext_in.
  intros e T. unfold ai_matches.
  destruct (key_head e T) as (c & q & K & D).
  destruct (Nat.eqb_spec (length k) 0) as [Z|NZ]; simpl.
  - destruct k; [|discriminate]. rewrite K. cbn [app length].
    change (0 <? 0) with false. cbv iota. cbn [strncmp0].
    destruct (Ascii.eqb_spec "/" c) as [E|_]; [|reflexivity].
    rewrite <- E in D. discriminate.
  - destruct (Nat.eqb_spec (length k) (length (ai e))); simpl; [|reflexivity].
    destruct (Nat.ltb_spec 0 (length k)); [|lia].
    apply strncmp0_app. lia.
Qed.

Lemma list_pair_ind (A : Type) (P : list A -> Prop) :
  P [] -> (forall x, P [x]) -> (forall x y l, P l -> P (x :: y :: l)) ->
  forall l, P l.
Proof.
  intros H0 H1 H2.
  assert (H : forall l, P l /\ forall x, P (x :: l)).
  { induction l as [|a l [IH1 IH2]]; split; auto. }
  intros l. apply H.
Qed.

Lemma firstn_join_path (j : nat) (segs : list (list ascii)) :
  firstn (length (join_path (firstn j segs))) (join_path segs)
  = join_path (firstn j segs).
Proof.
  rewrite <- (firstn_skipn j segs) at 2. rewrite join_path_app.
  apply firstn_app_length.
Qed.

Lemma skipn_join_path (j : nat) (segs : list (list ascii)) :
  skipn (length (join_path (firstn j segs))) (join_path segs)
  = join_path (skipn j segs).
Proof.
  rewrite <- (firstn_skipn j segs) at 2. rewrite join_path_app.
  apply skipn_app_length.
Qed.

Lemma firstn_last_two (A : Type) (j : nat) (l : list A) :
  2 <= j -> j <= length l ->
  exists k v, firstn j l = firstn (j - 2) l ++ [k; v]
              /\ skipn (j - 2) l = k :: v :: skipn j l.
Proof.
  intros H2 Hj.
  assert (L : length (skipn (j - 2) l) = length l - (j - 2)) by apply length_skipn.
  destruct (skipn (j - 2) l) as [|k [|v t]] eqn:E; simpl in L; try lia.
  exists k, v.
  assert (St : skipn j l = t).
  { replace j with (2 + (j - 2)) by lia. rewrite <- skipn_skipn, E. reflexivity. }
  split; [|now rewrite St].
  apply (app_inv_tail (skipn j l)). rewrite firstn_skipn, <- app_assoc, St. simpl.
  rewrite <- E. symmetry. apply firstn_skipn.
Qed.

Section RootSearch.

Lemma firstn_join_prefix (a b : list (list ascii)) :
  firstn (length (join_path a)) (join_path (a ++ b)) = join_path a.
Proof. rewrite join_path_app. apply firstn_app_length. Qed.

(** One iteration of the backward scan with the pair [k], [v] last in view. *)
Lemma parseDLuri_root_step (a : list (list ascii)) (k v : list ascii)
    (rest : list (list ascii)) (fuel : nat) :
  no_slash k -> no_slash v ->
  parseDLuri_root (S fuel) (join_path (a ++ k :: v :: rest))
    (length (join_path (a ++ [k; v])))
  = match resolve_ai k with
    | Some e =>
        if isDLpkey (ai e) then Some (Some (length (join_path a)))
        else parseDLuri_root fuel (join_path (a ++ k :: v :: rest))
               (length (join_path a))
    | None => Some None
    end.
Proof.
  intros Nk Nv. cbn [parseDLuri_root].
  replace (a ++ k :: v :: rest) with ((a ++ [k; v]) ++ rest) at 1
    by (rewrite <- app_assoc; reflexivity).
  rewrite firstn_join_prefix.
  replace (a ++ [k; v]) with ((a ++ [k]) ++ [v]) by (rewrite <- app_assoc; reflexivity).
  rewrite strrchr_join_path by assumption.
  replace (a ++ k :: v :: rest) with ((a ++ [k]) ++ v :: rest) at 1
    by (rewrite <- app_assoc; reflexivity).
  rewrite firstn_join_prefix.
  rewrite strrchr_join_path by assumption.
  replace (skipn (S (length (join_path a))) (join_path (a ++ k :: v :: rest)))
    with (k ++ "/"%char :: v ++ join_path rest).
  2:{ rewrite join_path_app.
      replace (S (length (join_path a))) with (length (join_path a) + 1) by lia.
      rewrite skipn_app_plus. reflexivity. }
  replace (length (join_path (a ++ [k])) - length (join_path a) - 1) with (length k)
    by (rewrite join_path_app, length_app; simpl; rewrite app_nil_r; lia).
  rewrite lookupAIentry_segment. reflexivity.
Qed.

(** The backward scan of [gs1_parseDLuri] over a path info, started with
    the first [j] segments still in view, is the search [dl_root] over
    those segments; the root it finds is the offset of the root pair. *)
Lemma parseDLuri_root_segments (segs : list (list ascii)) :
  Forall no_slash segs ->
  forall fuel j,
    j <= length segs -> j < fuel ->
    parseDLuri_root fuel (join_path segs) (length (join_path (firstn j segs)))
    = Some (option_map (fun i => length (join_path (firstn i segs)))
              (dl_root (rev (firstn j segs)))).
Proof.
  intros NS. induction fuel as [|fuel IH]; intros j Hj Hf; [lia|].
  destruct (Nat.lt_ge_cases j 2) as [Hlt|H2].
  - (* fewer than two segments in view *)
    cbn [parseDLuri_root]. rewrite firstn_join_path.
    destruct j as [|[|j]]; [| |lia].
    + reflexivity.
    + destruct segs as [|s segs]; [simpl in Hj; lia|].
      cbn [firstn]. inversion NS; subst.
      change [s] with ([] ++ [s]). rewrite strrchr_join_path by assumption.
      reflexivity.
  - destruct (firstn_last_two _ j segs H2 Hj) as (k & v & E & Sk).
    assert (Nk : no_slash k /\ no_slash v).
    { assert (I : forall x, In x (firstn j segs) -> no_slash x).
      { intros x Hx. rewrite Forall_forall in NS. apply NS.
        rewrite <- (firstn_skipn j segs). apply in_or_app. now left. }
      split; apply I; rewrite E; apply in_or_app; right; simpl; auto. }
    destruct Nk as [Nk Nv].
    assert (Hsegs : segs = firstn (j - 2) segs ++ k :: v :: skipn j segs)
      by (rewrite <- Sk; symmetry; apply firstn_skipn).
    rewrite E.
    replace (join_path segs)
      with (join_path (firstn (j - 2) segs ++ k :: v :: skipn j segs))
      by (rewrite <- Hsegs; reflexivity).
    rewrite parseDLuri_root_step by assumption.
    rewrite rev_app_distr. cbn [rev app dl_root].
    destruct (resolve_ai k) as [e|]; [|reflexivity].
    rewrite length_rev, length_firstn.
    replace (Nat.min (j - 2) (length segs)) with (j - 2) by lia.
    destruct (isDLpkey (ai e)); [reflexivity|].
    rewrite <- Hsegs. apply IH; lia.
Qed.

End RootSearch.

Lemma pairs_known_app (a b : list (list ascii)) :
  pairs_known a -> pairs_known b -> pairs_known (a ++ b).
Proof.
  revert a. apply (list_pair_ind _ (fun a => pairs_known a -> pairs_known b ->
                                             pairs_known (a ++ b))).
  - intros _ H. exact H.
  - intros x [].
  - intros k v l IH [Hk Hl] Hb. simpl. split; [assumption | now apply IH].
Qed.

(** A root found by [dl_root] is a pair whose key is a DL primary key,
    followed by pairs with known keys only. *)
Lemma dl_root_some (rsegs : list (list ascii)) :
  forall i, dl_root rsegs = Some i ->
  exists k v e a b,
    rev rsegs = a ++ k :: v :: b /\ length a = i
    /\ resolve_ai k = Some e /\ isDLpkey (ai e) = true
    /\ pairs_known (k :: v :: b).
Proof.
  apply (list_pair_ind _ (fun rsegs => forall i, dl_root rsegs = Some i ->
    exists k v e a b,
      rev rsegs = a ++ k :: v :: b /\ length a = i
      /\ resolve_ai k = Some e /\ isDLpkey (ai e) = true
      /\ pairs_known (k :: v :: b))).
  - discriminate.
  - discriminate.
  - intros v k rest IH i H. cbn [dl_root] in H.
    destruct (resolve_ai k) as [e|] eqn:R; [|discriminate].
    destruct (isDLpkey (ai e)) eqn:P.
    + inversion H; subst. exists k, v, e, (rev rest), [].
      cbn [rev]. rewrite <- app_assoc. split; [reflexivity|].
      split; [apply length_rev|]. split; [assumption|]. split; [assumption|].
      simpl. split; [congruence | exact I].
    + destruct (IH i H) as (k' & v' & e' & a & b & E & La & R' & P' & PK).
      exists k', v', e', a, (b ++ [k; v]).
      cbn [rev]. rewrite <- app_assoc, E, <- app_assoc. split; [reflexivity|].
      split; [assumption|]. split; [assumption|]. split; [assumption|].
      change (k' :: v' :: b ++ [k; v]) with ((k' :: v' :: b) ++ [k; v]).
      apply pairs_known_app; [assumption|]. simpl. split; [congruence | exact I].
Qed.

Lemma has_pkey_pair_app (a b : list (list ascii)) (k v : list ascii) (e : aiEntry) :
  resolve_ai k = Some e -> isDLpkey (ai e) = true ->
  has_pkey_pair (a ++ k :: v :: b) = true.
Proof.
  intros R P. induction a as [|x a IH].
  - cbn [app has_pkey_pair]. now rewrite R, P.
  - cbn [app]. destruct (a ++ k :: v :: b) as [|y l] eqn:E.
    + destruct a; discriminate.
    + change (has_pkey_pair (x :: y :: l))
        with (match resolve_ai x with
              | Some e0 => isDLpkey (ai e0) || has_pkey_pair (y :: l)
              | None => has_pkey_pair (y :: l)
              end).
      destruct (resolve_ai x); rewrite IH; [apply orb_true_r | reflexivity].
Qed.

(** Without a key-value pair whose key is a DL primary key there is no root. *)
Lemma dl_root_none (segs : list (list ascii)) :
  has_pkey_pair segs = false -> dl_root (rev segs) = None.
Proof.
  intros H. destruct (dl_root (rev segs)) as [i|] eqn:D; [|reflexivity].
  destruct (dl_root_some _ _ D) as (k & v & e & a & b & E & _ & R & P & _).
  rewrite rev_involutive in E. rewrite E in H.
  rewrite (has_pkey_pair_app a b k v e R P) in H. discriminate.
Qed.

Lemma strchr_some (s : list ascii) (c : ascii) (i : nat) :
  strchr s c = Some i ->
  exists t, skipn i s = c :: t /\ ~ In c (firstn i s) /\ s = firstn i s ++ c :: t.
Proof.
  revert i. induction s as [|a s IH]; intros i H; simpl in H; [discriminate|].
  destruct (Ascii.eqb_spec a c) as [->|Hac].
  - inversion H; subst. exists s. simpl. auto.
  - destruct (strchr s c) as [j|]; [|discriminate]. inversion H; subst.
    destruct (IH j eq_refl) as (t & Sk & N & E). exists t. simpl.
    split; [assumption|]. split; [|now rewrite <- E].
    intros [E'|I]; [congruence | contradiction].
Qed.

Lemma strchr_end_notin (s : list ascii) (c : ascii) :
  ~ In c s -> strchr_end s c = length s.
Proof. intros N. unfold strchr_end. now rewrite strchr_notin. Qed.

Lemma join_path_head (l : list (list ascii)) :
  l = [] /\ join_path l = [] \/ exists t, join_path l = "/"%char :: t.
Proof. destruct l as [|s l]; [left; auto | right; simpl; eauto]. Qed.

Lemma strchr_end_segment (v : list ascii) (l : list (list ascii)) :
  no_slash v -> strchr_end (v ++ join_path l) "/" = length v.
Proof.
  intros N. destruct (join_path_head l) as [[-> ->] | [t ->]].
  - rewrite app_nil_r. now apply strchr_end_notin.
  - unfold strchr_end. now rewrite strchr_app_notin.
Qed.

Section DLLoops.

Variable MAX_DATA : nat.
Variable MAX_AI_LEN : nat.

(** The block that writes one AI and its value leaves the context as it
    is when it succeeds and leaves the extracted AIs as they are when it
    fails; what it writes is appended. *)
Lemma parseDLuri_ai_basic (ctx : gs1_encoder) (e : aiEntry) (msg inp : list ascii)
    (inlen : nat) (ds : list ascii) (b : bool) :
  match parseDLuri_ai MAX_DATA MAX_AI_LEN ctx e msg inp inlen ds b with
  | Done (ctx', ds', b') =>
      ctx' = ctx /\ b' = fnc1req_after e /\ exists w, ds' = ds ++ w
  | GotoFail c => aiData c = aiData ctx
  end.
Proof.
  unfold parseDLuri_ai.
  destruct (length (URIunescape MAX_AI_LEN inp inlen) =? 0); [reflexivity|].
  destruct (if b then writeDataStr MAX_DATA ds (str "#") else Some ds) as [ds1|] eqn:W1;
    [|reflexivity].
  destruct (writeDataStr MAX_DATA ds1 (ai e)) as [ds2|] eqn:W2; [|reflexivity].
  destruct (nwriteDataStr MAX_DATA ds2 _ _) as [ds3|] eqn:W3; [|reflexivity].
  destruct (aiValLengthContentCheck ctx e _ _) as [ok ctx1] eqn:C.
  apply aiValLengthContentCheck_spec in C. destruct C as (A & Ok & _).
  destruct ok; [|exact A].
  destruct (Ok eq_refl) as (-> & _). split; [reflexivity|]. split; [reflexivity|].
  apply writeDataStr_some in W2. apply nwriteDataStr_some in W3. subst ds2 ds3.
  destruct b.
  - apply writeDataStr_some in W1. subst ds1. eexists. rewrite <- !app_assoc. reflexivity.
  - inversion W1; subst. eexists. rewrite <- !app_assoc. reflexivity.
Qed.

Definition loop_result_ok (ctx : gs1_encoder) (ds : list ascii)
    (res : step (gs1_encoder * list ascii * bool)) : Prop :=
  match res with
  | Done (ctx', ds', _) => ctx' = ctx /\ exists w, ds' = ds ++ w
  | GotoFail c => aiData c = aiData ctx
  end.

(** The loop over the pairs of the DL path info meets no failed assertion
    when every key in it is a known AI, as the backward scan has seen to. *)
Lemma parseDLuri_path_total (l : list (list ascii)) :
  pairs_known l -> Forall no_slash l ->
  forall fuel ctx ds b,
    length l < fuel ->
    exists res,
      parseDLuri_path MAX_DATA MAX_AI_LEN fuel ctx (join_path l) ds b = Some res
      /\ loop_result_ok ctx ds res.
Proof.
  revert l.
  apply (list_pair_ind _ (fun l => pairs_known l -> Forall no_slash l ->
    forall fuel ctx ds b, length l < fuel ->
    exists res,
      parseDLuri_path MAX_DATA MAX_AI_LEN fuel ctx (join_path l) ds b = Some res
      /\ loop_result_ok ctx ds res)).
  - intros _ _ fuel ctx ds b Hf. destruct fuel; [simpl in Hf; lia|].
    eexists. split; [reflexivity|]. simpl. split; [reflexivity|].
    exists []. now rewrite app_nil_r.
  - intros x [].
  - intros k v l IH [Hk Hl] NS fuel ctx ds b Hf.
    destruct fuel as [|fuel]; [lia|].
    inversion NS as [|? ? Nk NS']; subst. inversion NS' as [|? ? Nv NS'']; subst.
    cbn [join_path parseDLuri_path deref hd].
    change (is_nul "/") with false. change (negb (Ascii.eqb "/" "/")) with false.
    cbv iota.
    change (skipn 1 ("/"%char :: k ++ "/"%char :: v ++ join_path l))
      with (k ++ "/"%char :: v ++ join_path l).
    rewrite strchr_app_notin by assumption.
    rewrite lookupAIentry_segment.
    destruct (resolve_ai k) as [e|]; [|contradiction].
    replace (skipn (S (length k)) (k ++ "/"%char :: v ++ join_path l))
      with (v ++ join_path l)
      by (replace (S (length k)) with (length k + 1) by lia;
          rewrite skipn_app_plus; reflexivity).
    rewrite strchr_end_segment by assumption.
    pose proof (parseDLuri_ai_basic ctx e
                  (ai_msg "Decoded AI (" e ") from DL path info too long")
                  (v ++ join_path l) (length v) ds b) as B.
    destruct (parseDLuri_ai MAX_DATA MAX_AI_LEN ctx e _ (v ++ join_path l) (length v) ds b)
      as [[[ctx1 ds1] b1]|c].
    + destruct B as (-> & _ & w & ->).
      rewrite skipn_app_length.
      destruct (IH Hl NS'' fuel ctx (ds ++ w) b1) as (res & R & Ok);
        [simpl in Hf; lia|].
      exists res. split; [exact R|].
      destruct res as [[[c' d'] b']|c']; [|exact Ok].
      destruct Ok as (-> & w' & ->). split; [reflexivity|].
      exists (w ++ w'). now rewrite app_assoc.
    + eexists. split; [reflexivity | exact B].
Qed.

Lemma skip_amps_length (p : list ascii) : length (skip_amps p) <= length p.
Proof.
  induction p as [|c p IH]; simpl; [lia|].
  destruct (Ascii.eqb c "&"); simpl; lia.
Qed.

Lemma skip_amps_head (p : list ascii) :
  skip_amps p = [] \/ exists c t, skip_amps p = c :: t /\ c <> "&"%char.
Proof.
  induction p as [|c p IH]; simpl; [left; reflexivity|].
  destruct (Ascii.eqb_spec c "&") as [->|N]; [exact IH|].
  right. exists c, p. auto.
Qed.

Lemma strchr_end_pos (c x : ascii) (t : list ascii) :
  c <> x -> 0 < strchr_end (c :: t) x.
Proof.
  intros N. unfold strchr_end. simpl.
  destruct (Ascii.eqb_spec c x); [contradiction|].
  destruct (strchr t x); simpl; lia.
Qed.

(** The loop over the query parameters ends before its fuel does. *)
Lemma parseDLuri_query_total (fuel : nat) :
  forall ctx p ds b,
    length p < fuel ->
    exists res,
      parseDLuri_query MAX_DATA MAX_AI_LEN fuel ctx p ds b = Some res
      /\ loop_result_ok ctx ds res.
Proof.
  induction fuel as [|fuel IH]; intros ctx p ds b Hf; [lia|].
  cbn [parseDLuri_query].
  destruct (is_nul (deref p)) eqn:Hn.
  { eexists. split; [reflexivity|]. simpl. split; [reflexivity|].
    exists []. now rewrite app_nil_r. }
  assert (Lp : 0 < length p) by (destruct p; [discriminate | simpl; lia]).
  set (p' := skip_amps p).
  set (n := strchr_end p' "&").
  assert (Lr : length (skipn n p') < fuel).
  { rewrite length_skipn. pose proof (skip_amps_length p). fold p' in H.
    destruct (skip_amps_head p) as [E | (c & t & E & N)]; fold p' in E.
    - rewrite E. simpl. lia.
    - assert (0 < n) by (unfold n; rewrite E; now apply strchr_end_pos). lia. }
  destruct (strchr (firstn n p') "=") as [k|]; [|now apply IH].
  destruct (gs1_allDigits p' k).
  - destruct (lookupAIentry p' k) as [e|].
    + pose proof (parseDLuri_ai_basic ctx e
                    (ai_msg "Decoded AI (" e ") value from DL query params too long")
                    (skipn (S k) p') (n - S k) ds b) as B.
      destruct (parseDLuri_ai MAX_DATA MAX_AI_LEN ctx e _ (skipn (S k) p') (n - S k) ds b)
        as [[[ctx1 ds1] b1]|c].
      * destruct B as (-> & _ & w & ->).
        destruct (IH ctx (skipn n p') (ds ++ w) b1 Lr) as (res & R & Ok).
        exists res. split; [exact R|].
        destruct res as [[[c' d'] b']|c']; [|exact Ok].
        destruct Ok as (-> & w' & ->). split; [reflexivity|].
        exists (w ++ w'). now rewrite app_assoc.
      * eexists. split; [reflexivity | exact B].
    + eexists. split; [reflexivity | reflexivity].
  - now apply IH.
Qed.

End DLLoops.

Lemma join_path_length (l : list (list ascii)) : length l <= length (join_path l).
Proof.
  induction l as [|s l IH]; simpl; [lia|]. rewrite length_app. lia.
Qed.

Section ParseDLuri.

Variable MAX_DATA : nat.
Variable MAX_AI_LEN : nat.
Variable MAX_AIS : nat.

(** The search for the root over a path info that starts with "/". *)
Lemma parseDLuri_root_path (pi : list ascii) :
  deref pi = "/"%char ->
  parseDLuri_root (S (length pi)) pi (length pi)
  = Some (option_map (fun i => length (join_path (firstn i (path_segments pi))))
            (dl_root (rev (path_segments pi)))).
Proof.
  intros H. destruct (path_segments_join pi H) as [J NS].
  set (segs := path_segments pi) in *.
  pose proof (parseDLuri_root_segments segs NS (S (length pi)) (length segs)) as R.
  rewrite firstn_all, J in R. apply R; [lia|].
  rewrite <- J. pose proof (join_path_length segs). lia.
Qed.

(** The two ways [gs1_parseDLuri] ends once the path info is known:
    through its [fail] label, or by handing what it wrote to
    [gs1_processAIdata]. *)
Lemma parseDLuri_from_path_shape (ctx : gs1_encoder) (pi : list ascii)
    (qp : option (list ascii)) :
  deref pi = "/"%char ->
  exists res,
    parseDLuri_from_path MAX_DATA MAX_AI_LEN MAX_AIS ctx pi qp = Some res
    /\ ((exists c1, aiData c1 = aiData ctx /\ res = parseDLuri_fail c1)
        \/ (exists ds, res = gs1_processAIdata MAX_AIS ctx ds)).
Proof.
  intros H. unfold parseDLuri_from_path. rewrite (parseDLuri_root_path pi H).
  destruct (path_segments_join pi H) as [J NS].
  set (segs := path_segments pi) in *.
  destruct (dl_root (rev segs)) as [i|] eqn:D; cbn [option_map].
  2:{ eexists. split; [reflexivity|]. left. eexists. split; [|reflexivity]. reflexivity. }
  destruct (dl_root_some _ _ D) as (k & v & e & a & b & E & La & _ & _ & PK).
  rewrite rev_involutive in E.
  assert (Sk : skipn i segs = k :: v :: b)
    by (rewrite E, <- La; apply skipn_app_length).
  replace (skipn (length (join_path (firstn i segs))) pi) with (join_path (k :: v :: b))
    by (rewrite <- Sk, <- skipn_join_path, J; reflexivity).
  assert (NS' : Forall no_slash (k :: v :: b)).
  { rewrite <- Sk. rewrite <- (firstn_skipn i segs) in NS.
    apply Forall_app in NS. tauto. }
  destruct (parseDLuri_path_total MAX_DATA MAX_AI_LEN (k :: v :: b) PK NS'
              (S (length pi)) ctx [] true) as (res & R & Ok).
  { rewrite <- Sk, length_skipn. pose proof (join_path_length segs).
    rewrite J in H0. lia. }
  rewrite R. destruct res as [[[c1 ds1] b1]|c1]; simpl in Ok.
  2:{ eexists. split; [reflexivity|]. left. exists c1. auto. }
  destruct Ok as (-> & _).
  match goal with
  | |- context [parseDLuri_query _ _ (S (length ?q)) _ ?q _ _] =>
      destruct (parseDLuri_query_total MAX_DATA MAX_AI_LEN (S (length q)) ctx q ds1 b1)
        as (res2 & R2 & Ok2); [lia|]
  end.
  cbv zeta. rewrite R2. destruct res2 as [[[c2 ds2] b2]|c2]; simpl in Ok2.
  - destruct Ok2 as (-> & _). eexists. split; [reflexivity|]. right. eauto.
  - eexists. split; [reflexivity|]. left. exists c2. auto.
Qed.

Lemma gs1_parseDLuri_run_shape (ctx : gs1_encoder) (u : list ascii) :
  exists res,
    gs1_parseDLuri_run MAX_DATA MAX_AI_LEN MAX_AIS ctx u = Some res
    /\ ((exists c1, aiData c1 = aiData ctx /\ res = parseDLuri_fail c1)
        \/ (exists ds, res = gs1_processAIdata MAX_AIS ctx ds)).
Proof.
  unfold gs1_parseDLuri_run.
  assert (Fail : forall msg,
             exists res,
               Some (parseDLuri_fail (set_msg (clear_err ctx) msg)) = Some res
               /\ ((exists c1, aiData c1 = aiData ctx /\ res = parseDLuri_fail c1)
                   \/ (exists ds, res = gs1_processAIdata MAX_AIS ctx ds)))
    by (intros msg; eexists; split; [reflexivity|]; left; eexists; split;
        [|reflexivity]; reflexivity).
  assert (From : forall pi qp, deref pi = "/"%char ->
             exists res,
               parseDLuri_from_path MAX_DATA MAX_AI_LEN MAX_AIS (clear_err ctx) pi qp
               = Some res
               /\ ((exists c1, aiData c1 = aiData ctx /\ res = parseDLuri_fail c1)
                   \/ (exists ds, res = gs1_processAIdata MAX_AIS ctx ds))).
  { intros pi qp Hpi.
    destruct (parseDLuri_from_path_shape (clear_err ctx) pi qp Hpi) as (res & R & S).
    exists res. split; [exact R|].
    destruct S as [S | [ds ->]]; [left; exact S|].
    right. exists ds. apply processAIdata_clear_err. }
  destruct (negb _); [apply Fail|].
  match goal with
  | |- context [match ?s with Some _ => _ | None => _ end] => destruct s as [k|]
  end; [|apply Fail].
  destruct (strchr (skipn k (c_str u)) "/") as [n|] eqn:Sl; [|apply Fail].
  destruct (n <? 1); [apply Fail|].
  destruct (strchr_some _ _ _ Sl) as (t & Sk & _ & _).
  destruct (strchr (skipn n (skipn k (c_str u))) "?") as [i|] eqn:Q.
  - apply From. rewrite Sk in Q |- *.
    destruct i as [|i]; [|reflexivity].
    simpl in Q. destruct (strchr t "?"); discriminate.
  - apply From. now rewrite Sk.
Qed.

Lemma parseDLuri_run_total (ctx : gs1_encoder) (u : list ascii) :
  gs1_parseDLuri_run MAX_DATA MAX_AI_LEN MAX_AIS ctx u <> None.
Proof.
  destruct (gs1_parseDLuri_run_shape ctx u) as (res & R & _). congruence.
Qed.

(** The shape of every result of [gs1_parseDLuri]. *)
Lemma gs1_parseDLuri_shape (ctx : gs1_encoder) (u : list ascii) :
  (exists c1, aiData c1 = aiData ctx
              /\ gs1_parseDLuri MAX_DATA MAX_AI_LEN MAX_AIS ctx u = parseDLuri_fail c1)
  \/ (exists ds, gs1_parseDLuri MAX_DATA MAX_AI_LEN MAX_AIS ctx u
                 = gs1_processAIdata MAX_AIS ctx ds).
Proof.
  unfold gs1_parseDLuri.
  destruct (gs1_parseDLuri_run_shape ctx u) as (res & -> & S). exact S.
Qed.

End ParseDLuri.

(* ================================================================= *)
(** ** The extracted AIs across calls, and failure *)

Section Operations.

Variable MAX_DATA : nat.
Variable MAX_AI_LEN : nat.
Variable MAX_AIS : nat.

(** A successful [gs1_processAIdata] appends the AIs of the data string
    to whatever the context held. *)
Lemma processAIdata_appends (ctx : gs1_encoder) (d : list ascii)
    (ctx' : gs1_encoder) (d' : list ascii) :
  gs1_processAIdata MAX_AIS ctx d = (true, ctx', d') ->
  d' = d /\ aiData ctx' = aiData ctx ++ extracted_AIs MAX_AIS d.
Proof.
  intros H. pose proof (gs1_processAIdata_spec MAX_AIS _ _ _ _ _ H) as (-> & _ & _).
  split; [reflexivity|].
  unfold extracted_AIs, gs1_processAIdata in *.
  pose proof (processAIdata_run_total MAX_AIS ctx d) as T.
  destruct (gs1_processAIdata_run MAX_AIS ctx d) as [res|] eqn:R; [|contradiction].
  subst res. unfold gs1_processAIdata_run in *.
  destruct (is_nul (deref (c_str d)) || negb (Ascii.eqb (deref (c_str d)) "#"));
    [discriminate|].
  destruct (is_nul (deref (skipn 1 (c_str d)))); [discriminate|].
  destruct (processAIdata_loop_indep MAX_AIS _ (clear_err ctx) (clear_err fresh_ctx)
              d 1 ctx' d (Nat.le_0_l _) R) as (new & cB & NA & RB & NB & _).
  rewrite RB. simpl in NA, NB |- *. rewrite NA, NB. reflexivity.
Qed.

Lemma parseAIdata_fail_spec (c1 : gs1_encoder) :
  let '(ret, ctx', out) := parseAIdata_fail c1 in
  ret = false /\ errFlag ctx' = true /\ errMsg ctx' <> []
  /\ aiData ctx' = aiData c1 /\ out = [].
Proof.
  unfold parseAIdata_fail. repeat split; try reflexivity.
  simpl. destruct (errMsg c1) as [|a m] eqn:E; simpl; [discriminate|].
  unfold is_nul. destruct (Ascii.eqb a NUL); discriminate.
Qed.

Lemma parseDLuri_fail_spec (c1 : gs1_encoder) :
  let '(ret, ctx', out) := parseDLuri_fail c1 in
  ret = false /\ errFlag ctx' = true /\ errMsg ctx' <> []
  /\ aiData ctx' = aiData c1 /\ out = [].
Proof.
  unfold parseDLuri_fail. repeat split; try reflexivity.
  simpl. destruct (errMsg c1) as [|a m] eqn:E; simpl; [discriminate|].
  unfold is_nul. destruct (Ascii.eqb a NUL); discriminate.
Qed.

(** Every result of a core parse operation is either that of its own
    [fail] label, reached with the extracted AIs untouched, or the result
    of [gs1_processAIdata] on some data string from the same context. *)
Lemma run_op_shape (op : parse_op) (ctx : gs1_encoder) (input : list ascii) :
  (exists c1, aiData c1 = aiData ctx
              /\ (run_op MAX_DATA MAX_AI_LEN MAX_AIS op ctx input = parseAIdata_fail c1
                  \/ run_op MAX_DATA MAX_AI_LEN MAX_AIS op ctx input = parseDLuri_fail c1)
              /\ op <> op_processAIdata)
  \/ (exists d, run_op MAX_DATA MAX_AI_LEN MAX_AIS op ctx input
                = gs1_processAIdata MAX_AIS ctx d).
Proof.
  destruct op; simpl.
  - right. eauto.
  - destruct (gs1_parseAIdata_shape MAX_DATA MAX_AIS ctx input)
      as [(c1 & A & E) | (cs & _ & E)].
    + left. exists c1. split; [assumption|]. split; [now left | discriminate].
    + right. eauto.
  - destruct (gs1_parseDLuri_shape MAX_DATA MAX_AI_LEN MAX_AIS ctx input)
      as [(c1 & A & E) | (d & E)].
    + left. exists c1. split; [assumption|]. split; [now right | discriminate].
    + right. eauto.
Qed.

(** C9.  No core parse operation resets the extracted AIs: whatever the
    outcome, the list the context held is still at the front of the list
    it holds afterwards; a successful call has appended the AIs of the
    data string it produced (or was given); so after two successive
    successful calls the list holds the entries of both, after those it
    held at first. *)
Theorem parse_ops_append_extracted_AIs :
  (forall op ctx input ret ctx' out,
      run_op MAX_DATA MAX_AI_LEN MAX_AIS op ctx input = (ret, ctx', out) ->
      exists new, aiData ctx' = aiData ctx ++ new)
  /\ (forall op ctx input ctx' out,
         run_op MAX_DATA MAX_AI_LEN MAX_AIS op ctx input = (true, ctx', out) ->
         aiData ctx' = aiData ctx ++ extracted_AIs MAX_AIS out)
  /\ (forall op1 op2 ctx in1 in2 ctx1 out1 ctx2 out2,
         run_op MAX_DATA MAX_AI_LEN MAX_AIS op1 ctx in1 = (true, ctx1, out1) ->
         run_op MAX_DATA MAX_AI_LEN MAX_AIS op2 ctx1 in2 = (true, ctx2, out2) ->
         aiData ctx2
         = aiData ctx ++ extracted_AIs MAX_AIS out1 ++ extracted_AIs MAX_AIS out2).
Proof.
  assert (One : forall op ctx input ctx' out,
             run_op MAX_DATA MAX_AI_LEN MAX_AIS op ctx input = (true, ctx', out) ->
             aiData ctx' = aiData ctx ++ extracted_AIs MAX_AIS out).
  { intros op ctx input ctx' out H.
    destruct (run_op_shape op ctx input) as [(c1 & _ & [E|E] & _) | (d & E)];
      rewrite E in H; try discriminate.
    destruct (processAIdata_appends _ _ _ _ H) as [-> A]. exact A. }
  split; [|split].
  - intros op ctx input ret ctx' out H.
    destruct (run_op_shape op ctx input) as [(c1 & A & [E|E] & _) | (d & E)];
      rewrite E in H.
    + inversion H; subst. exists []. simpl. now rewrite app_nil_r.
    + inversion H; subst. exists []. simpl. now rewrite app_nil_r.
    + apply gs1_processAIdata_spec in H. tauto.
  - exact One.
  - intros op1 op2 ctx in1 in2 ctx1 out1 ctx2 out2 H1 H2.
    rewrite (One _ _ _ _ _ H2), (One _ _ _ _ _ H1), <- app_assoc. reflexivity.
Qed.

(** C2, as amended.  When a core parse operation returns false the error
    flag is set and there is a message; the extracted AIs are not emptied:
    the list still starts with the entries it held before the call, and the
    entries appended before the failure stay; the output buffer of
    [gs1_parseAIdata] and [gs1_parseDLuri] is empty when they fail before
    they hand the data string to [gs1_processAIdata]. *)
Theorem parse_ops_failure :
  forall op ctx input ctx' out,
    run_op MAX_DATA MAX_AI_LEN MAX_AIS op ctx input = (false, ctx', out) ->
    errFlag ctx' = true
    /\ errMsg ctx' <> []
    /\ (exists new, aiData ctx' = aiData ctx ++ new)
    /\ (out = [] /\ aiData ctx' = aiData ctx
        \/ gs1_processAIdata MAX_AIS ctx out = (false, ctx', out)).
Proof.
  intros op ctx input ctx' out H.
  destruct (run_op_shape op ctx input) as [(c1 & A & [E|E] & _) | (d & E)];
    rewrite E in H.
  - pose proof (parseAIdata_fail_spec c1) as S. rewrite H in S.
    destruct S as (_ & F & M & A' & ->).
    repeat split; auto; [|left; split; congruence].
    exists []. rewrite app_nil_r. congruence.
  - pose proof (parseDLuri_fail_spec c1) as S. rewrite H in S.
    destruct S as (_ & F & M & A' & ->).
    repeat split; auto; [|left; split; congruence].
    exists []. rewrite app_nil_r. congruence.
  - pose proof (gs1_processAIdata_spec MAX_AIS _ _ _ _ _ H) as (-> & N & Er).
    destruct (Er eq_refl) as [F M]. repeat split; auto.
Qed.

End Operations.

Lemma parse_ops_append_extracted_AIs_witness :
  exists ctx1 ctx2 out1 out2,
    run_op 100 90 64 op_parseAIdata fresh_ctx (str "(10)12345") = (true, ctx1, out1)
    /\ run_op 100 90 64 op_parseDLuri ctx1 (str "https://a/01/02345673") = (true, ctx2, out2)
    /\ aiData ctx2 = aiData fresh_ctx ++ extracted_AIs 64 out1 ++ extracted_AIs 64 out2
    /\ length (aiData ctx2) = 2.
Proof.
  eexists. eexists. eexists. eexists.
  assert (H1 : run_op 100 90 64 op_parseAIdata fresh_ctx (str "(10)12345") = (true, _, _))
    by (vm_compute; reflexivity).
  split; [exact H1|].
  match goal with
  | |- ?A /\ _ => assert (H2 : A) by (vm_compute; reflexivity)
  end.
  split; [exact H2|].
  split; [|reflexivity].
  exact (proj2 (proj2 (parse_ops_append_extracted_AIs 100 90 64)) _ _ _ _ _ _ _ _ _ H1 H2).
Defined.

(** The claim C2 as it stands fails: a check digit error in the second AI
    leaves the data string in the output buffer and the first AI in the list. *)
Lemma parse_failure_not_all_or_nothing :
  exists ctx' out,
    gs1_parseAIdata 100 64 fresh_ctx (str "(10)12345(01)12345678901234")
    = (false, ctx', out)
    /\ out = str "#1012345#0112345678901234"
    /\ length (aiData ctx') = 1.
Proof.
  eexists. eexists. split; [vm_compute; reflexivity|]. split; reflexivity.
Qed.

Lemma parse_ops_failure_witness :
  exists ctx' out,
    run_op 100 90 64 op_parseAIdata fresh_ctx (str "(10)12345(01)12345678901234")
    = (false, ctx', out)
    /\ errFlag ctx' = true
    /\ errMsg ctx' <> []
    /\ (exists new, aiData ctx' = aiData fresh_ctx ++ new)
    /\ (out = [] /\ aiData ctx' = aiData fresh_ctx
        \/ gs1_processAIdata 64 fresh_ctx out = (false, ctx', out)).
Proof.
  eexists. eexists.
  assert (H : run_op 100 90 64 op_parseAIdata fresh_ctx
                (str "(10)12345(01)12345678901234") = (false, _, _))
    by (vm_compute; reflexivity).
  split; [exact H|].
  exact (parse_ops_failure 100 90 64 _ _ _ _ _ H).
Defined.

(* ================================================================= *)
(** ** The root of the DL path info *)

Lemma uri_chars_no_nul (u : list ascii) : uri_chars_only u = true -> no_nul u.
Proof.
  unfold uri_chars_only. intros H. rewrite forallb_forall in H.
  apply Forall_forall. intros c I E. subst c. apply H in I. discriminate.
Qed.

Lemma strspn_all (u set : list ascii) :
  forallb (fun c => mem_char c set) u = true -> strspn u set = length u.
Proof.
  induction u as [|c u IH]; simpl; [reflexivity|].
  intros H. apply andb_true_iff in H. destruct H as [Hc Hu].
  rewrite Hc. f_equal. now apply IH.
Qed.

Lemma scheme_http (x : list ascii) :
  (8 <=? length (str "http://" ++ x)) && strncmp0 (str "http://" ++ x) (str "https://") 8
  = false
  /\ (7 <=? length (str "http://" ++ x)) && strncmp0 (str "http://" ++ x) (str "http://") 7
     = true
  /\ skipn 7 (str "http://" ++ x) = x.
Proof.
  split; [apply andb_false_iff; right; reflexivity|].
  split; reflexivity.
Qed.

Lemma scheme_https (x : list ascii) :
  (8 <=? length (str "https://" ++ x)) && strncmp0 (str "https://" ++ x) (str "https://") 8
  = true
  /\ skipn 8 (str "https://" ++ x) = x.
Proof. split; reflexivity. Qed.

Section RootClaim.

Variable MAX_DATA : nat.
Variable MAX_AI_LEN : nat.
Variable MAX_AIS : nat.

(** What [gs1_parseDLuri] does with a URI made of a scheme, a domain, a
    path info and possibly query parameters. *)
Lemma gs1_parseDLuri_run_uri (ctx : gs1_encoder) (scheme host pi rest : list ascii) :
  scheme = str "http://" \/ scheme = str "https://" ->
  host <> [] -> no_slash host ->
  deref pi = "/"%char -> ~ In "?"%char pi ->
  rest = [] \/ deref rest = "?"%char ->
  uri_chars_only (scheme ++ host ++ pi ++ rest) = true ->
  gs1_parseDLuri_run MAX_DATA MAX_AI_LEN MAX_AIS ctx (scheme ++ host ++ pi ++ rest)
  = parseDLuri_from_path MAX_DATA MAX_AI_LEN MAX_AIS (clear_err ctx) pi
      (match rest with [] => None | _ :: q => Some q end).
Proof.
  intros Hs Hh Nh Hpi Nq Hr Hu.
  unfold gs1_parseDLuri_run.
  rewrite (c_str_id _ (uri_chars_no_nul _ Hu)).
  rewrite (strspn_all _ _ Hu), Nat.eqb_refl. cbn [negb].
  destruct pi as [|c pi']; [discriminate|]. simpl in Hpi. subst c.
  assert (S1 : strchr (host ++ ("/"%char :: pi') ++ rest) "/" = Some (length host))
    by now apply strchr_app_notin.
  assert (S2 : skipn (length host) (host ++ ("/"%char :: pi') ++ rest)
               = ("/"%char :: pi') ++ rest) by apply skipn_app_length.
  assert (S3 : (length host <? 1) = false)
    by (destruct host; [contradiction | reflexivity]).
  assert (Q : match strchr (("/"%char :: pi') ++ rest) "?" with
              | Some i =>
                  parseDLuri_from_path MAX_DATA MAX_AI_LEN MAX_AIS (clear_err ctx)
                    (firstn i (("/"%char :: pi') ++ rest))
                    (Some (skipn (S i) (("/"%char :: pi') ++ rest)))
              | None =>
                  parseDLuri_from_path MAX_DATA MAX_AI_LEN MAX_AIS (clear_err ctx)
                    (("/"%char :: pi') ++ rest) None
              end
              = parseDLuri_from_path MAX_DATA MAX_AI_LEN MAX_AIS (clear_err ctx)
                  ("/"%char :: pi') (match rest with [] => None | _ :: q => Some q end)).
  { destruct Hr as [-> | Hr].
    - rewrite app_nil_r, strchr_notin by assumption. reflexivity.
    - destruct rest as [|c q]; [discriminate|]. simpl in Hr. subst c.
      rewrite strchr_app_notin by assumption.
      rewrite firstn_app_length.
      replace (S (length ("/"%char :: pi'))) with (length ("/"%char :: pi') + 1) by lia.
      rewrite skipn_app_plus. reflexivity. }
  destruct Hs as [-> | ->].
  - destruct (scheme_http (host ++ ("/"%char :: pi') ++ rest)) as (A & B & C).
    rewrite A, B. cbv beta iota zeta. rewrite C, S1, S3, S2. exact Q.
  - destruct (scheme_https (host ++ ("/"%char :: pi') ++ rest)) as (A & C).
    rewrite A. cbv beta iota zeta. rewrite C, S1, S3, S2. exact Q.
Qed.

(** C4, as amended.  [gs1_parseDLuri] locates the DL root by scanning the
    segments of the path info from the right, as [dl_root] does: the last
    segment in view is a value and the one before it is resolved as an AI
    by exact match; the pair is the root when that AI is a DL primary key;
    the pair is peeled off and the scan goes on when it is another known
    AI; the scan stops without a root when the segment is no known AI or
    no pair is left.  When the scan ends without a root, and so for every
    URI whose path info has no key-value pair with a DL primary key, the
    parse fails with "No GS1 DL keys found in path info". *)
Theorem parseDLuri_root_search :
  (forall pi,
      deref pi = "/"%char ->
      parseDLuri_root (S (length pi)) pi (length pi)
      = Some (option_map (fun i => length (join_path (firstn i (path_segments pi))))
                (dl_root (rev (path_segments pi)))))
  /\ (forall ctx scheme host pi rest,
         scheme = str "http://" \/ scheme = str "https://" ->
         host <> [] -> no_slash host ->
         deref pi = "/"%char -> ~ In "?"%char pi ->
         rest = [] \/ deref rest = "?"%char ->
         uri_chars_only (scheme ++ host ++ pi ++ rest) = true ->
         dl_root (rev (path_segments pi)) = None ->
         gs1_parseDLuri MAX_DATA MAX_AI_LEN MAX_AIS ctx (scheme ++ host ++ pi ++ rest)
         = (false,
            set_err (clear_err ctx) (str "No GS1 DL keys found in path info"),
            []))
  /\ (forall segs, has_pkey_pair segs = false -> dl_root (rev segs) = None).
Proof.
  split; [exact parseDLuri_root_path|]. split; [|exact dl_root_none].
  intros ctx scheme host pi rest Hs Hh Nh Hpi Nq Hr Hu D.
  unfold gs1_parseDLuri.
  rewrite (gs1_parseDLuri_run_uri ctx scheme host pi rest Hs Hh Nh Hpi Nq Hr Hu).
  unfold parseDLuri_from_path.
  rewrite (parseDLuri_root_path pi Hpi), D. reflexivity.
Qed.

End RootClaim.

Lemma parseDLuri_root_search_witness :
  gs1_parseDLuri 100 90 64 fresh_ctx (str "https://a/10/ABC/21/XYZ")
  = (false, set_err (clear_err fresh_ctx) (str "No GS1 DL keys found in path info"), []).
Proof.
  apply (proj1 (proj2 (parseDLuri_root_search 100 90 64))
           fresh_ctx (str "https://") (str "a") (str "/10/ABC/21/XYZ") []).
  - right. reflexivity.
  - discriminate.
  - apply existsb_eqb_false. reflexivity.
  - reflexivity.
  - apply existsb_eqb_false. reflexivity.
  - left. reflexivity.
  - reflexivity.
  - apply (proj2 (proj2 (parseDLuri_root_search 100 90 64))). vm_compute. reflexivity.
Defined.

(** The claim C4 as it stands fails: on the path info
    "/01/12312312312333/x/y" the scan stops at the segment "x", which is no
    AI, and finds no root, where a search that keeps peeling finds the pair
    of AI (01). *)
Lemma parseDLuri_root_stops_at_unknown_segment :
  parseDLuri_root 23 (str "/01/12312312312333/x/y") 22 = Some None
  /\ dl_root_keeps_peeling (rev (path_segments (str "/01/12312312312333/x/y"))) = Some 0
  /\ gs1_parseDLuri 100 90 64 fresh_ctx (str "https://a/01/12312312312333/x/y")
     = (false, set_err fresh_ctx (str "No GS1 DL keys found in path info"), []).
Proof. split; [|split]; vm_compute; reflexivity. Qed.

(* ================================================================= *)
(** ** Values longer than the decoding bound *)

(** The block shared by the two loops of [gs1_parseDLuri] reports a decoded
    value as too long only when [URIunescape] returned 0, which for a
    positive bound means that the value was empty. *)
Lemma parseDLuri_ai_too_long_only_if_empty :
  forall MAX_DATA MAX_AI_LEN ctx e post inp inlen ds b c,
    0 < MAX_AI_LEN -> 0 < inlen -> errMsg ctx = [] ->
    parseDLuri_ai MAX_DATA MAX_AI_LEN ctx e (ai_msg "Decoded AI (" e post)
      inp inlen ds b = GotoFail c ->
    firstn 7 (errMsg c) <> str "Decoded".
Proof.
  intros MAX_DATA MAX_AI_LEN ctx e post inp inlen ds b c Hm Hi He H.
  unfold parseDLuri_ai in H.
  destruct (Nat.eqb_spec (length (URIunescape MAX_AI_LEN inp inlen)) 0) as [Z|_].
  { apply length_zero_iff_nil, URIunescape_empty in Z. lia. }
  assert (E0 : firstn 7 (errMsg ctx) <> str "Decoded") by (rewrite He; discriminate).
  destruct (if b then writeDataStr MAX_DATA ds (str "#") else Some ds) as [ds1|];
    [|inversion H; subst; exact E0].
  destruct (writeDataStr MAX_DATA ds1 (ai e)) as [ds2|]; [|inversion H; subst; exact E0].
  destruct (nwriteDataStr MAX_DATA ds2 _ _) as [ds3|]; [|inversion H; subst; exact E0].
  unfold aiValLengthContentCheck in H.
  repeat match type of H with
         | context [if ?x then _ else _] => destruct x
         end; inversion H; subst; discriminate.
Qed.

(** C6.  The code does not meet the claim.  [URIunescape] stops when [out] is full
    and returns the number of bytes written, and the callers take a return
    value of 0 for the value being too long: the message
    Decoded AI (..) too long is issued for an empty value.  A value whose
    decoded form is longer than the bound is cut to the bound: with a bound
    of 90 the 91-byte value of AI (99) below is accepted, in the query
    parameters and in the path info, with its first 90 bytes in the data
    string, and [URIunescape] itself returns 90 bytes of the 91. *)
Theorem parseDLuri_long_value_truncated :
  URIunescape 90 (repeat "A"%char 91) 91 = repeat "A"%char 90
  /\ (exists ctx',
        gs1_parseDLuri 200 90 64 fresh_ctx
          (str "https://a/01/12312312312333?99=" ++ repeat "A"%char 91)
        = (true, ctx', str "#011231231231233399" ++ repeat "A"%char 90)
        /\ errMsg ctx' = [])
  /\ (exists ctx',
        gs1_parseDLuri 200 90 64 fresh_ctx
          (str "https://a/01/12312312312333/99/" ++ repeat "A"%char 91)
        = (true, ctx', str "#011231231231233399" ++ repeat "A"%char 90)
        /\ errMsg ctx' = [])
  /\ gs1_parseDLuri 200 90 64 fresh_ctx (str "https://a/01/12312312312333?99=")
     = (false,
        set_err fresh_ctx (str "Decoded AI (99) value from DL query params too long"),
        []).
Proof.
  split; [vm_compute; reflexivity|].
  split; [eexists; split; vm_compute; reflexivity|].
  split; [eexists; split; vm_compute; reflexivity|].
  vm_compute; reflexivity.
Qed.

(** With room for the whole value the decoder reads all of it whatever
    the room. *)
Lemma URIunescape_from_room (room : nat) :
  forall room' inp inlen i,
    inlen - i <= room -> inlen - i <= room' ->
    URIunescape_from room inp inlen i = URIunescape_from room' inp inlen i.
Proof.
  induction room as [|room IH]; intros room' inp inlen i Hr Hr'.
  - destruct room' as [|room']; [reflexivity|]. simpl.
    destruct (Nat.ltb_spec i inlen); [lia | reflexivity].
  - destruct room' as [|room'].
    + simpl. destruct (Nat.ltb_spec i inlen); [lia | reflexivity].
    + simpl. destruct (Nat.ltb_spec i inlen); [|reflexivity].
      match goal with
      | |- context [if ?c then _ else _] => destruct c
      end; f_equal; apply IH; lia.
Qed.

(** What [gs1_parseDLuri] decodes is the decoded value cut to the bound. *)
Lemma URIunescape_decoded (maxlen : nat) (it : dl_item) :
  URIunescape maxlen (it_inp it) (it_inlen it) = firstn maxlen (dl_decoded it).
Proof.
  unfold dl_decoded, URIunescape.
  destruct (Nat.le_ge_cases maxlen (it_inlen it)) as [H|H].
  - now apply URIunescape_from_firstn.
  - rewrite firstn_all2.
    + apply URIunescape_from_room; lia.
    + pose proof (URIunescape_from_length (it_inlen it) (it_inp it) (it_inlen it) 0). lia.
Qed.

Lemma URIunescape_decoded_short (maxlen : nat) (it : dl_item) :
  length (URIunescape maxlen (it_inp it) (it_inlen it)) < maxlen ->
  URIunescape maxlen (it_inp it) (it_inlen it) = dl_decoded it.
Proof.
  rewrite URIunescape_decoded. intros H. rewrite length_firstn in H.
  apply firstn_all2. lia.
Qed.

(** The table entry of AI (01): a GTIN of 14 digits. *)
Lemma gtin_entry (e : aiEntry) :
  In e ai_table -> strcmp0 (ai e) (str "01") = true ->
  ai e = str "01" /\ ai_minlen e = 14 /\ ai_maxlen e = 14.
Proof.
  intros T.
  assert (H : forallb
                (fun e => implb (strcmp0 (ai e) (str "01"))
                            (if list_eq_dec Ascii.ascii_dec (ai e) (str "01")
                             then (ai_minlen e =? 14) && (ai_maxlen e =? 14)
                             else false))
                ai_table = true) by (vm_compute; reflexivity).
  pose proof (proj1 (forallb_forall _ _) H e T) as He. cbv beta in He.
  intros S01. rewrite S01 in He. cbn [implb] in He.
  destruct (list_eq_dec Ascii.ascii_dec (ai e) (str "01")) as [E|]; [|discriminate].
  apply andb_true_iff in He. destruct He as [A B].
  apply Nat.eqb_eq in A. apply Nat.eqb_eq in B. auto.
Qed.

(** The padding loop moves a value of 8, 12 or 13 bytes to the end of
    the first 14 bytes of [aival] and fills up with zeros before it. *)
Lemma gtin_pad_spec (v : list ascii) :
  length v = 8 \/ length v = 12 \/ length v = 13 ->
  gtin_pad v (length v) = repeat "0"%char (14 - length v) ++ v.
Proof.
  intros H.
  do 14 (destruct v as [|? v]; [simpl in H; try lia; try reflexivity|]).
  simpl in H. lia.
Qed.

Section GTIN.

Variable MAX_DATA : nat.
Variable MAX_AI_LEN : nat.
Hypothesis MAX_AI_LEN_15 : 15 <= MAX_AI_LEN.

Lemma URIunescape_decoded_length (it : dl_item) :
  length (URIunescape MAX_AI_LEN (it_inp it) (it_inlen it))
  = Nat.min MAX_AI_LEN (length (dl_decoded it)).
Proof. rewrite URIunescape_decoded. apply length_firstn. Qed.

(** A value of AI (01) of a length that no GTIN has makes the block jump
    to [fail]: at one of the writes, or at the length check. *)
Lemma parseDLuri_ai_bad (ctx : gs1_encoder) (e : aiEntry) (msg inp : list ascii)
    (inlen : nat) (ds : list ascii) (b : bool) :
  In e ai_table ->
  gtin_bad {| it_entry := e; it_inp := inp; it_inlen := inlen |} ->
  exists c, parseDLuri_ai MAX_DATA MAX_AI_LEN ctx e msg inp inlen ds b = GotoFail c.
Proof.
  intros T [E Bad]. cbn [it_entry] in E.
  assert (S01 : strcmp0 (ai e) (str "01") = true) by (rewrite E; reflexivity).
  destruct (gtin_entry e T S01) as (_ & Mn & Mx).
  pose proof (URIunescape_decoded_length
                {| it_entry := e; it_inp := inp; it_inlen := inlen |}) as L.
  cbn [it_inp it_inlen] in L.
  unfold parseDLuri_ai.
  set (v := URIunescape MAX_AI_LEN inp inlen) in *.
  assert (Bv : gtin_bad_length (length v)) by (unfold gtin_bad_length in *; lia).
  destruct (Nat.eqb_spec (length v) 0) as [|_]; [eexists; reflexivity|].
  assert (P : (length v =? 13) || (length v =? 12) || (length v =? 8) = false).
  { unfold gtin_bad_length in Bv.
    destruct (Nat.eqb_spec (length v) 13); [lia|].
    destruct (Nat.eqb_spec (length v) 12); [lia|].
    destruct (Nat.eqb_spec (length v) 8); [lia|]. reflexivity. }
  rewrite P, andb_false_r.
  destruct (if b then writeDataStr MAX_DATA ds (str "#") else Some ds) as [ds1|];
    [|eexists; reflexivity].
  destruct (writeDataStr MAX_DATA ds1 (ai e)) as [ds2|]; [|eexists; reflexivity].
  destruct (nwriteDataStr MAX_DATA ds2 v (length v)) as [ds3|]; [|eexists; reflexivity].
  unfold aiValLengthContentCheck. rewrite Mn, Mx.
  unfold gtin_bad_length in Bv.
  destruct (Nat.ltb_spec (length v) 14); [eexists; reflexivity|].
  destruct (Nat.ltb_spec 14 (length v)); [eexists; reflexivity|]. lia.
Qed.

(** What the block has appended when it runs to its end. *)
Lemma parseDLuri_ai_written (ctx : gs1_encoder) (e : aiEntry) (msg inp : list ascii)
    (inlen : nat) (ds : list ascii) (b : bool)
    (ctx' : gs1_encoder) (ds' : list ascii) (b' : bool) :
  In e ai_table ->
  parseDLuri_ai MAX_DATA MAX_AI_LEN ctx e msg inp inlen ds b = Done (ctx', ds', b') ->
  exists w,
    ds' = ds ++ w /\ dl_written {| it_entry := e; it_inp := inp; it_inlen := inlen |} w.
Proof.
  intros T H.
  set (it := {| it_entry := e; it_inp := inp; it_inlen := inlen |}).
  pose proof (URIunescape_decoded_length it) as L.
  pose proof (URIunescape_decoded_short MAX_AI_LEN it) as Sh.
  cbn [it it_inp it_inlen] in L, Sh.
  unfold parseDLuri_ai in H.
  set (v := URIunescape MAX_AI_LEN inp inlen) in *.
  destruct (Nat.eqb_spec (length v) 0) as [|_]; [discriminate|].
  set (pad := strcmp0 (ai e) (str "01")
              && ((length v =? 13) || (length v =? 12) || (length v =? 8))) in *.
  destruct (if b then writeDataStr MAX_DATA ds (str "#") else Some ds) as [ds1|] eqn:W1;
    [|discriminate].
  destruct (writeDataStr MAX_DATA ds1 (ai e)) as [ds2|] eqn:W2; [|discriminate].
  destruct (nwriteDataStr MAX_DATA ds2 _ _) as [ds3|] eqn:W3; [|discriminate].
  destruct (aiValLengthContentCheck ctx e _ _) as [ok ctx1] eqn:C.
  destruct ok; [|discriminate]. inversion H; subst ctx1 ds3 b'. clear H.
  apply aiValLengthContentCheck_spec in C. destruct C as (_ & Ok & _).
  destruct (Ok eq_refl) as (_ & Len & _). clear Ok.
  apply writeDataStr_some in W2. apply nwriteDataStr_some in W3.
  assert (W1' : exists sep, (sep = [] \/ sep = str "#") /\ ds1 = ds ++ sep).
  { destruct b.
    - apply writeDataStr_some in W1. exists (str "#"). auto.
    - inversion W1; subst. exists []. rewrite app_nil_r. auto. }
  destruct W1' as (sep & Hsep & ->).
  eexists. split.
  { rewrite W3, W2, <- !app_assoc. reflexivity. }
  exists sep. eexists. split; [exact Hsep|]. split; [reflexivity|].
  intros E NN. cbn [it it_entry] in E.
  assert (S01 : strcmp0 (ai e) (str "01") = true) by (rewrite E; reflexivity).
  destruct (gtin_entry e T S01) as (_ & Mn & Mx).
  rewrite Mn, Mx in Len. cbv zeta.
  destruct pad eqn:P.
  - unfold pad in P. rewrite S01 in P. cbn [andb] in P.
    assert (Lv : length v = 13 \/ length v = 12 \/ length v = 8).
    { destruct (Nat.eqb_spec (length v) 13); [auto|].
      destruct (Nat.eqb_spec (length v) 12); [auto|].
      destruct (Nat.eqb_spec (length v) 8); [auto|]. discriminate. }
    assert (Ev : v = dl_decoded it) by (apply Sh; lia).
    rewrite <- Ev. split; [lia|].
    rewrite gtin_pad_spec by lia.
    assert (NP : no_nul (repeat "0"%char (14 - length v) ++ v)).
    { apply no_nul_app. split; [|rewrite Ev; exact NN].
      apply Forall_forall. intros c Hc. apply repeat_spec in Hc. subst c. discriminate. }
    rewrite (c_str_id _ NP). apply firstn_all2.
    rewrite length_app, repeat_length. lia.
  - assert (Lv : length v = 14) by lia.
    assert (Ev : v = dl_decoded it) by (apply Sh; lia).
    rewrite <- Ev. split; [lia|].
    rewrite Lv. cbn [Nat.sub repeat app].
    rewrite c_str_id by (rewrite Ev; exact NN).
    apply firstn_all2. lia.
Qed.

(** The loop over the pairs of the path info. *)
Lemma parseDLuri_path_trace (fuel : nat) :
  forall ctx p ds b res,
    parseDLuri_path MAX_DATA MAX_AI_LEN fuel ctx p ds b = Some res ->
    dl_trace_ok ds (parseDLuri_path_items fuel p) res.
Proof.
  induction fuel as [|fuel IH]; intros ctx p ds b res H; [discriminate|].
  cbn [parseDLuri_path parseDLuri_path_items] in *.
  assert (Nil : dl_trace_ok ds [] (Done (ctx, ds, b))).
  { split; [intros X; inversion X|].
    exists []. split; [now rewrite app_nil_r | constructor]. }
  destruct (is_nul (deref p)); [inversion H; subst; exact Nil|].
  destruct (negb (Ascii.eqb (deref p) "/")); [discriminate|].
  destruct (strchr (skipn 1 p) "/") as [n|]; [|discriminate].
  destruct (lookupAIentry (skipn 1 p) n) as [e|] eqn:Le; [|discriminate].
  apply lookupAIentry_in_table in Le. destruct Le as [T _].
  set (r := skipn (S n) (skipn 1 p)) in *.
  set (k := strchr_end r "/") in *.
  pose proof (parseDLuri_ai_bad ctx e
                (ai_msg "Decoded AI (" e ") from DL path info too long") r k ds b T) as Bad.
  pose proof (parseDLuri_ai_written ctx e
                (ai_msg "Decoded AI (" e ") from DL path info too long") r k ds b) as Wr.
  destruct (parseDLuri_ai MAX_DATA MAX_AI_LEN ctx e _ r k ds b) as [[[ctx1 ds1] b1]|c].
  - destruct (Wr ctx1 ds1 b1 T eq_refl) as (w & -> & Hw).
    destruct (IH _ _ _ _ _ H) as [Fl Dn]. split.
    + intros X. inversion X as [? ? Hb|? ? Hb]; subst.
      * destruct (Bad Hb) as [c Hc]. discriminate.
      * exact (Fl Hb).
    + destruct res as [[[c' d'] b']|c']; [|exact I].
      destruct Dn as (pieces & -> & F2). exists (w :: pieces). split.
      * cbn [concat]. now rewrite app_assoc.
      * constructor; assumption.
  - inversion H; subst. split; [intros _; eexists; reflexivity | exact I].
Qed.

(** The loop over the query parameters. *)
Lemma parseDLuri_query_trace (fuel : nat) :
  forall ctx p ds b res,
    parseDLuri_query MAX_DATA MAX_AI_LEN fuel ctx p ds b = Some res ->
    dl_trace_ok ds (parseDLuri_query_items fuel p) res.
Proof.
  induction fuel as [|fuel IH]; intros ctx p ds b res H; [discriminate|].
  cbn [parseDLuri_query parseDLuri_query_items] in *.
  assert (Nil : dl_trace_ok ds [] (Done (ctx, ds, b))).
  { split; [intros X; inversion X|].
    exists []. split; [now rewrite app_nil_r | constructor]. }
  destruct (is_nul (deref p)); [inversion H; subst; exact Nil|].
  set (p' := skip_amps p) in *.
  set (n := strchr_end p' "&") in *.
  destruct (strchr (firstn n p') "=") as [k|]; [|exact (IH _ _ _ _ _ H)].
  destruct (gs1_allDigits p' k); [|exact (IH _ _ _ _ _ H)].
  destruct (lookupAIentry p' k) as [e|] eqn:Le.
  2:{ inversion H; subst. split; [intros X; inversion X | exact I]. }
  apply lookupAIentry_in_table in Le. destruct Le as [T _].
  pose proof (parseDLuri_ai_bad ctx e
                (ai_msg "Decoded AI (" e ") value from DL query params too long")
                (skipn (S k) p') (n - S k) ds b T) as Bad.
  pose proof (parseDLuri_ai_written ctx e
                (ai_msg "Decoded AI (" e ") value from DL query params too long")
                (skipn (S k) p') (n - S k) ds b) as Wr.
  destruct (parseDLuri_ai MAX_DATA MAX_AI_LEN ctx e _ (skipn (S k) p') (n - S k) ds b)
    as [[[ctx1 ds1] b1]|c].
  - destruct (Wr ctx1 ds1 b1 T eq_refl) as (w & -> & Hw).
    destruct (IH _ _ _ _ _ H) as [Fl Dn]. split.
    + intros X. inversion X as [? ? Hb|? ? Hb]; subst.
      * destruct (Bad Hb) as [c Hc]. discriminate.
      * exact (Fl Hb).
    + destruct res as [[[c' d'] b']|c']; [|exact I].
      destruct Dn as (pieces & -> & F2). exists (w :: pieces). split.
      * cbn [concat]. now rewrite app_assoc.
      * constructor; assumption.
  - inversion H; subst. split; [intros _; eexists; reflexivity | exact I].
Qed.

End GTIN.

(* ================================================================= *)
(** ** The padding is carried out *)

Lemma not_in_existsb_false (c : ascii) (v : list ascii) :
  ~ In c v -> existsb (Ascii.eqb c) v = false.
Proof.
  intros N. induction v as [|a v IH]; [reflexivity|]. simpl.
  destruct (Ascii.eqb_spec c a) as [->|_]; [exfalso; apply N; now left|].
  apply IH. intros I. apply N. now right.
Qed.

Lemma lookupAIentry_matching (p : list ascii) (n : nat) (e : aiEntry) :
  In e ai_table -> ai_matches p n e = true -> lookupAIentry p n = Some e.
Proof.
  intros I M.
  destruct (lookupAIentry p n) as [e'|] eqn:L.
  - apply lookupAIentry_in_table in L. destruct L as [I' M'].
    f_equal. eapply ai_matches_unique; eassumption.
  - unfold lookupAIentry, lookupAIentry_in in L.
    eapply find_none in L; [|exact I]. congruence.
Qed.

Lemma prefix_ai_matches (p : list ascii) (n : nat) (e : aiEntry) :
  prefix_of (ai e) p -> n = 0 \/ n = length (ai e) -> ai_matches p n e = true.
Proof.
  intros [c ->] Hn. unfold ai_matches.
  destruct Hn as [-> | ->].
  - cbn [Nat.eqb negb andb Nat.ltb Nat.leb]. apply prefix_strncmp0.
  - rewrite Nat.eqb_refl, andb_false_r.
    destruct (0 <? length (ai e)); apply prefix_strncmp0.
Qed.

Lemma strncmp0_eq (n : nat) :
  forall p q, length p < n -> length q < n -> strncmp0 p q n = true -> p = q.
Proof.
  induction n as [|n IH]; intros p q Hp Hq H; [lia|].
  destruct p as [|a p], q as [|b q]; simpl in *; try discriminate; [reflexivity|].
  apply andb_true_iff in H. destruct H as [E H].
  apply ascii_eqb_true in E. subst b. f_equal. apply IH; [lia | lia | assumption].
Qed.

Lemma strcmp0_eq (p q : list ascii) : strcmp0 p q = true -> p = q.
Proof. unfold strcmp0. apply strncmp0_eq; lia. Qed.

(** A value without escapes is decoded to itself, cut to the room. *)
Lemma URIunescape_from_plain (room : nat) :
  forall inp inlen i,
    inlen <= length inp ->
    ~ In "%"%char (firstn (inlen - i) (skipn i inp)) ->
    URIunescape_from room inp inlen i = firstn room (firstn (inlen - i) (skipn i inp)).
Proof.
  induction room as [|room IH]; intros inp inlen i Hl N; [reflexivity|].
  cbn [URIunescape_from].
  destruct (Nat.ltb_spec i inlen) as [Hi|Hi].
  - assert (Sk : skipn i inp = nth i inp NUL :: skipn (S i) inp).
    { rewrite <- (firstn_skipn i inp) at 2.
      assert (Li : length (firstn i inp) = i) by (rewrite length_firstn; lia).
      rewrite app_nth2 by lia. rewrite Li, Nat.sub_diag.
      destruct (skipn i inp) as [|a t] eqn:E.
      - apply (f_equal (@length ascii)) in E. rewrite length_skipn in E. simpl in E. lia.
      - cbn [nth]. f_equal.
        replace (S i) with (1 + i) by lia. rewrite <- skipn_skipn, E. reflexivity. }
    replace (inlen - i) with (S (inlen - (i + 1))) in * by lia.
    rewrite Sk in *. cbn [firstn] in *.
    destruct (Ascii.eqb_spec (nth i inp NUL) "%") as [E|_].
    { exfalso. apply N. left. exact E. }
    rewrite andb_false_r. cbn [andb]. f_equal.
    replace (S i) with (i + 1) in * by lia.
    apply IH; [assumption|]. intros I. apply N. now right.
  - replace (inlen - i) with 0 by lia. reflexivity.
Qed.

Lemma URIunescape_plain (maxlen : nat) (v t : list ascii) :
  ~ In "%"%char v -> length v <= maxlen ->
  URIunescape maxlen (v ++ t) (length v) = v.
Proof.
  intros N L. unfold URIunescape.
  rewrite URIunescape_from_plain.
  - rewrite Nat.sub_0_r. cbn [skipn]. rewrite firstn_app_length. now apply firstn_all2.
  - rewrite length_app. lia.
  - rewrite Nat.sub_0_r. cbn [skipn]. now rewrite firstn_app_length.
Qed.

Section GTINDone.

Variable MAX_DATA : nat.
Variable MAX_AI_LEN : nat.
Variable MAX_AIS : nat.

(** The block on a value that decodes to [v]: when [v] is neither empty
    nor holds a NUL or a "#", when what is to be written for it, [v] or
    the padded GTIN, has a length that the AI allows, and when there is
    room for it, the block writes it and runs to its end. *)
Lemma parseDLuri_ai_done (ctx : gs1_encoder) (e : aiEntry) (msg inp : list ascii)
    (inlen : nat) (ds : list ascii) (b : bool) (v w : list ascii) :
  URIunescape MAX_AI_LEN inp inlen = v ->
  v <> [] -> no_nul v -> ~ In "#"%char v ->
  w = (if strcmp0 (ai e) (str "01")
          && ((length v =? 13) || (length v =? 12) || (length v =? 8))
       then repeat "0"%char (14 - length v) ++ v else v) ->
  ai_minlen e <= length w <= ai_maxlen e ->
  length ds + (if b then 1 else 0) + length (ai e) + length w <= MAX_DATA ->
  parseDLuri_ai MAX_DATA MAX_AI_LEN ctx e msg inp inlen ds b
  = Done (ctx, ds ++ (if b then str "#" else []) ++ ai e ++ w, fnc1req_after e).
Proof.
  intros Ev Hne NN NH Ew Len Room. unfold parseDLuri_ai. rewrite Ev.
  destruct (Nat.eqb_spec (length v) 0) as [Z|_];
    [destruct v; [contradiction | discriminate]|].
  set (pad := strcmp0 (ai e) (str "01")
              && ((length v =? 13) || (length v =? 12) || (length v =? 8))) in *.
  assert (Hw : (if pad then gtin_pad v (length v) else v) = w
               /\ (if pad then 14 else length v) = length w
               /\ no_nul w /\ ~ In "#"%char w).
  { destruct pad eqn:P.
    - unfold pad in P. apply andb_true_iff in P. destruct P as [_ P].
      assert (Lv : length v = 8 \/ length v = 12 \/ length v = 13).
      { destruct (Nat.eqb_spec (length v) 13); [auto|].
        destruct (Nat.eqb_spec (length v) 12); [auto|].
        destruct (Nat.eqb_spec (length v) 8); [auto|]. discriminate. }
      rewrite gtin_pad_spec by assumption. subst w.
      split; [reflexivity|]. split; [rewrite length_app, repeat_length; lia|]. split.
      + apply no_nul_app. split; [|assumption].
        apply Forall_forall. intros c Hc. apply repeat_spec in Hc. subst c. discriminate.
      + intros I. apply in_app_or in I. destruct I as [I|I]; [|contradiction].
        apply repeat_spec in I. discriminate.
    - subst w. auto. }
  destruct Hw as (E1 & E2 & NNw & NHw). rewrite E1, E2.
  assert (W1 : (if b then writeDataStr MAX_DATA ds (str "#") else Some ds)
               = Some (ds ++ (if b then str "#" else []))).
  { destruct b.
    - unfold writeDataStr. destruct (Nat.ltb_spec MAX_DATA (length ds + length (str "#")));
        [simpl in *; lia | reflexivity].
    - now rewrite app_nil_r. }
  rewrite W1.
  assert (L1 : length (ds ++ (if b then str "#" else [])) = length ds + (if b then 1 else 0))
    by (rewrite length_app; destruct b; reflexivity).
  unfold writeDataStr at 1. rewrite L1.
  destruct (Nat.ltb_spec MAX_DATA (length ds + (if b then 1 else 0) + length (ai e))); [lia|].
  unfold nwriteDataStr. rewrite (length_app (ds ++ _) (ai e)), L1.
  destruct (Nat.ltb_spec MAX_DATA (length ds + (if b then 1 else 0) + length (ai e) + length w));
    [lia|].
  unfold aiValLengthContentCheck.
  destruct (Nat.ltb_spec (length w) (ai_minlen e)); [lia|].
  destruct (Nat.ltb_spec (ai_maxlen e) (length w)); [lia|].
  rewrite (c_str_id _ NNw), firstn_all.
  rewrite (not_in_existsb_false _ _ NHw).
  rewrite <- !app_assoc. reflexivity.
Qed.


(** One pair of the path info. *)
Lemma parseDLuri_path_pair (fuel : nat) (ctx : gs1_encoder) (k v : list ascii)
    (l : list (list ascii)) (ds : list ascii) (b : bool) (e : aiEntry) :
  no_slash k -> no_slash v -> resolve_ai k = Some e ->
  parseDLuri_path MAX_DATA MAX_AI_LEN (S fuel) ctx (join_path (k :: v :: l)) ds b
  = match parseDLuri_ai MAX_DATA MAX_AI_LEN ctx e
            (ai_msg "Decoded AI (" e ") from DL path info too long")
            (v ++ join_path l) (length v) ds b with
    | GotoFail c => Some (GotoFail c)
    | Done (c, d, b') => parseDLuri_path MAX_DATA MAX_AI_LEN fuel c (join_path l) d b'
    end.
Proof.
  intros Nk Nv R.
  cbn [join_path parseDLuri_path deref hd].
  change (is_nul "/") with false. change (negb (Ascii.eqb "/" "/")) with false.
  cbv iota.
  change (skipn 1 ("/"%char :: k ++ "/"%char :: v ++ join_path l))
    with (k ++ "/"%char :: v ++ join_path l).
  rewrite strchr_app_notin by assumption.
  rewrite lookupAIentry_segment, R.
  replace (skipn (S (length k)) (k ++ "/"%char :: v ++ join_path l))
    with (v ++ join_path l)
    by (replace (S (length k)) with (length k + 1) by lia;
        rewrite skipn_app_plus; reflexivity).
  rewrite strchr_end_segment by assumption.
  destruct (parseDLuri_ai MAX_DATA MAX_AI_LEN ctx e _ (v ++ join_path l) (length v) ds b)
    as [[[c d] b']|c]; [|reflexivity].
  now rewrite skipn_app_length.
Qed.

Lemma lookupAIentry_key_then (k t : list ascii) :
  k <> [] -> lookupAIentry (k ++ t) (length k) = resolve_ai k.
Proof.
  intros Hk. unfold resolve_ai, lookupAIentry, lookupAIentry_in. apply find_ext_in.
  intros e T. unfold ai_matches.
  assert (Lk : 0 < length k) by (destruct k; [contradiction | simpl; lia]).
  destruct (Nat.eqb_spec (length k) 0); [lia|].
  destruct (Nat.eqb_spec (length k) (length (ai e))); simpl; [|reflexivity].
  destruct (Nat.ltb_spec 0 (length k)); [|lia].
  apply strncmp0_app. lia.
Qed.

Lemma is_digit_not (c x : ascii) : is_digit c = true -> is_digit x = false -> c <> x.
Proof. intros Hc Hx E. subst x. congruence. Qed.

Lemma digits_not_in (v : list ascii) (x : ascii) :
  forallb is_digit v = true -> is_digit x = false -> ~ In x v.
Proof.
  intros D Hx I. rewrite forallb_forall in D. specialize (D x I). congruence.
Qed.

(** One query parameter whose key is an AI. *)
Lemma parseDLuri_query_param (fuel : nat) (ctx : gs1_encoder) (k v t : list ascii)
    (ds : list ascii) (b : bool) (e : aiEntry) :
  k <> [] -> forallb is_digit k = true ->
  ~ In "&"%char v -> t = [] \/ deref t = "&"%char ->
  resolve_ai k = Some e ->
  parseDLuri_query MAX_DATA MAX_AI_LEN (S fuel) ctx (k ++ "="%char :: v ++ t) ds b
  = match parseDLuri_ai MAX_DATA MAX_AI_LEN ctx e
            (ai_msg "Decoded AI (" e ") value from DL query params too long")
            (v ++ t) (length v) ds b with
    | GotoFail c => Some (GotoFail c)
    | Done (c, d, b') => parseDLuri_query MAX_DATA MAX_AI_LEN fuel c t d b'
    end.
Proof.
  intros Hk Dk Nv Ht R.
  destruct k as [|c0 k']; [contradiction|].
  assert (Dc0 : is_digit c0 = true) by (simpl in Dk; apply andb_true_iff in Dk; tauto).
  set (k := c0 :: k') in *.
  set (p := k ++ "="%char :: v ++ t).
  cbn [parseDLuri_query].
  assert (H1 : is_nul (deref p) = false).
  { unfold p, k. cbn [app deref hd]. unfold is_nul.
    destruct (Ascii.eqb_spec c0 NUL) as [E|_]; [|reflexivity].
    subst c0. discriminate. }
  assert (H2 : skip_amps p = p).
  { unfold p, k. cbn [app skip_amps].
    destruct (Ascii.eqb_spec c0 "&") as [E|_]; [|reflexivity].
    subst c0. discriminate. }
  assert (Nkv : ~ In "&"%char (k ++ "="%char :: v)).
  { intros I. apply in_app_or in I. destruct I as [I|[I|I]].
    - revert I. apply digits_not_in; [assumption | reflexivity].
    - discriminate.
    - contradiction. }
  assert (Ep : p = (k ++ "="%char :: v) ++ t)
    by (unfold p; rewrite <- app_assoc; reflexivity).
  assert (H3 : strchr_end p "&" = length (k ++ "="%char :: v)).
  { rewrite Ep, strchr_end_app_notin by assumption.
    destruct t as [|a t']; [unfold strchr_end; simpl; lia|].
    destruct Ht as [Ht | Ht]; [discriminate|]. simpl in Ht. subst a.
    rewrite strchr_end_head. lia. }
  fold p. rewrite H1, H2, H3.
  assert (H4 : firstn (length (k ++ "="%char :: v)) p = k ++ "="%char :: v)
    by (rewrite Ep; apply firstn_app_length).
  assert (H5 : skipn (length (k ++ "="%char :: v)) p = t)
    by (rewrite Ep; apply skipn_app_length).
  rewrite H4, H5.
  rewrite strchr_app_notin by (apply digits_not_in; [assumption | reflexivity]).
  assert (H6 : gs1_allDigits p (length k) = true).
  { unfold gs1_allDigits. change (length k =? 0) with false. cbv iota.
    unfold p. rewrite <- app_assoc. now rewrite firstn_app_length. }
  rewrite H6.
  assert (H7 : lookupAIentry p (length k) = resolve_ai k)
    by (apply lookupAIentry_key_then; discriminate).
  rewrite H7, R.
  assert (H8 : skipn (S (length k)) p = v ++ t).
  { unfold p. replace (S (length k)) with (length k + 1) by lia.
    rewrite skipn_app_plus. reflexivity. }
  assert (H9 : length (k ++ "="%char :: v) - S (length k) = length v)
    by (rewrite length_app; simpl; lia).
  rewrite H8, H9. reflexivity.
Qed.

End GTINDone.

Lemma is_digit_uri_char (c : ascii) :
  is_digit c = true -> mem_char c uriCharacters = true.
Proof.
  destruct c as [[] [] [] [] [] [] [] []]; intros H;
    try reflexivity; vm_compute in H; discriminate H.
Qed.

Lemma digits_uri_chars (v : list ascii) :
  forallb is_digit v = true -> uri_chars_only v = true.
Proof.
  unfold uri_chars_only. intros D. apply forallb_forall. intros c I.
  apply is_digit_uri_char. rewrite forallb_forall in D. now apply D.
Qed.

Lemma uri_chars_only_app (a b : list ascii) :
  uri_chars_only (a ++ b) = uri_chars_only a && uri_chars_only b.
Proof. apply forallb_app. Qed.

(** The zeros in front of a GTIN of a valid length. *)
Lemma gtin_padded (v : list ascii) :
  length v = 8 \/ length v = 12 \/ length v = 13 \/ length v = 14 ->
  (if (length v =? 13) || (length v =? 12) || (length v =? 8)
   then repeat "0"%char (14 - length v) ++ v else v)
  = repeat "0"%char (14 - length v) ++ v
  /\ length (repeat "0"%char (14 - length v) ++ v) = 14.
Proof.
  intros [H|[H|[H|H]]]; rewrite length_app, repeat_length, H; split; reflexivity.
Qed.

Section GTINURI.

Variable MAX_DATA : nat.
Variable MAX_AI_LEN : nat.
Variable MAX_AIS : nat.
Hypothesis MAX_AI_LEN_15 : 15 <= MAX_AI_LEN.

(** A URI whose path info is the one pair of AI (01) with a GTIN of 8, 12,
    13 or 14 digits: the element string handed to [gs1_processAIdata] holds
    the GTIN behind the zeros that fill it to 14 digits. *)
Lemma gs1_parseDLuri_gtin_path (ctx : gs1_encoder) (scheme host v : list ascii) :
  scheme = str "http://" \/ scheme = str "https://" ->
  host <> [] -> no_slash host -> uri_chars_only host = true ->
  forallb is_digit v = true ->
  length v = 8 \/ length v = 12 \/ length v = 13 \/ length v = 14 ->
  17 <= MAX_DATA ->
  gs1_parseDLuri MAX_DATA MAX_AI_LEN MAX_AIS ctx (scheme ++ host ++ str "/01/" ++ v)
  = gs1_processAIdata MAX_AIS ctx (str "#01" ++ repeat "0"%char (14 - length v) ++ v).
Proof.
  intros Hs Hh Nh Uh Dv Lv Room.
  set (e01 := AI "01" NO_FNC1 (part cset_N 14 14 csum) __ __ __ __ "GTIN").
  assert (R01 : resolve_ai (str "01") = Some e01) by (vm_compute; reflexivity).
  assert (Nsv : no_slash v) by (apply digits_not_in; [assumption | reflexivity]).
  assert (Us : uri_chars_only scheme = true) by (destruct Hs as [-> | ->]; reflexivity).
  unfold gs1_parseDLuri.
  replace (scheme ++ host ++ str "/01/" ++ v)
    with (scheme ++ host ++ (str "/01/" ++ v) ++ []) by now rewrite app_nil_r.
  rewrite (gs1_parseDLuri_run_uri MAX_DATA MAX_AI_LEN MAX_AIS ctx scheme host
             (str "/01/" ++ v) []); try assumption; try reflexivity.
  2:{ intros I. apply in_app_or in I. destruct I as [I|I].
      - simpl in I. repeat (destruct I as [I|I]; [discriminate|]). exact I.
      - revert I. apply digits_not_in; [assumption | reflexivity]. }
  2:{ now left. }
  2:{ rewrite !uri_chars_only_app, Us, Uh, (digits_uri_chars v Dv). reflexivity. }
  assert (Epi : str "/01/" ++ v = join_path [str "01"; v])
    by (simpl; now rewrite app_nil_r).
  rewrite Epi.
  assert (NS : Forall no_slash [str "01"; v]).
  { constructor; [|constructor; [assumption | constructor]].
    apply existsb_eqb_false. reflexivity. }
  unfold parseDLuri_from_path.
  pose proof (parseDLuri_root_segments [str "01"; v] NS
                (S (length (join_path [str "01"; v]))) 2) as Rt.
  cbn [firstn] in Rt. rewrite Rt; [| simpl; lia | simpl; lia].
  cbn [rev app dl_root]. rewrite R01.
  change (isDLpkey (ai e01)) with true. cbv iota.
  cbn [option_map length firstn join_path skipn].
  change ("/"%char :: str "01" ++ "/"%char :: v ++ []) with (join_path [str "01"; v]).
  rewrite (parseDLuri_path_pair MAX_DATA MAX_AI_LEN _ (clear_err ctx) (str "01") v []
             [] true e01); [| apply existsb_eqb_false; reflexivity | assumption | assumption].
  destruct (gtin_padded v Lv) as [Pd L14].
  rewrite (parseDLuri_ai_done MAX_DATA MAX_AI_LEN (clear_err ctx) e01 _ (v ++ join_path [])
             (length v) [] true v (repeat "0"%char (14 - length v) ++ v)).
  - cbn [join_path parseDLuri_path].
    change (is_nul (deref [])) with true. cbv iota.
    cbn [length parseDLuri_query]. change (is_nul (deref [])) with true. cbv iota.
    rewrite processAIdata_clear_err. reflexivity.
  - apply URIunescape_plain; [apply digits_not_in; [assumption | reflexivity] | lia].
  - destruct v; [simpl in Lv; lia | discriminate].
  - now apply digits_no_nul.
  - apply digits_not_in; [assumption | reflexivity].
  - change (strcmp0 (ai e01) (str "01")) with true. cbn [andb]. now rewrite Pd.
  - rewrite L14. change (ai_minlen e01) with 14. change (ai_maxlen e01) with 14. lia.
  - rewrite L14. simpl. lia.
Qed.

(** A URI whose path info is one pair of another DL primary key, with
    its value in digits, and whose query has AI (01) with a GTIN of 8, 12,
    13 or 14 digits. *)
Lemma gs1_parseDLuri_gtin_query (ctx : gs1_encoder) (scheme host : list ascii)
    (e0 : aiEntry) (v0 v : list ascii) :
  scheme = str "http://" \/ scheme = str "https://" ->
  host <> [] -> no_slash host -> uri_chars_only host = true ->
  In e0 ai_table -> isDLpkey (ai e0) = true -> ai e0 <> str "01" ->
  forallb is_digit v0 = true ->
  ai_minlen e0 <= length v0 <= ai_maxlen e0 -> length v0 <= MAX_AI_LEN ->
  forallb is_digit v = true ->
  length v = 8 \/ length v = 12 \/ length v = 13 \/ length v = 14 ->
  length (ai e0) + length v0 + 18 <= MAX_DATA ->
  gs1_parseDLuri MAX_DATA MAX_AI_LEN MAX_AIS ctx
    (scheme ++ host ++ str "/" ++ ai e0 ++ str "/" ++ v0 ++ str "?01=" ++ v)
  = gs1_processAIdata MAX_AIS ctx
      (str "#" ++ ai e0 ++ v0 ++ (if fnc1req_after e0 then str "#" else [])
         ++ str "01" ++ repeat "0"%char (14 - length v) ++ v).
Proof.
  intros Hs Hh Nh Uh T0 K0 N01 Dv0 Len0 Lm0 Dv Lv Room.
  set (e01 := AI "01" NO_FNC1 (part cset_N 14 14 csum) __ __ __ __ "GTIN").
  assert (R01 : resolve_ai (str "01") = Some e01) by (vm_compute; reflexivity).
  pose proof (entry_facts_in e0 T0) as F0.
  pose proof (ef_digits e0 F0) as Dk0.
  assert (R0 : resolve_ai (ai e0) = Some e0).
  { unfold resolve_ai. apply lookupAIentry_matching; [assumption|].
    apply prefix_ai_matches; [exists []; now rewrite app_nil_r | now right]. }
  assert (S0 : strcmp0 (ai e0) (str "01") = false).
  { destruct (strcmp0 (ai e0) (str "01")) eqn:E; [|reflexivity].
    apply strcmp0_eq in E. contradiction. }
  assert (Us : uri_chars_only scheme = true) by (destruct Hs as [-> | ->]; reflexivity).
  assert (NS : Forall no_slash [ai e0; v0]).
  { constructor; [|constructor; [|constructor]];
      apply digits_not_in; try assumption; reflexivity. }
  assert (Eu : scheme ++ host ++ str "/" ++ ai e0 ++ str "/" ++ v0 ++ str "?01=" ++ v
               = scheme ++ host ++ join_path [ai e0; v0] ++ str "?01=" ++ v).
  { cbn [join_path str list_ascii_of_string app]. rewrite app_nil_r.
    do 2 f_equal. f_equal. rewrite <- app_assoc. reflexivity. }
  unfold gs1_parseDLuri. rewrite Eu.
  rewrite (gs1_parseDLuri_run_uri MAX_DATA MAX_AI_LEN MAX_AIS ctx scheme host
             (join_path [ai e0; v0]) (str "?01=" ++ v)); try assumption; try reflexivity.
  2:{ cbn [join_path]. rewrite app_nil_r. intros I.
      destruct I as [I|I]; [discriminate|].
      apply in_app_or in I. destruct I as [I|[I|I]]; [|discriminate|].
      - revert I. apply digits_not_in; [assumption | reflexivity].
      - revert I. apply digits_not_in; [assumption | reflexivity]. }
  2:{ now right. }
  2:{ cbn [join_path]. rewrite app_nil_r.
      change ("/"%char :: ai e0 ++ "/"%char :: v0)
        with (str "/" ++ ai e0 ++ str "/" ++ v0).
      rewrite !uri_chars_only_app, Us, Uh, (digits_uri_chars _ Dk0),
        (digits_uri_chars _ Dv0), (digits_uri_chars _ Dv). reflexivity. }
  cbn [str list_ascii_of_string app].
  unfold parseDLuri_from_path.
  pose proof (parseDLuri_root_segments [ai e0; v0] NS
                (S (length (join_path [ai e0; v0]))) 2) as Rt.
  pose proof (join_path_length [ai e0; v0]) as JL. cbn [length] in JL.
  cbn [firstn] in Rt. rewrite Rt; [| simpl; lia | lia].
  cbn [rev app dl_root]. rewrite R0, K0.
  cbn [option_map length firstn skipn].
  cbn [join_path length].
  change ("/"%char :: ai e0 ++ "/"%char :: v0 ++ []) with (join_path [ai e0; v0]).
  rewrite (parseDLuri_path_pair MAX_DATA MAX_AI_LEN _ (clear_err ctx) (ai e0) v0 []
             [] true e0);
    [| apply digits_not_in; [assumption | reflexivity]
     | apply digits_not_in; [assumption | reflexivity] | assumption].
  rewrite (parseDLuri_ai_done MAX_DATA MAX_AI_LEN (clear_err ctx) e0 _ (v0 ++ join_path [])
             (length v0) [] true v0 v0).
  2:{ apply URIunescape_plain; [apply digits_not_in; [assumption | reflexivity] | lia]. }
  2:{ pose proof (ef_min1 e0 F0). destruct v0; [simpl in *; lia | discriminate]. }
  2:{ now apply digits_no_nul. }
  2:{ apply digits_not_in; [assumption | reflexivity]. }
  2:{ now rewrite S0. }
  2:{ assumption. }
  2:{ simpl. lia. }
  cbn [join_path parseDLuri_path].
  change (is_nul (deref [])) with true. cbv iota.
  set (q := "0"%char :: "1"%char :: "="%char :: v).
  assert (Nq : ~ In "#"%char q).
  { unfold q. intros I. repeat (destruct I as [I|I]; [discriminate|]).
    revert I. apply digits_not_in; [assumption | reflexivity]. }
  rewrite (strchr_end_notin q "#" Nq), firstn_all.
  assert (Eq : q = str "01" ++ "="%char :: v ++ []) by (unfold q; simpl; now rewrite app_nil_r).
  rewrite Eq at 2.
  rewrite (parseDLuri_query_param MAX_DATA MAX_AI_LEN _ (clear_err ctx) (str "01") v []
             _ _ e01);
    [| discriminate | reflexivity | apply digits_not_in; [assumption | reflexivity]
     | now left | assumption].
  destruct (gtin_padded v Lv) as [Pd L14].
  rewrite (parseDLuri_ai_done MAX_DATA MAX_AI_LEN (clear_err ctx) e01 _ (v ++ [])
             (length v) _ _ v (repeat "0"%char (14 - length v) ++ v)).
  - unfold q. cbn [length parseDLuri_query].
    change (is_nul (deref [])) with true. cbv iota.
    rewrite processAIdata_clear_err. f_equal.
    cbn [app]. rewrite <- !app_assoc. reflexivity.
  - apply URIunescape_plain; [apply digits_not_in; [assumption | reflexivity] | lia].
  - destruct v; [simpl in Lv; lia | discriminate].
  - now apply digits_no_nul.
  - apply digits_not_in; [assumption | reflexivity].
  - change (strcmp0 (ai e01) (str "01")) with true. cbn [andb]. now rewrite Pd.
  - rewrite L14. change (ai_minlen e01) with 14. change (ai_maxlen e01) with 14. lia.
  - rewrite L14. rewrite !length_app. change (length (ai e01)) with 2.
    destruct (fnc1req_after e0); simpl; lia.
Qed.

End GTINURI.

Section GTINParse.

Variable MAX_DATA : nat.
Variable MAX_AI_LEN : nat.
Variable MAX_AIS : nat.
Hypothesis MAX_AI_LEN_15 : 15 <= MAX_AI_LEN.

(** What is to be shown of a call that returns [ret] with [out] in the
    output buffer, for the items of its URI. *)
Definition gtin_handled (items : list dl_item) (ret : bool) (out : list ascii) : Prop :=
  (Exists gtin_bad items -> ret = false)
  /\ (ret = true ->
      exists pieces, out = concat pieces /\ Forall2 dl_written items pieces).

Lemma gtin_handled_fail (items : list dl_item) (out : list ascii) :
  gtin_handled items false out.
Proof. split; [reflexivity | discriminate]. Qed.

Lemma parseDLuri_from_path_trace (ctx : gs1_encoder) (pi : list ascii)
    (qp : option (list ascii)) (ret : bool) (ctx' : gs1_encoder) (out : list ascii) :
  parseDLuri_from_path MAX_DATA MAX_AI_LEN MAX_AIS ctx pi qp = Some (ret, ctx', out) ->
  gtin_handled (parseDLuri_from_path_items pi qp) ret out.
Proof.
  unfold parseDLuri_from_path, parseDLuri_from_path_items, parseDLuri_fail. intros H.
  destruct (parseDLuri_root (S (length pi)) pi (length pi)) as [[dp|]|];
    [| inversion H; apply gtin_handled_fail | discriminate].
  destruct (parseDLuri_path MAX_DATA MAX_AI_LEN (S (length pi)) ctx (skipn dp pi) [] true)
    as [res1|] eqn:P; [|discriminate].
  apply (parseDLuri_path_trace MAX_DATA MAX_AI_LEN MAX_AI_LEN_15) in P.
  destruct P as [Fl1 Dn1].
  destruct res1 as [[[ctx1 ds1] b1]|c1]; [|inversion H; apply gtin_handled_fail].
  set (q := match qp with
            | Some q => firstn (strchr_end q "#") q
            | None => []
            end) in *.
  destruct (parseDLuri_query MAX_DATA MAX_AI_LEN (S (length q)) ctx1 q ds1 b1)
    as [res2|] eqn:Q; [|discriminate].
  apply (parseDLuri_query_trace MAX_DATA MAX_AI_LEN MAX_AI_LEN_15) in Q.
  destruct Q as [Fl2 Dn2].
  destruct res2 as [[[ctx2 ds2] b2]|c2]; [|inversion H; apply gtin_handled_fail].
  inversion H as [R]. apply gs1_processAIdata_spec in R. destruct R as (-> & _).
  destruct Dn1 as (pieces1 & -> & F1). destruct Dn2 as (pieces2 & -> & F2).
  split.
  - intros X. apply Exists_app in X. destruct X as [X|X].
    + destruct (Fl1 X) as [c Hc]. discriminate.
    + destruct (Fl2 X) as [c Hc]. discriminate.
  - intros _. exists (pieces1 ++ pieces2). split.
    + now rewrite concat_app.
    + now apply Forall2_app.
Qed.

Lemma gs1_parseDLuri_run_trace (ctx : gs1_encoder) (dlData : list ascii)
    (ret : bool) (ctx' : gs1_encoder) (out : list ascii) :
  gs1_parseDLuri_run MAX_DATA MAX_AI_LEN MAX_AIS ctx dlData = Some (ret, ctx', out) ->
  gtin_handled (parseDLuri_items dlData) ret out.
Proof.
  unfold gs1_parseDLuri_run, parseDLuri_items, parseDLuri_fail. intros H.
  destruct (negb (strspn (c_str dlData) uriCharacters =? length (c_str dlData)));
    [inversion H; apply gtin_handled_fail|].
  destruct (if (8 <=? length (c_str dlData)) && strncmp0 (c_str dlData) (str "https://") 8
            then Some 8
            else if (7 <=? length (c_str dlData))
                    && strncmp0 (c_str dlData) (str "http://") 7
                 then Some 7 else None) as [k|];
    [|inversion H; apply gtin_handled_fail].
  destruct (strchr (skipn k (c_str dlData)) "/") as [n|];
    [|inversion H; apply gtin_handled_fail].
  destruct (n <? 1); [inversion H; apply gtin_handled_fail|].
  destruct (strchr (skipn n (skipn k (c_str dlData))) "?") as [i|];
    apply parseDLuri_from_path_trace in H; exact H.
Qed.

(** The block on AI (01) and a GTIN of a valid length. *)
Lemma parseDLuri_ai_gtin_done (ctx : gs1_encoder) (e : aiEntry) (msg inp : list ascii)
    (inlen : nat) (ds : list ascii) (b : bool) :
  let v := dl_decoded {| it_entry := e; it_inp := inp; it_inlen := inlen |} in
  In e ai_table -> ai e = str "01" ->
  no_nul v -> ~ In "#"%char v ->
  length v = 8 \/ length v = 12 \/ length v = 13 \/ length v = 14 ->
  length ds + (if b then 1 else 0) + 16 <= MAX_DATA ->
  parseDLuri_ai MAX_DATA MAX_AI_LEN ctx e msg inp inlen ds b
  = Done (ctx,
          ds ++ (if b then str "#" else []) ++ str "01"
             ++ repeat "0"%char (14 - length v) ++ v,
          false).
Proof.
  intros v T E NN NH Lv Room.
  assert (S01 : strcmp0 (ai e) (str "01") = true) by (rewrite E; reflexivity).
  destruct (gtin_entry e T S01) as (_ & Mn & Mx).
  assert (Ev : URIunescape MAX_AI_LEN inp inlen = v).
  { pose proof (URIunescape_decoded MAX_AI_LEN
                  {| it_entry := e; it_inp := inp; it_inlen := inlen |}) as D.
    cbn [it_inp it_inlen] in D. rewrite D. fold v. apply firstn_all2. lia. }
  destruct (gtin_padded v Lv) as [Pd L14].
  assert (F : fnc1req_after e = false) by (unfold fnc1req_after; rewrite E; reflexivity).
  rewrite (parseDLuri_ai_done MAX_DATA MAX_AI_LEN ctx e msg inp inlen ds b v
             (repeat "0"%char (14 - length v) ++ v)).
  - rewrite F, E. reflexivity.
  - exact Ev.
  - destruct v; [simpl in Lv; lia | discriminate].
  - exact NN.
  - exact NH.
  - rewrite S01. cbn [andb]. now rewrite Pd.
  - rewrite L14, Mn, Mx. lia.
  - rewrite L14, E. simpl. lia.
Qed.

(** C5.  AI (01) in a DL URI, in the path info or in the query parameters.
    (1) For every URI and every AI (01) among the AIs that [gs1_parseDLuri]
    takes from it: when the percent-decoded value has length 9, 10, 11, or
    15 and more, the call returns false; and when the call returns true the
    output element string is made of one piece per AI, in order, each the
    AI behind a separator where one is due and followed by its value, where
    for AI (01) (the value being free of NUL bytes, as digits are) the
    decoded value has length 8, 12, 13 or 14 and the value written is the
    decoded value behind the zeros that fill it up to 14 bytes: none for a
    value of length 14, which is written as it is.
    (2) The padding is carried out: wherever the loops come to AI (01) with
    a decoded value of length 8, 12, 13 or 14 that holds no NUL and no "#",
    and there is room in the output buffer, the block writes the separator
    if one is due, the AI and the value behind the zeros that fill it to 14
    bytes, and goes on with no FNC1 required.
    (3) So a URI whose path info is AI (01) with a GTIN of 8, 12, 13 or 14
    digits is handed to [gs1_processAIdata] as the element string of AI (01)
    and the GTIN filled up with zeros to 14 digits, and (4) so is AI (01)
    in the query parameters behind a path of another DL primary key.
    The bound MAX_AI_LEN of the decoder is taken to be 15 at least. *)
Theorem parseDLuri_gtin_padding :
  (forall ctx dlData ret ctx' out,
      gs1_parseDLuri MAX_DATA MAX_AI_LEN MAX_AIS ctx dlData = (ret, ctx', out) ->
      (Exists (fun it => ai (it_entry it) = str "01"
                         /\ gtin_bad_length (length (dl_decoded it)))
              (parseDLuri_items dlData) -> ret = false)
      /\ (ret = true ->
          exists pieces,
            out = concat pieces
            /\ Forall2
                 (fun it w =>
                    exists sep val,
                      (sep = [] \/ sep = str "#")
                      /\ w = sep ++ ai (it_entry it) ++ val
                      /\ (ai (it_entry it) = str "01" -> no_nul (dl_decoded it) ->
                          let v := dl_decoded it in
                          (length v = 8 \/ length v = 12 \/ length v = 13
                           \/ length v = 14)
                          /\ val = repeat "0"%char (14 - length v) ++ v))
                 (parseDLuri_items dlData) pieces))
  /\ (forall (ctx : gs1_encoder) (e : aiEntry) (msg inp : list ascii) (inlen : nat)
             (ds : list ascii) (b : bool),
         let v := dl_decoded {| it_entry := e; it_inp := inp; it_inlen := inlen |} in
         In e ai_table -> ai e = str "01" ->
         no_nul v -> ~ In "#"%char v ->
         length v = 8 \/ length v = 12 \/ length v = 13 \/ length v = 14 ->
         length ds + (if b then 1 else 0) + 16 <= MAX_DATA ->
         parseDLuri_ai MAX_DATA MAX_AI_LEN ctx e msg inp inlen ds b
         = Done (ctx,
                 ds ++ (if b then str "#" else []) ++ str "01"
                    ++ repeat "0"%char (14 - length v) ++ v,
                 false))
  /\ (forall (ctx : gs1_encoder) (scheme host v : list ascii),
         scheme = str "http://" \/ scheme = str "https://" ->
         host <> [] -> no_slash host -> uri_chars_only host = true ->
         forallb is_digit v = true ->
         length v = 8 \/ length v = 12 \/ length v = 13 \/ length v = 14 ->
         17 <= MAX_DATA ->
         gs1_parseDLuri MAX_DATA MAX_AI_LEN MAX_AIS ctx (scheme ++ host ++ str "/01/" ++ v)
         = gs1_processAIdata MAX_AIS ctx
             (str "#01" ++ repeat "0"%char (14 - length v) ++ v))
  /\ (forall (ctx : gs1_encoder) (scheme host : list ascii) (e0 : aiEntry)
             (v0 v : list ascii),
         scheme = str "http://" \/ scheme = str "https://" ->
         host <> [] -> no_slash host -> uri_chars_only host = true ->
         In e0 ai_table -> isDLpkey (ai e0) = true -> ai e0 <> str "01" ->
         forallb is_digit v0 = true ->
         ai_minlen e0 <= length v0 <= ai_maxlen e0 -> length v0 <= MAX_AI_LEN ->
         forallb is_digit v = true ->
         length v = 8 \/ length v = 12 \/ length v = 13 \/ length v = 14 ->
         length (ai e0) + length v0 + 18 <= MAX_DATA ->
         gs1_parseDLuri MAX_DATA MAX_AI_LEN MAX_AIS ctx
           (scheme ++ host ++ str "/" ++ ai e0 ++ str "/" ++ v0 ++ str "?01=" ++ v)
         = gs1_processAIdata MAX_AIS ctx
             (str "#" ++ ai e0 ++ v0 ++ (if fnc1req_after e0 then str "#" else [])
                ++ str "01" ++ repeat "0"%char (14 - length v) ++ v)).
Proof.
  split; [|split; [|split]].
  - intros ctx dlData ret ctx' out H. unfold gs1_parseDLuri in H.
    destruct (gs1_parseDLuri_run MAX_DATA MAX_AI_LEN MAX_AIS ctx dlData) as [res|] eqn:R.
    + subst res. exact (gs1_parseDLuri_run_trace _ _ _ _ _ R).
    + inversion H; subst. apply gtin_handled_fail.
  - exact parseDLuri_ai_gtin_done.
  - exact (gs1_parseDLuri_gtin_path MAX_DATA MAX_AI_LEN MAX_AIS MAX_AI_LEN_15).
  - exact (gs1_parseDLuri_gtin_query MAX_DATA MAX_AI_LEN MAX_AIS MAX_AI_LEN_15).
Qed.

End GTINParse.

Lemma parseDLuri_gtin_padding_witness :
  (gs1_parseDLuri 200 90 64 fresh_ctx
     (str "https://" ++ str "a" ++ str "/01/" ++ str "416000336108")
   = gs1_processAIdata 64 fresh_ctx
       (str "#01" ++ repeat "0"%char (14 - length (str "416000336108"))
          ++ str "416000336108"))
  /\ (gs1_parseDLuri 200 90 64 fresh_ctx
        (str "https://" ++ str "a" ++ str "/"
           ++ ai (AI "00" NO_FNC1 (part cset_N 18 18 csum) __ __ __ __ "SSCC")
           ++ str "/" ++ str "006141411234567890" ++ str "?01=" ++ str "02345673")
      = gs1_processAIdata 64 fresh_ctx
          (str "#" ++ ai (AI "00" NO_FNC1 (part cset_N 18 18 csum) __ __ __ __ "SSCC")
             ++ str "006141411234567890"
             ++ (if fnc1req_after
                      (AI "00" NO_FNC1 (part cset_N 18 18 csum) __ __ __ __ "SSCC")
                 then str "#" else [])
             ++ str "01" ++ repeat "0"%char (14 - length (str "02345673"))
             ++ str "02345673"))
  /\ (exists ret ctx' out,
        gs1_parseDLuri 200 90 64 fresh_ctx (str "https://a/00/006141411234567890?01=123456789")
        = (ret, ctx', out)
        /\ ret = false).
Proof.
  assert (H15 : 15 <= 90) by lia.
  pose proof (parseDLuri_gtin_padding 200 90 64 H15) as (P1 & _ & P3 & P4).
  split; [|split].
  - apply P3.
    + now right.
    + discriminate.
    + apply existsb_eqb_false. reflexivity.
    + reflexivity.
    + reflexivity.
    + right. left. reflexivity.
    + lia.
  - apply P4.
    + now right.
    + discriminate.
    + apply existsb_eqb_false. reflexivity.
    + reflexivity.
    + assert (L : lookupAIentry (str "00") 2
                  = Some (AI "00" NO_FNC1 (part cset_N 18 18 csum) __ __ __ __ "SSCC"))
        by (vm_compute; reflexivity).
      exact (proj1 (lookupAIentry_in_table _ _ _ L)).
    + reflexivity.
    + discriminate.
    + reflexivity.
    + vm_compute. split; repeat constructor.
    + vm_compute. repeat constructor.
    + reflexivity.
    + left. reflexivity.
    + vm_compute. repeat constructor.
  - eexists. eexists. eexists.
    match goal with
    | |- ?A /\ _ => assert (H : A) by (vm_compute; reflexivity)
    end.
    split; [exact H|].
    apply (proj1 (P1 _ _ _ _ _ H)).
    apply Exists_cons_tl, Exists_cons_hd.
    split; [reflexivity|]. left. reflexivity.
Defined.

(** The values are C strings: a NUL byte decoded from an escape ends the
    value where [strncat] copies it.  Nothing of the 14 bytes of the value
    of AI (01) below reaches the element string, and the digits of the
    next AI are taken for the GTIN. *)
Remark parseDLuri_gtin_value_with_nul :
  exists ctx',
    gs1_parseDLuri 200 90 64 fresh_ctx
      (str "https://a/01/%001234567890123?99=000000000004")
    = (true, ctx', str "#0199000000000004")
    /\ map (fun it => length (dl_decoded it))
         (parseDLuri_items (str "https://a/01/%001234567890123?99=000000000004"))
       = [14; 12].
Proof. eexists. split; vm_compute; reflexivity. Qed.

(* ================================================================= *)
(** * Further properties of the code *)

(** ** The AI table and its lookups *)

(** X1.  Every key of the AI table finds its own entry, whatever data
    follows the key: in prefix mode (length 0), as [gs1_processAIdata]
    looks an AI up at the head of the remaining data, and in exact mode
    with the length of the key, as the ingesters look up a bracketed AI or
    a URI segment. *)
Theorem lookupAIentry_own_key (e : aiEntry) (rest : list ascii) :
  In e ai_table ->
  lookupAIentry (ai e ++ rest) 0 = Some e
  /\ lookupAIentry (ai e ++ rest) (length (ai e)) = Some e.
Proof.
  intros I. split; apply lookupAIentry_matching; try assumption;
    apply prefix_ai_matches; try (exists rest; reflexivity); auto.
Qed.

Lemma lookupAIentry_own_key_witness :
  lookupAIentry (str "8003" ++ str "01234567890128") 0
  = Some (AI "8003" FNC1 (part cset_N 1 1 _l) (part cset_N 13 13 csum)
            (part cset_X 0 16 _l) __ __ "GRAI")
  /\ lookupAIentry (str "8003" ++ str "01234567890128") (length (str "8003"))
     = Some (AI "8003" FNC1 (part cset_N 1 1 _l) (part cset_N 13 13 csum)
               (part cset_X 0 16 _l) __ __ "GRAI").
Proof.
  apply (lookupAIentry_own_key
           (AI "8003" FNC1 (part cset_N 1 1 _l) (part cset_N 13 13 csum)
              (part cset_X 0 16 _l) __ __ "GRAI") (str "01234567890128")).
  assert (L : lookupAIentry (str "8003") 4
               = Some (AI "8003" FNC1 (part cset_N 1 1 _l) (part cset_N 13 13 csum)
                         (part cset_X 0 16 _l) __ __ "GRAI"))
    by (vm_compute; reflexivity).
  exact (proj1 (lookupAIentry_in_table _ _ _ L)).
Defined.

(** X2.  A lookup answers with an entry of the table whose key starts
    the data (and has the length asked for, in exact mode); it answers
    with none only when no key of the table that could be asked for starts
    the data. *)
Theorem lookupAIentry_sound_complete (p : list ascii) (n : nat) :
  (forall e, lookupAIentry p n = Some e ->
             In e ai_table /\ prefix_of (ai e) p /\ (n <> 0 -> length (ai e) = n))
  /\ (lookupAIentry p n = None ->
      forall e, In e ai_table -> prefix_of (ai e) p -> n <> 0 /\ length (ai e) <> n).
Proof.
  split.
  - intros e L. apply lookupAIentry_in_table in L. destruct L as [I M].
    split; [assumption|]. split.
    + eapply ai_matches_prefix; eassumption.
    + intros Hn. eapply ai_matches_length; eassumption.
  - intros L e I P.
    assert (N : ~ (n = 0 \/ n = length (ai e))).
    { intros Hn. rewrite (lookupAIentry_matching p n e I (prefix_ai_matches p n e P Hn)) in L.
      discriminate. }
    split; intros E; apply N; [left | right]; congruence.
Qed.

Lemma lookupAIentry_sound_complete_witness :
  In (AI "01" NO_FNC1 (part cset_N 14 14 csum) __ __ __ __ "GTIN") ai_table
  /\ prefix_of (ai (AI "01" NO_FNC1 (part cset_N 14 14 csum) __ __ __ __ "GTIN"))
       (str "0112345678901231")
  /\ (0 <> 0 ->
      length (ai (AI "01" NO_FNC1 (part cset_N 14 14 csum) __ __ __ __ "GTIN")) = 0).
Proof.
  apply (proj1 (lookupAIentry_sound_complete (str "0112345678901231") 0)).
  vm_compute. reflexivity.
Defined.

(** X3.  Every DL primary key is an AI of the table: the key itself
    resolves, in exact mode, to an entry with that key. *)
Theorem isDLpkey_known_AI (k : list ascii) :
  isDLpkey k = true ->
  exists e, lookupAIentry k (length k) = Some e /\ ai e = k /\ In e ai_table.
Proof.
  intros H. unfold isDLpkey in H. apply existsb_exists in H.
  destruct H as (key & I & E). apply strcmp0_eq in E. subst key.
  assert (A : forallb (fun key => match lookupAIentry key (length key) with
                                  | Some e => if list_eq_dec Ascii.ascii_dec (ai e) key
                                              then true else false
                                  | None => false
                                  end) dl_pkeys = true) by (vm_compute; reflexivity).
  pose proof (proj1 (forallb_forall _ _) A k I) as Hk. cbv beta in Hk.
  destruct (lookupAIentry k (length k)) as [e|] eqn:L; [|discriminate].
  destruct (list_eq_dec Ascii.ascii_dec (ai e) k) as [Ek|]; [|discriminate].
  exists e. split; [reflexivity|]. split; [assumption|].
  exact (proj1 (lookupAIentry_in_table _ _ _ L)).
Qed.

Lemma isDLpkey_known_AI_witness :
  exists e, lookupAIentry (str "414") (length (str "414")) = Some e
            /\ ai e = str "414" /\ In e ai_table.
Proof. apply isDLpkey_known_AI. vm_compute. reflexivity. Defined.

(** X4.  The FNC1 flag of every entry of the table says what the
    ingesters work out from the list of fixed-length prefixes when they
    decide on a separator, and an AI that needs no FNC1 has one length
    only: its shortest and its longest value are equally long. *)
Theorem ai_table_fnc1_fixed_length (e : aiEntry) :
  In e ai_table ->
  fnc1 e = fnc1req_after e
  /\ (fnc1 e = false -> ai_minlen e = ai_maxlen e)
  /\ 1 <= ai_minlen e /\ ai_maxlen e <= 90.
Proof.
  intros I. pose proof (entry_facts_in e I) as F.
  split; [apply (ef_fnc1 e F)|]. split; [apply (ef_fixed e F)|].
  split; [apply (ef_min1 e F) | apply (ef_max90 e F)].
Qed.

Lemma ai_table_fnc1_fixed_length_witness :
  let e := AI "01" NO_FNC1 (part cset_N 14 14 csum) __ __ __ __ "GTIN" in
  fnc1 e = fnc1req_after e
  /\ (fnc1 e = false -> ai_minlen e = ai_maxlen e)
  /\ 1 <= ai_minlen e /\ ai_maxlen e <= 90.
Proof.
  apply ai_table_fnc1_fixed_length.
  assert (L : lookupAIentry (str "01") 2
              = Some (AI "01" NO_FNC1 (part cset_N 14 14 csum) __ __ __ __ "GTIN"))
    by (vm_compute; reflexivity).
  exact (proj1 (lookupAIentry_in_table _ _ _ L)).
Defined.

(** ** Check digits *)

Lemma mod10_check_digit_range (s : list ascii) : (0 <= mod10_check_digit s < 10)%Z.
Proof. unfold mod10_check_digit. apply Z.mod_pos_bound. lia. Qed.

Lemma is_digit_chr (z : Z) : (0 <= z < 10)%Z -> is_digit (chr (z + code "0")) = true.
Proof.
  intros H. unfold is_digit.
  assert (E : nat_of_ascii (chr (z + code "0")) = Z.to_nat (z + 48)).
  { change (code "0") with 48%Z.
    assert (C : code (chr (z + 48)) = (z + 48)%Z) by (apply code_chr; lia).
    unfold code in C. lia. }
  rewrite E. change (nat_of_ascii "0") with 48. change (nat_of_ascii "9") with 57.
  apply negb_true_iff, orb_false_iff. split; apply Nat.ltb_ge; lia.
Qed.

Lemma forallb_app_digits (a b : list ascii) :
  forallb is_digit (a ++ b) = true <->
  forallb is_digit a = true /\ forallb is_digit b = true.
Proof. rewrite forallb_app. apply andb_true_iff. Qed.

Lemma mod10_check_digit_snoc (p : list ascii) (a b : ascii) :
  mod10_check_digit (p ++ [a]) = mod10_check_digit (p ++ [b]).
Proof.
  unfold mod10_check_digit. rewrite !removelast_last, !length_app. reflexivity.
Qed.

(** X5.  [gs1_validateParity] repairs what it rejects: the string it
    leaves behind differs from the one it was given in the last digit at
    most, is a string of digits of the same length, and is accepted when
    it is validated again. *)
Theorem gs1_validateParity_repairs (s : list ascii) :
  s <> [] -> forallb is_digit s = true -> (27 * Z.of_nat (length s) < 2 ^ 31)%Z ->
  let s' := snd (gs1_validateParity s) in
  length s' = length s
  /\ removelast s' = removelast s
  /\ forallb is_digit s' = true
  /\ gs1_validateParity s' = (true, s').
Proof.
  intros Hne Hd Hb. cbv zeta.
  rewrite (gs1_validateParity_digits s Hne Hd Hb).
  pose proof (mod10_check_digit_range s) as Hcd.
  destruct (Z.eqb_spec (mod10_check_digit s + code "0") (code (last s NUL))) as [E|E];
    cbn [snd].
  - split; [reflexivity|]. split; [reflexivity|]. split; [assumption|].
    rewrite (gs1_validateParity_digits s Hne Hd Hb).
    now rewrite (proj2 (Z.eqb_eq _ _) E).
  - destruct (exists_last Hne) as (p & a & ->).
    rewrite removelast_last in *.
    set (c := chr (mod10_check_digit (p ++ [a]) + code "0")).
    assert (Dp : forallb is_digit p = true) by (apply forallb_app_digits in Hd; tauto).
    assert (Dc : is_digit c = true) by (apply is_digit_chr; assumption).
    assert (Cc : code c = (mod10_check_digit (p ++ [a]) + code "0")%Z).
    { unfold c. rewrite code_chr; [reflexivity|]. change (code "0") with 48%Z. lia. }
    clearbody c.
    assert (D' : forallb is_digit (p ++ [c]) = true).
    { apply forallb_app_digits. split; [assumption|]. cbn [forallb]. now rewrite Dc. }
    assert (L' : length (p ++ [c]) = length (p ++ [a])) by (rewrite !length_app; reflexivity).
    split; [assumption|]. split; [apply removelast_last|]. split; [assumption|].
    rewrite gs1_validateParity_digits;
      [| destruct p; discriminate | assumption | rewrite L'; assumption].
    rewrite last_last, (mod10_check_digit_snoc p c a), Cc.
    now rewrite Z.eqb_refl.
Qed.

Lemma gs1_validateParity_repairs_witness :
  let s' := snd (gs1_validateParity (str "24012345678909")) in
  length s' = length (str "24012345678909")
  /\ removelast s' = removelast (str "24012345678909")
  /\ forallb is_digit s' = true
  /\ gs1_validateParity s' = (true, s').
Proof.
  apply gs1_validateParity_repairs.
  - discriminate.
  - reflexivity.
  - simpl. lia.
Defined.

Lemma code_inj (a b : ascii) : code a = code b -> a = b.
Proof. intros H. rewrite <- (chr_code a), <- (chr_code b). now rewrite H. Qed.

(** X6.  The data digits fix the check digit: when a string of digits
    is accepted, the string with another last digit is accepted only if
    that digit is the same. *)
Theorem gs1_validateParity_check_digit_unique (p : list ascii) (a b : ascii) :
  forallb is_digit (p ++ [a]) = true -> forallb is_digit (p ++ [b]) = true ->
  (27 * Z.of_nat (S (length p)) < 2 ^ 31)%Z ->
  fst (gs1_validateParity (p ++ [a])) = true ->
  (fst (gs1_validateParity (p ++ [b])) = true <-> b = a).
Proof.
  intros Da Db Hb Va.
  assert (La : length (p ++ [a]) = S (length p)) by (rewrite length_app; simpl; lia).
  assert (Lb : length (p ++ [b]) = S (length p)) by (rewrite length_app; simpl; lia).
  split; [|intros ->; exact Va]. intros Vb.
  rewrite gs1_validateParity_digits in Va;
    [| destruct p; discriminate | assumption | rewrite La; assumption].
  rewrite gs1_validateParity_digits in Vb;
    [| destruct p; discriminate | assumption | rewrite Lb; assumption].
  rewrite last_last in Va, Vb.
  rewrite (mod10_check_digit_snoc p b a) in Vb.
  destruct (Z.eqb_spec (mod10_check_digit (p ++ [a]) + code "0") (code a)) as [Ea|];
    [|discriminate].
  destruct (Z.eqb_spec (mod10_check_digit (p ++ [a]) + code "0") (code b)) as [Eb|];
    [|discriminate].
  apply code_inj. congruence.
Qed.

Lemma gs1_validateParity_check_digit_unique_witness :
  fst (gs1_validateParity (str "2401234567890" ++ ["9"%char])) = true
  <-> "9"%char = "5"%char.
Proof.
  apply gs1_validateParity_check_digit_unique.
  - reflexivity.
  - reflexivity.
  - simpl. lia.
  - vm_compute. reflexivity.
Defined.

Lemma weighted_sum_app (a t : list ascii) :
  forall w,
    weighted_sum (a ++ t) w
    = (weighted_sum a w
       + weighted_sum t (if Nat.even (length a) then w else 4 - w))%Z.
Proof.
  induction a as [|x a IH]; intros w.
  - simpl. lia.
  - cbn [app weighted_sum length]. rewrite IH, Nat.even_succ, <- Nat.negb_even.
    destruct (Nat.even (length a)); cbn [negb]; [lia|].
    replace (4 - (4 - w))%Z with w by lia. lia.
Qed.

Lemma mod10_complement_inj (x y : Z) :
  (0 <= x < 10)%Z -> (0 <= y < 10)%Z ->
  ((10 - x) mod 10 = (10 - y) mod 10)%Z -> x = y.
Proof.
  intros Hx Hy H.
  assert (F : forall z, (0 <= z < 10)%Z ->
                        ((10 - z) mod 10 = if (z =? 0)%Z then 0 else 10 - z)%Z).
  { intros z Hz. destruct (Z.eqb_spec z 0) as [->|Nz]; [reflexivity|].
    apply Z.mod_small. lia. }
  rewrite (F x Hx), (F y Hy) in H.
  destruct (Z.eqb_spec x 0), (Z.eqb_spec y 0); lia.
Qed.

Lemma weighted_digit_change (s0 wa d d' : Z) :
  (wa = 1 \/ wa = 3)%Z -> (0 <= d <= 9)%Z -> (0 <= d' <= 9)%Z -> d' <> d ->
  ((s0 + wa * d) mod 10 = (s0 + wa * d') mod 10)%Z -> False.
Proof.
  intros Hwa Hd Hd' Ne H.
  assert (Z0 : (((s0 + wa * d) - (s0 + wa * d')) mod 10 = 0)%Z).
  { rewrite Zminus_mod, H, Z.sub_diag. reflexivity. }
  apply Z.mod_divide in Z0; [|discriminate].
  destruct Z0 as [k Hk].
  destruct Hwa; subst wa; lia.
Qed.

(** X7.  The check digit finds every error in one digit: when a string
    of digits is accepted, the string with one of the digits before the
    check digit replaced by another digit is rejected. *)
Theorem gs1_validateParity_detects_substitution (a b : list ascii) (c c' k : ascii) :
  forallb is_digit (a ++ c :: b ++ [k]) = true ->
  is_digit c' = true -> c' <> c ->
  (27 * Z.of_nat (length (a ++ c :: b ++ [k])) < 2 ^ 31)%Z ->
  fst (gs1_validateParity (a ++ c :: b ++ [k])) = true ->
  fst (gs1_validateParity (a ++ c' :: b ++ [k])) = false.
Proof.
  intros D Dc' Ne Hb V.
  assert (Dparts : forallb is_digit a = true /\ is_digit c = true
                   /\ forallb is_digit (b ++ [k]) = true).
  { apply forallb_app_digits in D. destruct D as [Da D]. cbn [forallb] in D.
    apply andb_true_iff in D. tauto. }
  destruct Dparts as (Da & Dc & Dbk).
  assert (D' : forallb is_digit (a ++ c' :: b ++ [k]) = true).
  { apply forallb_app_digits. split; [assumption|]. cbn [forallb]. now rewrite Dc'. }
  assert (L' : length (a ++ c' :: b ++ [k]) = length (a ++ c :: b ++ [k]))
    by (rewrite !length_app; reflexivity).
  assert (R : forall x, removelast (a ++ x :: b ++ [k]) = a ++ x :: b).
  { intros x. change (a ++ x :: b ++ [k]) with (a ++ (x :: b) ++ [k]).
    rewrite app_assoc. apply removelast_last. }
  assert (Lst : forall x, last (a ++ x :: b ++ [k]) NUL = k).
  { intros x. change (a ++ x :: b ++ [k]) with (a ++ (x :: b) ++ [k]).
    rewrite app_assoc. apply last_last. }
  rewrite gs1_validateParity_digits in V;
    [| destruct a; discriminate | assumption | assumption].
  rewrite gs1_validateParity_digits;
    [| destruct a; discriminate | assumption | rewrite L'; assumption].
  rewrite Lst in *.
  destruct (Z.eqb_spec (mod10_check_digit (a ++ c :: b ++ [k]) + code "0") (code k))
    as [E|]; [|discriminate].
  destruct (Z.eqb_spec (mod10_check_digit (a ++ c' :: b ++ [k]) + code "0") (code k))
    as [E'|]; [exfalso | reflexivity].
  unfold mod10_check_digit in E, E'. rewrite L', !R in *.
  set (w := if Nat.even (length (a ++ c :: b ++ [k])) then 3%Z else 1%Z) in *.
  rewrite !weighted_sum_app in E, E'. cbn [weighted_sum] in E, E'.
  set (wa := if Nat.even (length a) then w else (4 - w)%Z) in *.
  assert (Hwa : (wa = 1 \/ wa = 3)%Z).
  { unfold wa, w. destruct (Nat.even (length a)), (Nat.even (length (a ++ c :: b ++ [k])));
      auto. }
  pose proof (is_digit_range c Dc) as Rc. pose proof (is_digit_range c' Dc') as Rc'.
  assert (Nd : digit_of c' <> digit_of c).
  { unfold digit_of. intros Q. apply Ne, code_inj. lia. }
  set (S0 := (weighted_sum a w + weighted_sum b (4 - wa))%Z) in *.
  replace (weighted_sum a w + (wa * digit_of c + weighted_sum b (4 - wa)))%Z
    with (S0 + wa * digit_of c)%Z in E by (unfold S0; ring).
  replace (weighted_sum a w + (wa * digit_of c' + weighted_sum b (4 - wa)))%Z
    with (S0 + wa * digit_of c')%Z in E' by (unfold S0; ring).
  assert (M : ((10 - (S0 + wa * digit_of c) mod 10) mod 10
               = (10 - (S0 + wa * digit_of c') mod 10) mod 10)%Z).
  { apply (proj1 (Z.add_cancel_r _ _ (code "0"))). now rewrite E, E'. }
  apply mod10_complement_inj in M; [| apply Z.mod_pos_bound; reflexivity
                                    | apply Z.mod_pos_bound; reflexivity].
  exact (weighted_digit_change S0 wa (digit_of c) (digit_of c') Hwa Rc Rc' Nd M).
Qed.

Lemma gs1_validateParity_detects_substitution_witness :
  fst (gs1_validateParity (str "2401" ++ "7"%char :: str "34567890" ++ ["5"%char])) = false.
Proof.
  apply (gs1_validateParity_detects_substitution (str "2401") (str "34567890") "2").
  - reflexivity.
  - reflexivity.
  - discriminate.
  - simpl. lia.
  - vm_compute. reflexivity.
Defined.

(** ** Percent decoding *)

Lemma hex_value_spec (c : ascii) :
  match hex_value c with
  | Some n => isxdigit c = true /\ hexval c = n
  | None => isxdigit c = false
  end.
Proof.
  destruct c as [[] [] [] [] [] [] [] []]; vm_compute; auto.
Qed.

Lemma firstn_skipn_cons (inp : list ascii) (inlen i : nat) :
  i < inlen -> inlen <= length inp ->
  firstn (inlen - i) (skipn i inp)
  = nth i inp NUL :: firstn (inlen - (i + 1)) (skipn (i + 1) inp).
Proof.
  intros Hi Hl.
  assert (Sk : skipn i inp = nth i inp NUL :: skipn (S i) inp).
  { rewrite <- (firstn_skipn i inp) at 2.
    assert (Li : length (firstn i inp) = i) by (rewrite length_firstn; lia).
    rewrite app_nth2 by lia. rewrite Li, Nat.sub_diag.
    destruct (skipn i inp) as [|a t] eqn:E.
    - apply (f_equal (@length ascii)) in E. rewrite length_skipn in E. simpl in E. lia.
    - cbn [nth]. f_equal.
      replace (S i) with (1 + i) by lia. rewrite <- skipn_skipn, E. reflexivity. }
  replace (inlen - i) with (S (inlen - (i + 1))) by lia.
  rewrite Sk. cbn [firstn]. replace (S i) with (i + 1) by lia. reflexivity.
Qed.

Lemma size_t_sub_2 (inlen i : nat) :
  2 <= inlen -> (Z.of_nat inlen < 2 ^ 64)%Z ->
  (Z.of_nat i <? size_t_sub inlen 2)%Z = (i + 2 <? inlen).
Proof.
  intros H B. unfold size_t_sub. rewrite Z.mod_small by lia.
  destruct (Z.ltb_spec (Z.of_nat i) (Z.of_nat inlen - Z.of_nat 2)),
           (Nat.ltb_spec (i + 2) inlen); try reflexivity; lia.
Qed.

Lemma percent_decode_cons3 (c h1 h2 : ascii) (t : list ascii) :
  percent_decode (c :: h1 :: h2 :: t)
  = match (if Ascii.eqb c "%" then hex_value h1 else None), hex_value h2 with
    | Some a, Some b => ascii_of_nat (16 * a + b) :: percent_decode t
    | _, _ => c :: percent_decode (h1 :: h2 :: t)
    end.
Proof. reflexivity. Qed.

(** The loop of [URIunescape] from offset [i] on, against the decoding
    of what is left of the [inlen] bytes. *)
Lemma URIunescape_from_spec (room : nat) :
  forall inp inlen i,
    2 <= inlen -> (Z.of_nat inlen < 2 ^ 64)%Z -> inlen <= length inp ->
    URIunescape_from room inp inlen i
    = firstn room (percent_decode (firstn (inlen - i) (skipn i inp))).
Proof.
  induction room as [|room IH]; intros inp inlen i H2 B Hl; [reflexivity|].
  cbn [URIunescape_from].
  destruct (Nat.ltb_spec i inlen) as [Hi|Hi].
  2:{ replace (inlen - i) with 0 by lia. reflexivity. }
  rewrite (size_t_sub_2 inlen i H2 B).
  rewrite (firstn_skipn_cons inp inlen i Hi Hl).
  set (c := nth i inp NUL).
  assert (Else : c :: URIunescape_from room inp inlen (i + 1)
                 = firstn (S room)
                     (c :: percent_decode (firstn (inlen - (i + 1)) (skipn (i + 1) inp)))).
  { cbn [firstn]. f_equal. now apply IH. }
  destruct (Nat.ltb_spec (i + 2) inlen) as [H3|H3].
  - rewrite (firstn_skipn_cons inp inlen (i + 1)) by lia.
    rewrite (firstn_skipn_cons inp inlen (i + 1 + 1)) by lia.
    replace (i + 1 + 1) with (i + 2) by lia.
    replace (i + 2 + 1) with (i + 3) by lia.
    set (h1 := nth (i + 1) inp NUL). set (h2 := nth (i + 2) inp NUL).
    rewrite percent_decode_cons3.
    pose proof (hex_value_spec h1) as X1. pose proof (hex_value_spec h2) as X2.
    assert (Else' : c :: URIunescape_from room inp inlen (i + 1)
                    = firstn (S room)
                        (c :: percent_decode
                                (h1 :: h2 :: firstn (inlen - (i + 3)) (skipn (i + 3) inp)))).
    { rewrite Else. rewrite (firstn_skipn_cons inp inlen (i + 1)) by lia.
      rewrite (firstn_skipn_cons inp inlen (i + 1 + 1)) by lia.
      replace (i + 1 + 1) with (i + 2) by lia.
      replace (i + 2 + 1) with (i + 3) by lia. reflexivity. }
    destruct (Ascii.eqb c "%"); [|exact Else'].
    destruct (hex_value h1) as [a|];
      [destruct X1 as [I1 V1] | rewrite X1; exact Else'].
    rewrite I1.
    destruct (hex_value h2) as [b|];
      [destruct X2 as [I2 V2] | rewrite X2; exact Else'].
    rewrite I2, V1, V2. cbn [andb firstn]. f_equal. now apply IH.
  - rewrite !andb_false_l.
    assert (Short : percent_decode (c :: firstn (inlen - (i + 1)) (skipn (i + 1) inp))
                    = c :: percent_decode (firstn (inlen - (i + 1)) (skipn (i + 1) inp))).
    { assert (Hm : inlen - (i + 1) = 0 \/ inlen - (i + 1) = 1) by lia.
      destruct Hm as [-> | Hm].
      - reflexivity.
      - rewrite Hm. destruct (skipn (i + 1) inp) as [|x [|y t]]; reflexivity. }
    rewrite Short. exact Else.
Qed.

(** X8.  [URIunescape] decodes as the specification words it: for an
    input of [inlen] bytes, [inlen] a [size_t] other than 1, what it writes
    is the percent decoding of those bytes, cut to [maxlen] bytes.  (For a
    length of 1 the test [i < inlen - 2] wraps around.) *)
Theorem URIunescape_percent_decode (maxlen : nat) (inp : list ascii) (inlen : nat) :
  inlen <> 1 -> (Z.of_nat inlen < 2 ^ 64)%Z -> inlen <= length inp ->
  URIunescape maxlen inp inlen = firstn maxlen (percent_decode (firstn inlen inp)).
Proof.
  intros N1 B Hl. unfold URIunescape.
  destruct inlen as [|[|n]]; [|contradiction|].
  - destruct maxlen; reflexivity.
  - rewrite URIunescape_from_spec; [|lia|assumption|assumption].
    rewrite Nat.sub_0_r. reflexivity.
Qed.

Lemma URIunescape_percent_decode_witness :
  URIunescape 90 (str "AB%2fC%4/x") 7 = firstn 90 (percent_decode (firstn 7 (str "AB%2fC%4/x"))).
Proof.
  apply URIunescape_percent_decode.
  - discriminate.
  - simpl. lia.
  - simpl. lia.
Defined.

Lemma URIunescape_from_le_input (room : nat) :
  forall inp inlen i, length (URIunescape_from room inp inlen i) <= inlen - i.
Proof.
  induction room as [|room IH]; intros inp inlen i; [simpl; lia|].
  cbn [URIunescape_from].
  destruct (Nat.ltb_spec i inlen) as [Hi|Hi]; [|simpl; lia].
  match goal with
  | |- context [if ?c then _ else _] => destruct c
  end; cbn [length].
  - specialize (IH inp inlen (i + 3)). lia.
  - specialize (IH inp inlen (i + 1)). lia.
Qed.

(** X9.  [URIunescape] writes no more than [maxlen] bytes and no more
    than it was given, and it writes nothing only when it was given nothing
    or has no room: a return value of 0 never stands for an input that was
    too long. *)
Theorem URIunescape_bounds (maxlen : nat) (inp : list ascii) (inlen : nat) :
  length (URIunescape maxlen inp inlen) <= maxlen
  /\ length (URIunescape maxlen inp inlen) <= inlen
  /\ (length (URIunescape maxlen inp inlen) = 0 <-> maxlen = 0 \/ inlen = 0).
Proof.
  split; [apply URIunescape_length|]. split.
  - pose proof (URIunescape_from_le_input maxlen inp inlen 0) as H.
    unfold URIunescape. lia.
  - rewrite length_zero_iff_nil. apply URIunescape_empty.
Qed.

Lemma percent_escape_decode (c : ascii) (rest : list ascii) :
  percent_decode (percent_escape c ++ rest) = c :: percent_decode rest.
Proof.
  assert (H : exists a b,
             percent_escape c = ["%"%char; a; b]
             /\ hex_value a = Some (nat_of_ascii c / 16)
             /\ hex_value b = Some (nat_of_ascii c mod 16)).
  { destruct c as [[] [] [] [] [] [] [] []];
      eexists; eexists; (split; [reflexivity | split; vm_compute; reflexivity]). }
  destruct H as (a & b & E & Ha & Hb).
  rewrite E. cbn [app]. rewrite percent_decode_cons3.
  change (Ascii.eqb "%" "%") with true. cbv iota. rewrite Ha, Hb. f_equal.
  rewrite <- (ascii_nat_embedding c) at 3. f_equal.
  pose proof (Nat.div_mod (nat_of_ascii c) 16). lia.
Qed.

Lemma percent_encode_decode (s : list ascii) :
  percent_decode (percent_encode s) = s.
Proof.
  induction s as [|c s IH]; [reflexivity|].
  unfold percent_encode. cbn [flat_map]. fold (percent_encode s).
  rewrite percent_escape_decode. now rewrite IH.
Qed.

Lemma percent_encode_length (s : list ascii) :
  length (percent_encode s) = 3 * length s.
Proof.
  induction s as [|c s IH]; [reflexivity|].
  unfold percent_encode in *. cbn [flat_map]. rewrite length_app, IH. simpl. lia.
Qed.

(** X10.  Every string of bytes, whatever the bytes, comes back from its
    percent encoding: [URIunescape] on the escapes of the bytes of [s],
    with whatever follows them in the buffer, writes [s], cut to [maxlen]
    bytes. *)
Theorem URIunescape_percent_encode (maxlen : nat) (s t : list ascii) :
  (3 * Z.of_nat (length s) < 2 ^ 64)%Z ->
  URIunescape maxlen (percent_encode s ++ t) (3 * length s) = firstn maxlen s.
Proof.
  intros B.
  destruct s as [|c s].
  - unfold URIunescape. destruct maxlen; reflexivity.
  - unfold URIunescape. rewrite URIunescape_from_spec.
    + rewrite Nat.sub_0_r. cbn [skipn].
      rewrite <- percent_encode_length, firstn_app_length.
      now rewrite percent_encode_decode.
    + simpl. lia.
    + lia.
    + rewrite length_app, percent_encode_length. lia.
Qed.

Lemma URIunescape_percent_encode_witness :
  URIunescape 90 (percent_encode [NUL; "/"%char; "A"%char] ++ str "/10/ABC")
    (3 * length [NUL; "/"%char; "A"%char])
  = firstn 90 [NUL; "/"%char; "A"%char].
Proof. apply URIunescape_percent_encode. simpl. lia. Defined.

(** X11.  A value without a "%" passes through as it is, cut to
    [maxlen] bytes, and what is decoded with less room is the beginning of
    what is decoded with more. *)
Theorem URIunescape_plain_and_prefix :
  (forall maxlen v t,
      ~ In "%"%char v -> URIunescape maxlen (v ++ t) (length v) = firstn maxlen v)
  /\ (forall m m' inp inlen,
         m <= m' ->
         URIunescape m inp inlen = firstn m (URIunescape m' inp inlen)).
Proof.
  split.
  - intros maxlen v t N. unfold URIunescape.
    rewrite URIunescape_from_plain.
    + rewrite Nat.sub_0_r. cbn [skipn]. now rewrite firstn_app_length.
    + rewrite length_app. lia.
    + rewrite Nat.sub_0_r. cbn [skipn]. now rewrite firstn_app_length.
  - intros m m' inp inlen H. now apply URIunescape_from_firstn.
Qed.

Lemma URIunescape_plain_and_prefix_witness :
  URIunescape 5 (str "12312312312333" ++ str "/10/ABC") (length (str "12312312312333"))
  = firstn 5 (str "12312312312333")
  /\ URIunescape 2 (str "A%42CD") 6 = firstn 2 (URIunescape 90 (str "A%42CD") 6).
Proof.
  split.
  - apply (proj1 URIunescape_plain_and_prefix). apply existsb_eqb_false. reflexivity.
  - apply (proj2 URIunescape_plain_and_prefix). lia.
Defined.

(** ** [gs1_processAIdata]: what it extracts and what it leaves *)

Lemma strchr_end_firstn_notin (s : list ascii) (c : ascii) :
  ~ In c (firstn (strchr_end s c) s).
Proof.
  unfold strchr_end. destruct (strchr s c) as [i|] eqn:E.
  - apply strchr_some in E. destruct E as (t & _ & N & _). exact N.
  - rewrite firstn_all. revert E. induction s as [|a s IH]; intros E I; [contradiction|].
    simpl in E. destruct (Ascii.eqb_spec a c) as [->|Hac]; [discriminate|].
    destruct (strchr s c); [discriminate|].
    destruct I as [I|I]; [contradiction|]. now apply IH.
Qed.

Lemma firstn_notin_le (A : Type) (x : A) (n k : nat) (s : list A) :
  n <= k -> ~ In x (firstn k s) -> ~ In x (firstn n s).
Proof.
  intros Hle N I. apply N.
  replace n with (Nat.min n k) in I by lia.
  rewrite <- firstn_firstn in I.
  rewrite <- (firstn_skipn n (firstn k s)). apply in_or_app. now left.
Qed.

Section ProcessInvariant.

Variable MAX_AIS : nat.

(** What the loop of [gs1_processAIdata] keeps. *)
Lemma processAIdata_loop_inv (fuel : nat) :
  forall ctx d p ret ctx' d',
    processAIdata_loop MAX_AIS fuel ctx d p = Some (ret, ctx', d') ->
    exists new,
      aiData ctx' = aiData ctx ++ new
      /\ Forall (ai_value_ok d) new
      /\ numAIs ctx' <= Nat.max (numAIs ctx) MAX_AIS
      /\ (ret = true -> errFlag ctx' = errFlag ctx /\ errMsg ctx' = errMsg ctx).
Proof.
  induction fuel as [|fuel IH]; intros ctx d p ret ctx' d' H; simpl in H; [discriminate|].
  assert (Nil : forall c : gs1_encoder,
             aiData c = aiData ctx ->
             exists new, aiData c = aiData ctx ++ new /\ Forall (ai_value_ok d) new
                         /\ numAIs c <= Nat.max (numAIs ctx) MAX_AIS).
  { intros c E. exists []. rewrite app_nil_r. split; [assumption|].
    split; [constructor|]. unfold numAIs. rewrite E. lia. }
  destruct (is_nul (deref (skipn p (c_str d)))).
  { injection H as Q1 Q2 Q3; subst ret ctx' d'. destruct (Nil ctx eq_refl) as (new & A & B & C).
    exists new. auto. }
  destruct (lookupAIentry (skipn p (c_str d)) 0) as [e|] eqn:L.
  2:{ injection H as Q1 Q2 Q3; subst ret ctx' d'.
      destruct (Nil (set_err ctx (str "Unrecognised AI: " ++ firstn 4 (skipn p (c_str d))))
                  eq_refl) as (new & A & B & C).
      exists new. repeat split; try assumption; discriminate. }
  apply lookupAIentry_in_table in L. destruct L as [T M].
  pose proof (ai_matches_prefix _ _ _ M) as [rest Hrest].
  set (p1 := p + length (ai e)) in *.
  set (k := strchr_end (skipn p1 (c_str d)) "#") in *.
  assert (Hr : p1 <= p1 + k) by lia.
  destruct (validate_ai_val ctx e p1 (p1 + k) d) as [[n ctx1] d1] eqn:V.
  destruct (validate_ai_val_spec _ _ _ _ _ _ _ _ V) as (-> & Sn & Z & _).
  destruct (Nat.eqb_spec n 0) as [->|Hn].
  { injection H as Q1 Q2 Q3; subst ret ctx' d'. destruct (Z eq_refl T Hr) as (E1 & E2 & E3).
    destruct (Nil ctx1 E3) as (new & A & B & C).
    exists new. repeat split; try assumption; discriminate. }
  destruct (Sn Hn) as [-> En].
  replace (p1 + k - p1) with k in En by lia.
  destruct (Nat.ltb_spec (numAIs ctx) MAX_AIS) as [Room|Full].
  2:{ injection H as Q1 Q2 Q3; subst ret ctx' d'.
      destruct (Nil (set_err ctx (str "Too many AIs")) eq_refl) as (new & A & B & C).
      exists new. repeat split; try assumption; discriminate. }
  (* the entry that is added *)
  pose proof (entry_facts_in e T) as F.
  assert (Lp : length (skipn p (c_str d)) = length (ai e) + length rest)
    by (rewrite Hrest, length_app; reflexivity).
  rewrite length_skipn in Lp.
  assert (Sk1 : skipn p1 (c_str d) = rest).
  { unfold p1. rewrite Nat.add_comm, <- skipn_skipn, Hrest. apply skipn_app_length. }
  assert (Hk : k <= length rest) by (unfold k; rewrite Sk1; apply strchr_end_le).
  assert (Hnk : n <= k) by (rewrite En; apply parts_take_le).
  assert (Hn90 : n <= ai_maxlen e).
  { rewrite En, parts_take_min, (ef_max e F). lia. }
  pose proof (ef_max90 e F) as H90.
  assert (Hmod : n mod 256 = n) by (apply Nat.mod_small; lia).
  set (x := {| aiEntry_ := e; value := p1; vallen := n mod 256 |}) in *.
  assert (Ok : ai_value_ok d x).
  { unfold ai_value_ok, x. cbn [aiEntry_ value vallen]. rewrite Hmod.
    split; [assumption|]. split; [unfold p1; lia|]. split.
    - replace (p1 - length (ai e)) with p by (unfold p1; lia).
      rewrite Hrest. apply firstn_app_length.
    - split; [lia|]. split; [unfold p1; lia|].
      apply (firstn_notin_le _ _ n k); [assumption|].
      unfold k. apply strchr_end_firstn_notin. }
  assert (Add : forall c new,
             aiData c = aiData (add_ai ctx x) ++ new ->
             Forall (ai_value_ok d) new ->
             numAIs c <= Nat.max (numAIs (add_ai ctx x)) MAX_AIS ->
             exists new', aiData c = aiData ctx ++ new'
                          /\ Forall (ai_value_ok d) new'
                          /\ numAIs c <= Nat.max (numAIs ctx) MAX_AIS).
  { intros c new A B C. exists (x :: new).
    rewrite A, add_ai_aiData, <- app_assoc. split; [reflexivity|].
    split; [constructor; assumption|].
    unfold numAIs in *. rewrite add_ai_aiData, length_app in C. simpl in C. lia. }
  match type of H with
  | (if ?c then _ else _) = _ => destruct c
  end.
  { injection H as Q1 Q2 Q3; subst ret ctx' d'.
    destruct (Add (set_err (add_ai ctx x) (ai_msg "AI (" e ") data is too long")) [])
      as (new' & A' & B' & C').
    - cbn [set_err aiData]. now rewrite app_nil_r.
    - constructor.
    - unfold numAIs. cbn [set_err aiData]. lia.
    - exists new'. repeat split; try assumption; discriminate. }
  apply IH in H. destruct H as (new & A & B & C & E).
  destruct (Add ctx' new A B C) as (new' & A' & B' & C').
  exists new'. repeat split; try assumption; apply E; assumption.
Qed.

Lemma gs1_processAIdata_inv (ctx : gs1_encoder) (d : list ascii)
    (ret : bool) (ctx' : gs1_encoder) (d' : list ascii) :
  gs1_processAIdata MAX_AIS ctx d = (ret, ctx', d') ->
  exists new,
    aiData ctx' = aiData ctx ++ new
    /\ Forall (ai_value_ok d) new
    /\ numAIs ctx' <= Nat.max (numAIs ctx) MAX_AIS
    /\ (ret = true -> errFlag ctx' = false /\ errMsg ctx' = []).
Proof.
  unfold gs1_processAIdata.
  pose proof (processAIdata_run_total MAX_AIS ctx d) as T.
  destruct (gs1_processAIdata_run MAX_AIS ctx d) as [res|] eqn:R; [|contradiction].
  intros ->. unfold gs1_processAIdata_run in R.
  assert (Nil : forall c : gs1_encoder,
             aiData c = aiData ctx ->
             exists new, aiData c = aiData ctx ++ new /\ Forall (ai_value_ok d) new
                         /\ numAIs c <= Nat.max (numAIs ctx) MAX_AIS
                         /\ (false = true -> errFlag c = false /\ errMsg c = [])).
  { intros c E. exists []. rewrite app_nil_r. split; [assumption|].
    split; [constructor|]. split; [unfold numAIs; rewrite E; lia | discriminate]. }
  destruct (is_nul (deref (c_str d)) || negb (Ascii.eqb (deref (c_str d)) "#")).
  { injection R as Q1 Q2 Q3; subst ret ctx' d'. apply Nil. reflexivity. }
  destruct (is_nul (deref (skipn 1 (c_str d)))).
  { injection R as Q1 Q2 Q3; subst ret ctx' d'. apply Nil. reflexivity. }
  apply processAIdata_loop_inv in R. exact R.
Qed.

End ProcessInvariant.

Section ProcessProperties.

Variable MAX_DATA : nat.
Variable MAX_AI_LEN : nat.
Variable MAX_AIS : nat.

(** X12.  Whatever [gs1_processAIdata] returns, every AI it has added
    to the extracted AIs is sound over the data string: the entry is one of
    the table, its key stands in the data right before the value, and the
    value lies within the data, is not empty, is no longer than the AI
    allows (so that the cast of its length to [uint8_t] loses nothing) and
    holds no "#". *)
Theorem gs1_processAIdata_extracted_in_data (ctx : gs1_encoder) (d : list ascii)
    (ret : bool) (ctx' : gs1_encoder) (d' : list ascii) :
  gs1_processAIdata MAX_AIS ctx d = (ret, ctx', d') ->
  exists new, aiData ctx' = aiData ctx ++ new /\ Forall (ai_value_ok d) new.
Proof.
  intros H. destruct (gs1_processAIdata_inv MAX_AIS _ _ _ _ _ H) as (new & A & B & _).
  exists new. auto.
Qed.

(** X13.  The extracted AIs never outgrow their array: after any of the
    three parse operations the list holds no more than MAX_AIS entries if
    it held no more before, and a list that was full already is left as it
    was. *)
Theorem parse_ops_capacity (op : parse_op) (ctx : gs1_encoder) (input : list ascii)
    (ret : bool) (ctx' : gs1_encoder) (out : list ascii) :
  run_op MAX_DATA MAX_AI_LEN MAX_AIS op ctx input = (ret, ctx', out) ->
  (numAIs ctx <= MAX_AIS -> numAIs ctx' <= MAX_AIS)
  /\ (MAX_AIS <= numAIs ctx -> aiData ctx' = aiData ctx).
Proof.
  intros H.
  assert (I : exists new, aiData ctx' = aiData ctx ++ new
                          /\ numAIs ctx' <= Nat.max (numAIs ctx) MAX_AIS).
  { destruct (run_op_shape MAX_DATA MAX_AI_LEN MAX_AIS op ctx input)
      as [(c1 & E1 & [F|F] & _) | (d & F)]; rewrite F in H.
    - injection H as Q1 Q2 Q3. subst ctx'. exists []. cbn [set_err aiData].
      rewrite app_nil_r. split; [assumption|]. unfold numAIs. cbn [set_err aiData].
      rewrite E1. lia.
    - injection H as Q1 Q2 Q3. subst ctx'. exists []. cbn [set_err aiData].
      rewrite app_nil_r. split; [assumption|]. unfold numAIs. cbn [set_err aiData].
      rewrite E1. lia.
    - destruct (gs1_processAIdata_inv MAX_AIS _ _ _ _ _ H) as (new & A & _ & C & _).
      exists new. auto. }
  destruct I as (new & A & C). split; [lia|].
  intros Full. unfold numAIs in *. rewrite A, length_app in C.
  destruct new; [now rewrite app_nil_r in A | simpl in C; lia].
Qed.

(** X14.  A parse operation that returns true leaves no error behind:
    the error flag is clear and the error message empty, whatever they
    were before the call. *)
Theorem parse_ops_success_clears_error (op : parse_op) (ctx : gs1_encoder)
    (input : list ascii) (ctx' : gs1_encoder) (out : list ascii) :
  run_op MAX_DATA MAX_AI_LEN MAX_AIS op ctx input = (true, ctx', out) ->
  errFlag ctx' = false /\ errMsg ctx' = [].
Proof.
  intros H.
  destruct (run_op_shape MAX_DATA MAX_AI_LEN MAX_AIS op ctx input)
    as [(c1 & E1 & [F|F] & _) | (d & F)]; rewrite F in H.
  - discriminate.
  - discriminate.
  - destruct (gs1_processAIdata_inv MAX_AIS _ _ _ _ _ H) as (new & _ & _ & _ & E).
    now apply E.
Qed.

(** X15.  How [gs1_processAIdata] turns away data at its head: data that
    does not start with "#", the empty string among them, for a missing
    FNC1; a "#" alone for being empty; and a "#" followed by data that no
    key of the table starts, for an unrecognised AI, named by the first
    four bytes of that data.  Nothing is extracted in these cases. *)
Theorem gs1_processAIdata_rejects_head (ctx : gs1_encoder) (d : list ascii) :
  (deref (c_str d) <> "#"%char ->
   gs1_processAIdata MAX_AIS ctx d
   = (false, set_err ctx (str "Missing FNC1 in first position"), d))
  /\ (c_str d = str "#" ->
      gs1_processAIdata MAX_AIS ctx d
      = (false, set_err ctx (str "The AI data is empty"), d))
  /\ (forall rest,
         c_str d = "#"%char :: rest -> rest <> [] ->
         (forall e, In e ai_table -> ~ prefix_of (ai e) rest) ->
         gs1_processAIdata MAX_AIS ctx d
         = (false, set_err ctx (str "Unrecognised AI: " ++ firstn 4 rest), d)).
Proof.
  unfold gs1_processAIdata, gs1_processAIdata_run.
  split; [|split].
  - intros N.
    destruct (Ascii.eqb_spec (deref (c_str d)) "#") as [E|_]; [contradiction|].
    rewrite orb_true_r. reflexivity.
  - intros E. rewrite E. reflexivity.
  - intros rest E Hne Nk. rewrite E.
    pose proof (c_str_no_nul d) as NN. rewrite E in NN.
    apply Forall_cons_iff in NN. destruct NN as [_ NN].
    destruct rest as [|c rest']; [contradiction|].
    assert (Hc : is_nul c = false).
    { apply Forall_cons_iff in NN. destruct NN as [Nc _]. unfold is_nul.
      destruct (Ascii.eqb_spec c NUL); [contradiction | reflexivity]. }
    cbn [deref hd skipn length]. change (is_nul "#") with false.
    change (negb (Ascii.eqb "#" "#")) with false. cbn [orb]. rewrite Hc.
    cbn [processAIdata_loop]. rewrite !E.
    cbn [skipn deref hd]. rewrite Hc.
    destruct (lookupAIentry (c :: rest') 0) as [e|] eqn:L; [|reflexivity].
    apply lookupAIentry_in_table in L. destruct L as [T M].
    exfalso. apply (Nk e T). eapply ai_matches_prefix. exact M.
Qed.

End ProcessProperties.

Lemma gs1_processAIdata_extracted_in_data_witness :
  exists ctx' new,
    gs1_processAIdata 64 fresh_ctx (str "#0112345678901231#10ABC")
    = (true, ctx', str "#0112345678901231#10ABC")
    /\ aiData ctx' = aiData fresh_ctx ++ new
    /\ Forall (ai_value_ok (str "#0112345678901231#10ABC")) new.
Proof.
  eexists.
  assert (H : gs1_processAIdata 64 fresh_ctx (str "#0112345678901231#10ABC")
              = (true, _, str "#0112345678901231#10ABC")) by (vm_compute; reflexivity).
  destruct (gs1_processAIdata_extracted_in_data 64 _ _ _ _ _ H) as (new & A & B).
  exists new. split; [exact H|]. split; [exact A | exact B].
Defined.

Lemma parse_ops_capacity_witness :
  exists ctx' out,
    run_op 100 90 1 op_parseAIdata fresh_ctx (str "(01)12345678901231(10)ABC")
    = (false, ctx', out)
    /\ (numAIs fresh_ctx <= 1 -> numAIs ctx' <= 1)
    /\ (1 <= numAIs fresh_ctx -> aiData ctx' = aiData fresh_ctx).
Proof.
  eexists. eexists.
  match goal with
  | |- ?A /\ _ => assert (H : A) by (vm_compute; reflexivity)
  end.
  split; [exact H|].
  exact (parse_ops_capacity 100 90 1 _ _ _ _ _ _ H).
Defined.

Lemma parse_ops_success_clears_error_witness :
  exists ctx' out,
    run_op 100 90 64 op_parseDLuri
      (set_err fresh_ctx (str "AI (01): Incorrect check digit"))
      (str "https://a/01/02345673")
    = (true, ctx', out)
    /\ errFlag ctx' = false /\ errMsg ctx' = [].
Proof.
  eexists. eexists.
  match goal with
  | |- ?A /\ _ => assert (H : A) by (vm_compute; reflexivity)
  end.
  split; [exact H|].
  exact (parse_ops_success_clears_error 100 90 64 _ _ _ _ _ H).
Defined.

Lemma gs1_processAIdata_rejects_head_witness :
  gs1_processAIdata 64 fresh_ctx (str "#891234")
  = (false, set_err fresh_ctx (str "Unrecognised AI: " ++ firstn 4 (str "891234")),
     str "#891234").
Proof.
  apply (proj2 (proj2 (gs1_processAIdata_rejects_head 64 fresh_ctx (str "#891234")))).
  - reflexivity.
  - discriminate.
  - intros e T P.
    assert (A : forallb (fun e => negb (is_prefix (ai e) (str "891234"))) ai_table = true)
      by (vm_compute; reflexivity).
    pose proof (proj1 (forallb_forall _ _) A e T) as He. cbv beta in He.
    apply is_prefix_spec in P. rewrite P in He. discriminate.
Defined.

(** ** [gs1_parseDLuri]: what of the URI matters *)

Lemma strspn_lt (s set : list ascii) :
  forallb (fun c => mem_char c set) s = false -> strspn s set <> length s.
Proof.
  induction s as [|c s IH]; intros H; [discriminate|].
  cbn [forallb strspn length] in *.
  destruct (mem_char c set); [|discriminate].
  cbn [andb] in H. specialize (IH H). lia.
Qed.

Section DLProperties.

Variable MAX_DATA : nat.
Variable MAX_AI_LEN : nat.
Variable MAX_AIS : nat.

(** X16.  The scheme and the host of a DL URI do not matter: two URIs
    that differ in them alone, each with http:// or https:// and a host
    that is not empty, are parsed to the same result. *)
Theorem gs1_parseDLuri_ignores_host (ctx : gs1_encoder)
    (scheme1 host1 scheme2 host2 pi rest : list ascii) :
  scheme1 = str "http://" \/ scheme1 = str "https://" ->
  scheme2 = str "http://" \/ scheme2 = str "https://" ->
  host1 <> [] -> no_slash host1 -> uri_chars_only host1 = true ->
  host2 <> [] -> no_slash host2 -> uri_chars_only host2 = true ->
  deref pi = "/"%char -> ~ In "?"%char pi ->
  rest = [] \/ deref rest = "?"%char ->
  uri_chars_only (pi ++ rest) = true ->
  gs1_parseDLuri MAX_DATA MAX_AI_LEN MAX_AIS ctx (scheme1 ++ host1 ++ pi ++ rest)
  = gs1_parseDLuri MAX_DATA MAX_AI_LEN MAX_AIS ctx (scheme2 ++ host2 ++ pi ++ rest).
Proof.
  intros S1 S2 H1 N1 U1 H2 N2 U2 Hpi Nq Hr U.
  assert (Us : forall s, s = str "http://" \/ s = str "https://" -> uri_chars_only s = true)
    by (intros s [-> | ->]; reflexivity).
  unfold gs1_parseDLuri.
  rewrite (gs1_parseDLuri_run_uri MAX_DATA MAX_AI_LEN MAX_AIS ctx scheme1 host1 pi rest);
    try assumption.
  2:{ rewrite !uri_chars_only_app, (Us _ S1), U1. rewrite uri_chars_only_app in U.
      exact U. }
  rewrite (gs1_parseDLuri_run_uri MAX_DATA MAX_AI_LEN MAX_AIS ctx scheme2 host2 pi rest);
    try assumption.
  - reflexivity.
  - rewrite !uri_chars_only_app, (Us _ S2), U2. rewrite uri_chars_only_app in U.
    exact U.
Qed.

(** X17.  Malformed URIs: a URI with a character outside the URI
    characters, a URI that starts with neither scheme, and a URI with
    nothing, or nothing but a host, after the scheme are each turned away
    with a message of their own, with nothing written and nothing
    extracted. *)
Theorem gs1_parseDLuri_malformed (ctx : gs1_encoder) (u : list ascii) :
  (uri_chars_only (c_str u) = false ->
   gs1_parseDLuri MAX_DATA MAX_AI_LEN MAX_AIS ctx u
   = (false, set_err ctx (str "URI contains illegal characters"), []))
  /\ (uri_chars_only (c_str u) = true ->
      ~ prefix_of (str "https://") (c_str u) -> ~ prefix_of (str "http://") (c_str u) ->
      gs1_parseDLuri MAX_DATA MAX_AI_LEN MAX_AIS ctx u
      = (false, set_err ctx (str "Scheme must be http:// or https://"), []))
  /\ (forall scheme x,
         uri_chars_only (c_str u) = true ->
         scheme = str "http://" \/ scheme = str "https://" ->
         c_str u = scheme ++ x ->
         ~ In "/"%char x \/ deref x = "/"%char ->
         gs1_parseDLuri MAX_DATA MAX_AI_LEN MAX_AIS ctx u
         = (false, set_err ctx (str "URI must contain a domain and path info"), [])).
Proof.
  unfold gs1_parseDLuri, gs1_parseDLuri_run.
  split; [|split].
  - intros H.
    destruct (Nat.eqb_spec (strspn (c_str u) uriCharacters) (length (c_str u))) as [E|_];
      [exfalso; revert E; apply strspn_lt; exact H | reflexivity].
  - intros H N8 N7.
    rewrite (strspn_all _ _ H), Nat.eqb_refl. cbn [negb].
    assert (T8 : (8 <=? length (c_str u)) && strncmp0 (c_str u) (str "https://") 8 = false).
    { destruct (strncmp0 (c_str u) (str "https://") 8) eqn:E; [|apply andb_false_r].
      exfalso. apply N8. apply (strncmp0_prefix (str "https://")). exact E. }
    assert (T7 : (7 <=? length (c_str u)) && strncmp0 (c_str u) (str "http://") 7 = false).
    { destruct (strncmp0 (c_str u) (str "http://") 7) eqn:E; [|apply andb_false_r].
      exfalso. apply N7. apply (strncmp0_prefix (str "http://")). exact E. }
    rewrite T8, T7. reflexivity.
  - intros scheme x H Hs E Hx.
    rewrite (strspn_all _ _ H), Nat.eqb_refl. cbn [negb]. rewrite E.
    assert (D : match strchr x "/" with
                | None => True
                | Some n => (n <? 1) = true
                end).
    { destruct Hx as [Hx|Hx].
      - now rewrite strchr_notin.
      - destruct x as [|c x']; [exact I|]. simpl in Hx. subst c. reflexivity. }
    destruct Hs as [-> | ->].
    + destruct (scheme_http x) as (A & B & C). rewrite A, B. cbv beta iota zeta.
      rewrite C. destruct (strchr x "/") as [n|]; [rewrite D|]; reflexivity.
    + destruct (scheme_https x) as (A & C). rewrite A. cbv beta iota zeta.
      rewrite C. destruct (strchr x "/") as [n|]; [rewrite D|]; reflexivity.
Qed.

End DLProperties.

Lemma gs1_parseDLuri_ignores_host_witness :
  gs1_parseDLuri 100 90 64 fresh_ctx
    (str "http://" ++ str "example.org" ++ str "/01/12312312312333/22/ABC" ++ str "?99=XYZ")
  = gs1_parseDLuri 100 90 64 fresh_ctx
      (str "https://" ++ str "a" ++ str "/01/12312312312333/22/ABC" ++ str "?99=XYZ").
Proof.
  apply gs1_parseDLuri_ignores_host;
    try reflexivity; try discriminate;
    try (apply existsb_eqb_false; reflexivity); auto.
Defined.

Lemma gs1_parseDLuri_malformed_witness :
  gs1_parseDLuri 100 90 64 fresh_ctx (str "ftp://a/01/12312312312333")
  = (false, set_err fresh_ctx (str "Scheme must be http:// or https://"), []).
Proof.
  apply (proj1 (proj2 (gs1_parseDLuri_malformed 100 90 64 fresh_ctx
                         (str "ftp://a/01/12312312312333")))).
  - reflexivity.
  - intros P. apply is_prefix_spec in P. discriminate.
  - intros P. apply is_prefix_spec in P. discriminate.
Defined.

(** ** Bounds *)

(** X18.  [gs1_allDigits] on a string and a length: true exactly when
    the length does not reach past the end of the string and the bytes
    asked about (all of the string for a length of 0) are digits; so true
    for the empty string with length 0, and false when the loop comes to
    the terminator. *)
Theorem gs1_allDigits_spec (s : list ascii) (len : nat) :
  no_nul s ->
  (gs1_allDigits s len = true
   <-> len <= length s
       /\ forallb is_digit (firstn (if len =? 0 then length s else len) s) = true).
Proof.
  intros NN. unfold gs1_allDigits. rewrite (c_str_id s NN).
  destruct (Nat.eqb_spec len 0) as [->|Hn].
  - rewrite firstn_app_length, firstn_all. split; [intros H; split; [lia | exact H] | tauto].
  - destruct (Nat.le_gt_cases len (length s)) as [Hle|Hgt].
    + rewrite firstn_app. replace (len - length s) with 0 by lia.
      cbn [firstn]. rewrite app_nil_r. tauto.
    + rewrite firstn_all2 by (rewrite length_app; simpl; lia).
      rewrite forallb_app. cbn [forallb]. change (is_digit NUL) with false.
      rewrite andb_false_r. split; [discriminate | lia].
Qed.

Lemma gs1_allDigits_spec_witness :
  gs1_allDigits (str "0123") 5 = true
  <-> 5 <= length (str "0123")
      /\ forallb is_digit (firstn (if 5 =? 0 then length (str "0123") else 5) (str "0123"))
         = true.
Proof. apply gs1_allDigits_spec. repeat constructor; discriminate. Defined.

Section OutputBound.

Variable MAX_DATA : nat.
Variable MAX_AI_LEN : nat.
Variable MAX_AIS : nat.

Lemma writeDataStr_len (ds v ds' : list ascii) :
  writeDataStr MAX_DATA ds v = Some ds' -> length ds' <= MAX_DATA.
Proof.
  unfold writeDataStr. destruct (Nat.ltb_spec MAX_DATA (length ds + length v)); [discriminate|].
  intros E. injection E as <-. rewrite length_app. lia.
Qed.

Lemma nwriteDataStr_len (ds v : list ascii) (l : nat) (ds' : list ascii) :
  nwriteDataStr MAX_DATA ds v l = Some ds' -> length ds' <= MAX_DATA.
Proof.
  unfold nwriteDataStr. destruct (Nat.ltb_spec MAX_DATA (length ds + l)); [discriminate|].
  intros E. injection E as <-. rewrite length_app, length_firstn. lia.
Qed.

Lemma parseAIdata_value_len (fuel : nat) :
  forall prev r ds p ds',
    parseAIdata_value MAX_DATA fuel prev r ds = Some (Some (p, ds')) ->
    length ds' <= MAX_DATA.
Proof.
  induction fuel as [|fuel IH]; intros prev r ds p ds' H; [discriminate|].
  cbn [parseAIdata_value] in H.
  match type of H with
  | (if ?c then _ else _) = _ => destruct c
  end.
  - destruct (nwriteDataStr MAX_DATA ds r _) as [ds1|]; [|discriminate].
    destruct (writeDataStr MAX_DATA ds1 (str "(")) as [ds2|]; [|discriminate].
    eapply IH. exact H.
  - destruct (nwriteDataStr MAX_DATA ds r _) as [ds1|] eqn:W; [|discriminate].
    injection H as _ <-. eapply nwriteDataStr_len. exact W.
Qed.

Lemma parseAIdata_loop_len (fuel : nat) :
  forall ctx p ds b ret ctx' out,
    parseAIdata_loop MAX_DATA MAX_AIS fuel ctx p ds b = Some (ret, ctx', out) ->
    length ds <= MAX_DATA -> length out <= MAX_DATA.
Proof.
  induction fuel as [|fuel IH]; intros ctx p ds b ret ctx' out H L; [discriminate|].
  cbn [parseAIdata_loop] in H.
  assert (Fail : forall c, Some (parseAIdata_fail c) = Some (ret, ctx', out) ->
                           length out <= MAX_DATA).
  { intros c E. unfold parseAIdata_fail in E. injection E as _ _ <-. simpl. lia. }
  destruct (is_nul (deref p)).
  { injection H as H. apply gs1_processAIdata_spec in H. destruct H as (-> & _). exact L. }
  destruct (negb (Ascii.eqb (deref p) "(")); [eapply Fail; exact H|].
  destruct (strchr (skipn 1 p) ")") as [n|]; [|eapply Fail; exact H].
  destruct (lookupAIentry (skipn 1 p) n) as [e|]; [|eapply Fail; exact H].
  destruct (if b then writeDataStr MAX_DATA ds (str "#") else Some ds) as [ds1|];
    [|eapply Fail; exact H].
  destruct (writeDataStr MAX_DATA ds1 (ai e)) as [ds2|]; [|eapply Fail; exact H].
  destruct (is_nul (deref (skipn (S n) (skipn 1 p)))); [eapply Fail; exact H|].
  destruct (parseAIdata_value MAX_DATA (S (length (skipn (S n) (skipn 1 p)))) ")"
              (skipn (S n) (skipn 1 p)) ds2) as [[[p' ds3]|]|] eqn:PV;
    [| eapply Fail; exact H | discriminate].
  apply parseAIdata_value_len in PV.
  destruct (aiValLengthContentCheck ctx e _ _) as [ok ctx1].
  destruct ok; [|eapply Fail; exact H].
  eapply IH; eassumption.
Qed.

Lemma parseDLuri_ai_len (ctx : gs1_encoder) (e : aiEntry) (msg inp : list ascii)
    (inlen : nat) (ds : list ascii) (b : bool) (c : gs1_encoder) (ds' : list ascii)
    (b' : bool) :
  parseDLuri_ai MAX_DATA MAX_AI_LEN ctx e msg inp inlen ds b = Done (c, ds', b') ->
  length ds' <= MAX_DATA.
Proof.
  unfold parseDLuri_ai. intros H.
  destruct (length (URIunescape MAX_AI_LEN inp inlen) =? 0); [discriminate|].
  destruct (if b then writeDataStr MAX_DATA ds (str "#") else Some ds) as [ds1|];
    [|discriminate].
  destruct (writeDataStr MAX_DATA ds1 (ai e)) as [ds2|]; [|discriminate].
  destruct (nwriteDataStr MAX_DATA ds2 _ _) as [ds3|] eqn:W; [|discriminate].
  destruct (aiValLengthContentCheck ctx e _ _) as [ok ctx1].
  destruct ok; [|discriminate].
  injection H as _ <- _. eapply nwriteDataStr_len. exact W.
Qed.

Lemma parseDLuri_path_len (fuel : nat) :
  forall ctx p ds b c ds' b',
    parseDLuri_path MAX_DATA MAX_AI_LEN fuel ctx p ds b = Some (Done (c, ds', b')) ->
    length ds <= MAX_DATA -> length ds' <= MAX_DATA.
Proof.
  induction fuel as [|fuel IH]; intros ctx p ds b c ds' b' H L; [discriminate|].
  cbn [parseDLuri_path] in H.
  destruct (is_nul (deref p)); [injection H as _ <- _; exact L|].
  destruct (negb (Ascii.eqb (deref p) "/")); [discriminate|].
  destruct (strchr (skipn 1 p) "/") as [n|]; [|discriminate].
  destruct (lookupAIentry (skipn 1 p) n) as [e|]; [|discriminate].
  destruct (parseDLuri_ai MAX_DATA MAX_AI_LEN ctx e _ _ _ ds b)
    as [[[c1 ds1] b1]|c1] eqn:B; [|discriminate].
  apply parseDLuri_ai_len in B. eapply IH; eassumption.
Qed.

Lemma parseDLuri_query_len (fuel : nat) :
  forall ctx p ds b c ds' b',
    parseDLuri_query MAX_DATA MAX_AI_LEN fuel ctx p ds b = Some (Done (c, ds', b')) ->
    length ds <= MAX_DATA -> length ds' <= MAX_DATA.
Proof.
  induction fuel as [|fuel IH]; intros ctx p ds b c ds' b' H L; [discriminate|].
  cbn [parseDLuri_query] in H.
  destruct (is_nul (deref p)); [injection H as _ <- _; exact L|].
  set (p' := skip_amps p) in *.
  set (n := strchr_end p' "&") in *.
  destruct (strchr (firstn n p') "=") as [k|]; [|eapply IH; eassumption].
  destruct (gs1_allDigits p' k); [|eapply IH; eassumption].
  destruct (lookupAIentry p' k) as [e|]; [|discriminate].
  destruct (parseDLuri_ai MAX_DATA MAX_AI_LEN ctx e _ _ _ ds b)
    as [[[c1 ds1] b1]|c1] eqn:B; [|discriminate].
  apply parseDLuri_ai_len in B. eapply IH; eassumption.
Qed.

Lemma parseDLuri_from_path_len (ctx : gs1_encoder) (pi : list ascii)
    (qp : option (list ascii)) (ret : bool) (ctx' : gs1_encoder) (out : list ascii) :
  parseDLuri_from_path MAX_DATA MAX_AI_LEN MAX_AIS ctx pi qp = Some (ret, ctx', out) ->
  length out <= MAX_DATA.
Proof.
  unfold parseDLuri_from_path, parseDLuri_fail. intros H.
  assert (Fail : forall c m, Some (false, set_err c m, @nil ascii) = Some (ret, ctx', out) ->
                             length out <= MAX_DATA).
  { intros c m E. injection E as _ _ <-. simpl. lia. }
  destruct (parseDLuri_root (S (length pi)) pi (length pi)) as [[dp|]|];
    [| eapply Fail; exact H | discriminate].
  destruct (parseDLuri_path MAX_DATA MAX_AI_LEN (S (length pi)) ctx (skipn dp pi) [] true)
    as [[[[c1 ds1] b1]|c1]|] eqn:P; [| eapply Fail; exact H | discriminate].
  apply parseDLuri_path_len in P; [|simpl; lia].
  match type of H with
  | match parseDLuri_query _ _ ?f _ ?q _ _ with _ => _ end = _ =>
      destruct (parseDLuri_query MAX_DATA MAX_AI_LEN f c1 q ds1 b1)
        as [[[[c2 ds2] b2]|c2]|] eqn:Q; [| eapply Fail; exact H | discriminate]
  end.
  apply parseDLuri_query_len in Q; [|assumption].
  injection H as H. apply gs1_processAIdata_spec in H. destruct H as (-> & _). exact Q.
Qed.

(** X19.  Neither ingester overruns its output buffer: whatever the
    input, what [gs1_parseAIdata] and [gs1_parseDLuri] leave in [dataStr]
    is no longer than MAX_DATA bytes. *)
Theorem parsers_output_within_MAX_DATA :
  (forall ctx s, length (snd (gs1_parseAIdata MAX_DATA MAX_AIS ctx s)) <= MAX_DATA)
  /\ (forall ctx u,
         length (snd (gs1_parseDLuri MAX_DATA MAX_AI_LEN MAX_AIS ctx u)) <= MAX_DATA).
Proof.
  split.
  - intros ctx s. unfold gs1_parseAIdata, gs1_parseAIdata_run.
    destruct (parseAIdata_loop MAX_DATA MAX_AIS (S (length (c_str s))) (clear_err ctx)
                (c_str s) [] true) as [[[ret ctx'] out]|] eqn:H; [|simpl; lia].
    cbn [snd]. eapply parseAIdata_loop_len; [exact H | simpl; lia].
  - intros ctx u. unfold gs1_parseDLuri.
    destruct (gs1_parseDLuri_run MAX_DATA MAX_AI_LEN MAX_AIS ctx u)
      as [[[ret ctx'] out]|] eqn:H; [|simpl; lia].
    cbn [snd]. unfold gs1_parseDLuri_run, parseDLuri_fail in H.
    assert (Fail : forall c m,
               Some (false, set_err c m, @nil ascii) = Some (ret, ctx', out) ->
               length out <= MAX_DATA).
    { intros c m E. injection E as _ _ <-. simpl. lia. }
    destruct (negb (strspn (c_str u) uriCharacters =? length (c_str u)));
      [eapply Fail; exact H|].
    destruct (if (8 <=? length (c_str u)) && strncmp0 (c_str u) (str "https://") 8
              then Some 8
              else if (7 <=? length (c_str u)) && strncmp0 (c_str u) (str "http://") 7
                   then Some 7 else None) as [k|]; [|eapply Fail; exact H].
    destruct (strchr (skipn k (c_str u)) "/") as [n|]; [|eapply Fail; exact H].
    destruct (n <? 1); [eapply Fail; exact H|].
    destruct (strchr (skipn n (skipn k (c_str u))) "?") as [i|];
      eapply parseDLuri_from_path_len; exact H.
Qed.

End OutputBound.

(** ** Bracketed AI syntax: from the AIs to the element string *)

Lemma bracketed_head (cs : list (aiEntry * list ascii)) :
  bracketed cs = [] \/ exists t, bracketed cs = "("%char :: t.
Proof. destruct cs as [|[e v] cs]; [left | right]; simpl; eauto. Qed.

Lemma bracketed_cons (e : aiEntry) (v : list ascii) (cs : list (aiEntry * list ascii)) :
  bracketed ((e, v) :: cs) = "("%char :: ai e ++ ")"%char :: v ++ bracketed cs.
Proof.
  unfold bracketed. cbn [flat_map fst snd app]. f_equal.
  rewrite <- app_assoc. reflexivity.
Qed.

Lemma bracketed_no_nul (cs : list (aiEntry * list ascii)) :
  Forall bracket_ok cs -> no_nul (bracketed cs).
Proof.
  induction 1 as [|[e v] cs (Ok & _) _ IH]; [constructor|].
  destruct Ok as (T & _ & _ & Nv). cbn [fst snd] in *.
  rewrite bracketed_cons.
  constructor; [discriminate|].
  apply no_nul_app. split; [now apply key_no_nul|].
  cbn [app]. constructor; [discriminate|]. apply no_nul_app. now split.
Qed.

Lemma nth_last_app (v rest : list ascii) :
  v <> [] -> nth (length v - 1) (v ++ rest) NUL = last v NUL.
Proof.
  intros Hv. destruct (exists_last Hv) as (u & a & ->).
  rewrite last_last, length_app. cbn [length].
  replace (length u + 1 - 1) with (length u) by lia.
  rewrite <- app_assoc. rewrite app_nth2 by lia. now rewrite Nat.sub_diag.
Qed.

Section Bracketed.

Variable MAX_DATA : nat.
Variable MAX_AIS : nat.

(** The value loop on a value that needs no escapes. *)
Lemma parseAIdata_value_plain (fuel : nat) (prev : ascii) (v rest ds : list ascii) :
  v <> [] -> ~ In "("%char v -> last v NUL <> "\"%char ->
  no_nul (v ++ rest) ->
  rest = [] \/ (exists t, rest = "("%char :: t) ->
  length ds + length v <= MAX_DATA ->
  parseAIdata_value MAX_DATA (S fuel) prev (v ++ rest) ds = Some (Some (rest, ds ++ v)).
Proof.
  intros Hv Nb Nl NN Hr Room. cbn [parseAIdata_value].
  assert (E : strchr_end (v ++ rest) "(" = length v).
  { rewrite strchr_end_app_notin by assumption.
    destruct Hr as [-> | [t ->]]; [unfold strchr_end; simpl; lia|].
    rewrite strchr_end_head. lia. }
  rewrite E, skipn_app_length.
  assert (Lv : 0 < length v) by (destruct v; [contradiction | simpl; lia]).
  destruct (length v) as [|n'] eqn:L; [lia|].
  replace (nth n' (v ++ rest) NUL) with (last v NUL)
    by (rewrite <- (nth_last_app v rest Hv), L; f_equal; lia).
  destruct (Ascii.eqb_spec (last v NUL) "\") as [B|_]; [contradiction|].
  rewrite andb_false_r.
  unfold nwriteDataStr. rewrite <- L.
  destruct (Nat.ltb_spec MAX_DATA (length ds + length v)); [lia|].
  rewrite (c_str_id _ NN), firstn_app_length. reflexivity.
Qed.

Lemma parseAIdata_loop_bracketed (cs : list (aiEntry * list ascii)) :
  Forall bracket_ok cs ->
  forall fuel ctx ds b,
    length (bracketed cs) < fuel ->
    length (ds ++ render b cs) <= MAX_DATA ->
    parseAIdata_loop MAX_DATA MAX_AIS fuel ctx (bracketed cs) ds b
    = Some (gs1_processAIdata MAX_AIS ctx (ds ++ render b cs)).
Proof.
  induction 1 as [|[e v] cs Hc Hcs IH]; intros fuel ctx ds b Hf Room.
  - destruct fuel; [simpl in Hf; lia|]. simpl. now rewrite app_nil_r.
  - destruct fuel as [|fuel]; [lia|].
    destruct Hc as ((T & Len & NH & Nv) & Nb & Nl). cbn [fst snd] in *.
    pose proof (entry_facts_in e T) as F.
    pose proof (ef_digits e F) as Dk. pose proof (ef_min1 e F) as M1.
    assert (Hv : v <> []) by (destruct v; [simpl in Len; lia | discriminate]).
    assert (NNr : no_nul (bracketed cs)) by now apply bracketed_no_nul.
    rewrite bracketed_cons in *.
    cbn [render] in Room. rewrite !length_app in Room.
    cbn [parseAIdata_loop deref hd].
    change (is_nul "(") with false. change (negb (Ascii.eqb "(" "(")) with false.
    cbv iota.
    change (skipn 1 ("("%char :: ai e ++ ")"%char :: v ++ bracketed cs))
      with (ai e ++ ")"%char :: v ++ bracketed cs).
    rewrite strchr_app_notin by (apply digits_not_in; [assumption | reflexivity]).
    assert (R0 : lookupAIentry (ai e ++ ")"%char :: v ++ bracketed cs) (length (ai e))
                 = Some e).
    { apply lookupAIentry_matching; [assumption|].
      apply prefix_ai_matches; [eexists; reflexivity | now right]. }
    rewrite R0.
    assert (W1 : (if b then writeDataStr MAX_DATA ds (str "#") else Some ds)
                 = Some (ds ++ (if b then ["#"%char] else []))).
    { destruct b.
      - unfold writeDataStr.
        destruct (Nat.ltb_spec MAX_DATA (length ds + length (str "#")));
          [simpl in *; lia | reflexivity].
      - now rewrite app_nil_r. }
    rewrite W1.
    assert (L1 : length (ds ++ (if b then ["#"%char] else []))
                 = length ds + length (if b then ["#"%char] else []))
      by apply length_app.
    unfold writeDataStr at 1. rewrite L1.
    destruct (Nat.ltb_spec MAX_DATA
                (length ds + length (if b then ["#"%char] else []) + length (ai e)));
      [lia|].
    replace (skipn (S (length (ai e))) (ai e ++ ")"%char :: v ++ bracketed cs))
      with (v ++ bracketed cs)
      by (replace (S (length (ai e))) with (length (ai e) + 1) by lia;
          rewrite skipn_app_plus; reflexivity).
    assert (Hd : is_nul (deref (v ++ bracketed cs)) = false).
    { destruct v as [|c v']; [contradiction|]. cbn [app deref hd].
      apply Forall_cons_iff in Nv. destruct Nv as [Nc _]. unfold is_nul.
      destruct (Ascii.eqb_spec c NUL); [contradiction | reflexivity]. }
    rewrite Hd.
    rewrite parseAIdata_value_plain; try assumption.
    2:{ apply no_nul_app. now split. }
    2:{ apply bracketed_head. }
    2:{ rewrite !length_app. lia. }
    rewrite skipn_app_length.
    unfold aiValLengthContentCheck.
    destruct (Nat.ltb_spec (length v) (ai_minlen e)); [lia|].
    destruct (Nat.ltb_spec (ai_maxlen e) (length v)); [lia|].
    rewrite firstn_all, (not_in_existsb_false _ _ NH).
    rewrite IH.
    + f_equal. f_equal. rewrite <- !app_assoc. reflexivity.
    + cbn [length] in Hf. rewrite length_app in Hf. cbn [length] in Hf.
      rewrite length_app in Hf. lia.
    + rewrite <- !app_assoc, !length_app. lia.
Qed.

(** X20.  From the AIs to the element string: for a list of AIs of the
    table with values that pass the length and content check, hold no
    opening bracket and do not end in a backslash, [gs1_parseAIdata] on
    their bracketed form gives what [gs1_processAIdata] gives on their
    element string, provided the element string fits the output buffer. *)
Theorem gs1_parseAIdata_bracketed (ctx : gs1_encoder) (cs : list (aiEntry * list ascii)) :
  Forall bracket_ok cs ->
  length (render true cs) <= MAX_DATA ->
  gs1_parseAIdata MAX_DATA MAX_AIS ctx (bracketed cs)
  = gs1_processAIdata MAX_AIS ctx (render true cs).
Proof.
  intros Hcs Room. unfold gs1_parseAIdata, gs1_parseAIdata_run.
  rewrite (c_str_id _ (bracketed_no_nul cs Hcs)).
  rewrite parseAIdata_loop_bracketed; [| assumption | lia | exact Room].
  cbn [app]. apply processAIdata_clear_err.
Qed.

End Bracketed.

Lemma gs1_parseAIdata_bracketed_witness :
  gs1_parseAIdata 100 64 fresh_ctx (str "(01)24012345678905(10)AB)C\D")
  = gs1_processAIdata 64 fresh_ctx (str "#012401234567890510AB)C\D").
Proof.
  apply (gs1_parseAIdata_bracketed 100 64 fresh_ctx
           [(AI "01" NO_FNC1 (part cset_N 14 14 csum) __ __ __ __ "GTIN",
             str "24012345678905");
            (AI "10" FNC1 (part cset_X 1 20 _l) __ __ __ __ "BATCH/LOT",
             str "AB)C\D")]).
  - assert (L1 : lookupAIentry (str "01") 2
                 = Some (AI "01" NO_FNC1 (part cset_N 14 14 csum) __ __ __ __ "GTIN"))
      by (vm_compute; reflexivity).
    assert (L2 : lookupAIentry (str "10") 2
                 = Some (AI "10" FNC1 (part cset_X 1 20 _l) __ __ __ __ "BATCH/LOT"))
      by (vm_compute; reflexivity).
    pose proof (proj1 (lookupAIentry_in_table _ _ _ L1)) as T1.
    pose proof (proj1 (lookupAIentry_in_table _ _ _ L2)) as T2.
    repeat constructor; cbn [fst snd];
      try exact T1; try exact T2; try (vm_compute; lia); try discriminate;
      intros H; vm_compute in H; intuition discriminate.
  - vm_compute. lia.
Defined.
